(** * StartupOps: role-derived permissions, investor feed and store constraints

    A shallow embedding of the parts of the StartupOps repository that carry
    state and invariants:

    - [frontend/src/contexts/AuthContext.js]: the [PERMISSIONS] table, the
      derived [userRole] and the [permissions] object;
    - [frontend/src/pages/InvestorFeedPage.js]: the swipe, remove-match and
      undo handlers of the investor feed;
    - [backend/setup_database.sql]: the tables and their constraints.

    JavaScript values are modelled by a small value type with the language's
    truthiness and strict equality, JavaScript objects by finite maps from
    property names to values, SQL tables by lists of rows with the declared
    constraints checked on every statement. *)

From Stdlib Require Import ZArith QArith List Lia.
From stdpp Require Import base decidable option list strings pretty gmap.

Open Scope string_scope.

(** ** JavaScript values *)

Module Js.

(** The primitive values that reach the code under study.  Numbers are
    integers here: the code only compares, counts and indexes. *)
Inductive jsval : Type :=
| JUndefined
| JNull
| JBool (b : bool)
| JNum (n : Z)
| JStr (s : string).

#[export] Instance jsval_eq_dec : EqDecision jsval.
Proof. solve_decision. Defined.

(** [a === b] on primitive values. *)
Definition strict_eq (a b : jsval) : bool := bool_decide (a = b).

(** [a !== b]. *)
Definition strict_neq (a b : jsval) : bool := negb (strict_eq a b).

(** ToBoolean. *)
Definition truthy (v : jsval) : bool :=
  match v with
  | JUndefined | JNull => false
  | JBool b => b
  | JNum n => negb (Z.eqb n 0)
  | JStr s => negb (String.eqb s "")
  end.

(** [a || b]. *)
Definition js_or (a b : jsval) : jsval := if truthy a then a else b.

(** [arr.includes(v)]. *)
Definition includes (arr : list jsval) (v : jsval) : bool :=
  existsb (fun x => strict_eq x v) arr.

(** A plain object: property name to value. *)
Abbreviation obj := (gmap string jsval).

(** [o.p]: a missing property reads as [undefined]. *)
Definition get (o : obj) (p : string) : jsval := default JUndefined (o !! p).

(** [o?.p] where [o] may be [null]. *)
Definition opt_get (o : option obj) (p : string) : jsval :=
  match o with
  | None => JUndefined
  | Some o' => get o' p
  end.

(** [{...o, p: v}]. *)
Definition spread_set (o : obj) (p : string) (v : jsval) : obj := <[p := v]> o.

(** [arr[i]]: [None] is [undefined], read off either end of the array. *)
Definition index {A : Type} (arr : list A) (i : Z) : option A :=
  if (i <? 0)%Z then None else arr !! Z.to_nat i.

(** [`${v}`]: the text a value takes inside a template literal. *)
Definition template (v : jsval) : string :=
  match v with
  | JUndefined => "undefined"
  | JNull => "null"
  | JBool true => "true"
  | JBool false => "false"
  | JNum n => pretty n
  | JStr s => s
  end.

End Js.

Import Js.

(** ** AuthContext.js: roles and permissions *)

Module PERMISSIONS.

Definition canManageContent (role : jsval) : bool :=
  includes [JStr "founder"; JStr "manager"] role.
Definition canViewAnalytics (role : jsval) : bool :=
  includes [JStr "founder"; JStr "manager"] role.
Definition canAccessPitch (role : jsval) : bool :=
  strict_eq role (JStr "founder").
Definition canManageTeam (role : jsval) : bool :=
  includes [JStr "founder"; JStr "manager"] role.
Definition canViewTeam (role : jsval) : bool :=
  includes [JStr "founder"; JStr "manager"; JStr "member"] role.
Definition canViewTasks (role : jsval) : bool :=
  includes [JStr "founder"; JStr "manager"; JStr "member"] role.
Definition canManageStartup (role : jsval) : bool :=
  strict_eq role (JStr "founder").
Definition canViewInvestorFeed (role : jsval) : bool :=
  strict_eq role (JStr "investor").
Definition canViewMyInvestments (role : jsval) : bool :=
  strict_eq role (JStr "investor").
Definition canManageInvestors (role : jsval) : bool :=
  includes [JStr "founder"; JStr "manager"] role.

End PERMISSIONS.

Module AuthContext.

(** The object built by the [permissions] memo of [AuthProvider]. *)
Record Permissions : Type := mkPermissions {
  canManageContent : bool;
  canViewAnalytics : bool;
  canAccessPitch : bool;
  canManageTeam : bool;
  canViewTeam : bool;
  canViewTasks : bool;
  canManageStartup : bool;
  canViewInvestorFeed : bool;
  canViewMyInvestments : bool;
  canManageInvestors : bool
}.

(** [currentStartup?.user_role || "member"]; [None] is [null]. *)
Definition userRole (currentStartup : option obj) : jsval :=
  js_or (opt_get currentStartup "user_role") (JStr "member").

Definition permissions (userRole : jsval) : Permissions :=
  {| canManageContent := PERMISSIONS.canManageContent userRole;
     canViewAnalytics := PERMISSIONS.canViewAnalytics userRole;
     canAccessPitch := PERMISSIONS.canAccessPitch userRole;
     canManageTeam := PERMISSIONS.canManageTeam userRole;
     canViewTeam := PERMISSIONS.canViewTeam userRole;
     canViewTasks := PERMISSIONS.canViewTasks userRole;
     canManageStartup := PERMISSIONS.canManageStartup userRole;
     canViewInvestorFeed := PERMISSIONS.canViewInvestorFeed userRole;
     canViewMyInvestments := PERMISSIONS.canViewMyInvestments userRole;
     canManageInvestors := PERMISSIONS.canManageInvestors userRole |}.

(** Every predicate of the table answers [false]. *)
Definition no_permissions : Permissions :=
  mkPermissions false false false false false false false false false false.

(** What the table gives the string ["member"]. *)
Definition member_permissions : Permissions :=
  {| canManageContent := false;
     canViewAnalytics := false;
     canAccessPitch := false;
     canManageTeam := false;
     canViewTeam := true;
     canViewTasks := true;
     canManageStartup := false;
     canViewInvestorFeed := false;
     canViewMyInvestments := false;
     canManageInvestors := false |}.

(** A role string that is none of the four role names. *)
Definition unknown_role (s : string) : Prop :=
  s <> "founder" /\ s <> "manager" /\ s <> "member" /\ s <> "investor".

(** No workspace is selected: [currentStartup] is [null], or it is an
    object without a [user_role] property. *)
Definition no_workspace_role (currentStartup : option obj) : Prop :=
  currentStartup = None \/
  exists o, currentStartup = Some o /\ o !! "user_role" = None.

End AuthContext.

(** ** The capability table as the specification words it

    The second definition of the permission table, written from the rows of
    the specification's table and not from the code, to be compared with
    [PERMISSIONS]. *)

Module CapabilityTable.

Inductive Role : Type := founder | manager | member | investor.

Inductive Capability : Type :=
| ManageWorkspaceSettings   (* manage workspace settings / billing *)
| ManageTasksMilestones     (* create/edit/delete tasks & milestones *)
| ChangeOwnTaskStatus       (* change own assigned task status *)
| ViewAnalytics             (* view analytics / AI insights *)
| PitchGeneration           (* pitch generation *)
| ViewTeamRoster            (* view team roster *)
| ViewInviteCode            (* view/regenerate invite code *)
| RemoveMembers             (* remove members / change roles *)
| BrowseSwipe               (* browse/swipe startups *)
| ManageOwnInvestments      (* manage own investment records *)
| ViewInvestorPortal.       (* view founder-facing investor portal *)

#[export] Instance Role_eq_dec : EqDecision Role.
Proof. solve_decision. Defined.
#[export] Instance Capability_eq_dec : EqDecision Capability.
Proof. solve_decision. Defined.

Definition role_name (r : Role) : string :=
  match r with
  | founder => "founder"
  | manager => "manager"
  | member => "member"
  | investor => "investor"
  end.

(** One row of the table per capability: yes/no by role. *)
Definition table (c : Capability) (r : Role) : bool :=
  match c, r with
  | ManageWorkspaceSettings, founder => true
  | ManageTasksMilestones, (founder | manager) => true
  | ChangeOwnTaskStatus, (founder | manager | member) => true
  | ViewAnalytics, (founder | manager) => true
  | PitchGeneration, founder => true
  | ViewTeamRoster, (founder | manager | member) => true
  | ViewInviteCode, founder => true
  | RemoveMembers, founder => true
  | BrowseSwipe, investor => true
  | ManageOwnInvestments, investor => true
  | ViewInvestorPortal, founder => true
  | _, _ => false
  end.

(** The predicate of [PERMISSIONS] that stands behind each row: the
    settings page and the invite code share [canManageStartup], the task
    board is gated by [canViewTasks], the "Manage Investors" portal by
    [canManageInvestors]. *)
Definition predicate_of (c : Capability) : jsval -> bool :=
  match c with
  | ManageWorkspaceSettings => PERMISSIONS.canManageStartup
  | ManageTasksMilestones => PERMISSIONS.canManageContent
  | ChangeOwnTaskStatus => PERMISSIONS.canViewTasks
  | ViewAnalytics => PERMISSIONS.canViewAnalytics
  | PitchGeneration => PERMISSIONS.canAccessPitch
  | ViewTeamRoster => PERMISSIONS.canViewTeam
  | ViewInviteCode => PERMISSIONS.canManageStartup
  | RemoveMembers => PERMISSIONS.canManageTeam
  | BrowseSwipe => PERMISSIONS.canViewInvestorFeed
  | ManageOwnInvestments => PERMISSIONS.canViewMyInvestments
  | ViewInvestorPortal => PERMISSIONS.canManageInvestors
  end.

(** What the code grants role [r] for capability [c]. *)
Definition granted (c : Capability) (r : Role) : bool :=
  predicate_of c (JStr (role_name r)).

End CapabilityTable.

(** ** setup_database.sql: tables, constraints and statements *)

Module Db.

(** [uuid] columns hold the text of a UUID, [timestamptz] an instant,
    [numeric(10, 2)] an exact decimal, read as a rational. *)
Definition uuid : Type := string.
Definition timestamptz : Type := Z.
Definition numeric : Type := Q.

Record date : Type := mkDate { year : Z; month : Z; day : Z }.

(** A column without [not null] is an [option]; a column with a default
    holds the value the default produced. *)
Record startups_row : Type := {
  s_id : uuid;
  s_name : string;
  s_description : option string;
  s_industry : option string;
  s_stage : option string;
  s_website : option string;
  s_founder_id : uuid;
  s_invite_code : option string;
  s_subscription_plan : option string;
  s_created_at : timestamptz;
  s_updated_at : timestamptz
}.

Record startup_members_row : Type := {
  sm_id : uuid;
  sm_startup_id : uuid;
  sm_user_id : uuid;
  sm_role : string;
  sm_joined_at : timestamptz
}.

Record investor_swipes_row : Type := {
  sw_id : uuid;
  sw_investor_id : uuid;
  sw_startup_id : uuid;
  sw_action : string;
  sw_created_at : timestamptz
}.

(** [income] and [expenses] have the same columns. *)
Record ledger_row : Type := {
  l_id : uuid;
  l_startup_id : uuid;
  l_title : string;
  l_amount : numeric;
  l_category : option string;
  l_date : date;
  l_notes : option string;
  l_created_by : option uuid;
  l_created_at : timestamptz
}.

Record investments_row : Type := {
  iv_id : uuid;
  iv_startup_id : uuid;
  iv_investor_name : string;
  iv_amount : numeric;
  iv_equity_percentage : option numeric;
  iv_investment_type : option string;
  iv_date : date;
  iv_notes : option string;
  iv_created_by : option uuid;
  iv_created_at : timestamptz
}.

(** The tables the core reads and writes; [auth_users] stands for the
    identity provider's [auth.users], the target of the user references. *)
Record Store : Type := {
  auth_users : list uuid;
  startups : list startups_row;
  startup_members : list startup_members_row;
  investor_swipes : list investor_swipes_row;
  income : list ledger_row;
  expenses : list ledger_row;
  investments : list investments_row
}.

Inductive DbError : Type :=
| unique_violation
| check_violation
| foreign_key_violation.

Inductive result (E A : Type) : Type :=
| Ok (a : A)
| Err (e : E).
Arguments Ok {E A} a.
Arguments Err {E A} e.

Definition mem (x : uuid) (l : list uuid) : bool := bool_decide (x ∈ l).

(** [check (role in ('founder', 'manager', 'member', 'investor'))] *)
Definition role_check (role : string) : bool :=
  bool_decide (role ∈ ["founder"; "manager"; "member"; "investor"]).

(** [check (action in ('interested', 'passed'))] *)
Definition action_check (action : string) : bool :=
  bool_decide (action ∈ ["interested"; "passed"]).

Definition set_startups (v : list startups_row) (s : Store) : Store :=
  {| auth_users := auth_users s; startups := v;
     startup_members := startup_members s;
     investor_swipes := investor_swipes s; income := income s;
     expenses := expenses s; investments := investments s |}.

Definition set_startup_members (v : list startup_members_row) (s : Store) : Store :=
  {| auth_users := auth_users s; startups := startups s;
     startup_members := v;
     investor_swipes := investor_swipes s; income := income s;
     expenses := expenses s; investments := investments s |}.

Definition set_investor_swipes (v : list investor_swipes_row) (s : Store) : Store :=
  {| auth_users := auth_users s; startups := startups s;
     startup_members := startup_members s;
     investor_swipes := v; income := income s;
     expenses := expenses s; investments := investments s |}.

(** *** startups: primary key [id], [founder_id references auth.users];
    [invite_code text] carries no constraint. *)
Definition insert_startups (r : startups_row) (s : Store) : result DbError Store :=
  if mem (s_id r) (map s_id (startups s)) then Err unique_violation
  else if negb (mem (s_founder_id r) (auth_users s)) then Err foreign_key_violation
  else Ok (set_startups (startups s ++ [r]) s).

(** [update startups set invite_code = code where id = sid] *)
Definition set_invite_code (code : option string) (r : startups_row) : startups_row :=
  {| s_id := s_id r; s_name := s_name r; s_description := s_description r;
     s_industry := s_industry r; s_stage := s_stage r; s_website := s_website r;
     s_founder_id := s_founder_id r; s_invite_code := code;
     s_subscription_plan := s_subscription_plan r;
     s_created_at := s_created_at r; s_updated_at := s_updated_at r |}.

Definition update_startups_invite_code (sid : uuid) (code : option string)
    (s : Store) : result DbError Store :=
  Ok (set_startups
        (map (fun r => if bool_decide (s_id r = sid) then set_invite_code code r else r)
             (startups s)) s).

(** *** startup_members: primary key [id], both references,
    the role check and [unique(startup_id, user_id)]. *)
Definition same_member (startup_id user_id : uuid) (r : startup_members_row) : bool :=
  bool_decide (sm_startup_id r = startup_id) && bool_decide (sm_user_id r = user_id).

Definition insert_startup_members (r : startup_members_row) (s : Store)
    : result DbError Store :=
  if mem (sm_id r) (map sm_id (startup_members s)) then Err unique_violation
  else if negb (mem (sm_startup_id r) (map s_id (startups s))) then Err foreign_key_violation
  else if negb (mem (sm_user_id r) (auth_users s)) then Err foreign_key_violation
  else if negb (role_check (sm_role r)) then Err check_violation
  else if existsb (same_member (sm_startup_id r) (sm_user_id r)) (startup_members s)
       then Err unique_violation
  else Ok (set_startup_members (startup_members s ++ [r]) s).

(** *** investor_swipes: primary key [id], both references,
    the action check and [unique(investor_id, startup_id)]. *)
Definition same_swipe (investor_id startup_id : uuid) (r : investor_swipes_row) : bool :=
  bool_decide (sw_investor_id r = investor_id) && bool_decide (sw_startup_id r = startup_id).

Definition insert_investor_swipes (r : investor_swipes_row) (s : Store)
    : result DbError Store :=
  if mem (sw_id r) (map sw_id (investor_swipes s)) then Err unique_violation
  else if negb (mem (sw_investor_id r) (auth_users s)) then Err foreign_key_violation
  else if negb (mem (sw_startup_id r) (map s_id (startups s))) then Err foreign_key_violation
  else if negb (action_check (sw_action r)) then Err check_violation
  else if existsb (same_swipe (sw_investor_id r) (sw_startup_id r)) (investor_swipes s)
       then Err unique_violation
  else Ok (set_investor_swipes (investor_swipes s ++ [r]) s).

Definition set_action (action : string) (at_ : timestamptz) (r : investor_swipes_row)
    : investor_swipes_row :=
  {| sw_id := sw_id r; sw_investor_id := sw_investor_id r;
     sw_startup_id := sw_startup_id r; sw_action := action; sw_created_at := at_ |}.

(** [update investor_swipes set action = .., created_at = ..
     where investor_id = .. and startup_id = ..] *)
Definition update_investor_swipes (investor_id startup_id : uuid) (action : string)
    (at_ : timestamptz) (s : Store) : result DbError Store :=
  if negb (action_check action) then Err check_violation
  else Ok (set_investor_swipes
             (map (fun r => if same_swipe investor_id startup_id r
                            then set_action action at_ r else r)
                  (investor_swipes s)) s).

(** [insert into investor_swipes .. on conflict (investor_id, startup_id)
     do update set action = excluded.action, created_at = excluded.created_at]:
    the row is inserted, and it is the violation of the declared
    [unique(investor_id, startup_id)] that turns the statement into the
    update of the row in the way; a violation of the primary key alone
    stays an error. *)
Definition upsert_investor_swipes (r : investor_swipes_row) (s : Store)
    : result DbError Store :=
  match insert_investor_swipes r s with
  | Ok s' => Ok s'
  | Err unique_violation =>
      if existsb (same_swipe (sw_investor_id r) (sw_startup_id r)) (investor_swipes s)
      then update_investor_swipes (sw_investor_id r) (sw_startup_id r)
             (sw_action r) (sw_created_at r) s
      else Err unique_violation
  | Err e => Err e
  end.

(** [delete from investor_swipes where investor_id = .. and startup_id = ..] *)
Definition delete_investor_swipes (investor_id startup_id : uuid) (s : Store) : Store :=
  set_investor_swipes
    (List.filter (fun r => negb (same_swipe investor_id startup_id r))
                 (investor_swipes s)) s.

(** The rows of one (investor, startup) pair and of one (startup, user) pair. *)
Definition swipes_of (investor_id startup_id : uuid) (s : Store)
    : list investor_swipes_row :=
  List.filter (same_swipe investor_id startup_id) (investor_swipes s).

Definition members_of (startup_id user_id : uuid) (s : Store)
    : list startup_members_row :=
  List.filter (same_member startup_id user_id) (startup_members s).

(** The two declared uniqueness constraints, as properties of a store. *)
Definition swipes_unique (s : Store) : Prop :=
  forall i w, length (swipes_of i w s) <= 1.

Definition members_unique (s : Store) : Prop :=
  forall w u, length (members_of w u s) <= 1.

(** The constraint the specification states for invite codes. *)
Definition invite_codes_unique (s : Store) : Prop :=
  forall r1 r2 code,
    r1 ∈ startups s -> r2 ∈ startups s ->
    s_invite_code r1 = Some code -> s_invite_code r2 = Some code ->
    s_id r1 = s_id r2.

End Db.

(** ** The server operations, from the specification

    The FastAPI server ([backend/server.py]) is not among the sources.  Its
    operations are modelled from the specification's sections 4.1, 4.3, 4.4
    and 7, on top of the statements of [Db]. *)

Module Api.

(** The error taxonomy of section 7. *)
Inductive ApiError : Type :=
| ValidationError
| ForbiddenError
| NotFoundError
| ConflictError.

(** How a refused statement surfaces: a uniqueness violation is a
    conflict, a failed check is malformed input, a dangling reference is
    an unknown target. *)
Definition api_error (e : Db.DbError) : ApiError :=
  match e with
  | Db.unique_violation => ConflictError
  | Db.check_violation => ValidationError
  | Db.foreign_key_violation => NotFoundError
  end.

Definition is_ok {E A : Type} (r : Db.result E A) : bool :=
  match r with
  | Db.Ok _ => true
  | Db.Err _ => false
  end.

End Api.

Module Registry.

Import Db Api.

(** Modelled from the spec: [redeemInviteCode(userId, code, role?)] of the
    server, which is missing from the sources.  The workspace is looked up
    by code ([NotFoundError] if unknown); a user who already has a
    membership there gets [ConflictError]; otherwise a Membership with the
    requested role (default [member]) is inserted, [investor] only for a
    user with the platform-level investor flag [is_investor].  [fresh] and
    [now] are the values the column defaults produce for the new row. *)
Definition redeemInviteCode (is_investor : uuid -> bool)
    (fresh : uuid) (now : timestamptz)
    (userId : uuid) (code : string) (role : option string) (s : Store)
    : result ApiError startup_members_row * Store :=
  match List.find (fun w => bool_decide (s_invite_code w = Some code)) (startups s) with
  | None => (Err NotFoundError, s)
  | Some w =>
      if existsb (same_member (s_id w) userId) (startup_members s)
      then (Err ConflictError, s)
      else
        let requested := default "member" role in
        if bool_decide (requested = "investor") && negb (is_investor userId)
        then (Err ForbiddenError, s)
        else
          let row := {| sm_id := fresh; sm_startup_id := s_id w;
                        sm_user_id := userId; sm_role := requested;
                        sm_joined_at := now |} in
          match insert_startup_members row s with
          | Ok s' => (Ok row, s')
          | Err e => (Err (api_error e), s)
          end
  end.

End Registry.

Module Matching.

Import Db Api.

(** The capability and browsable-set requirements of [swipe]: which
    caller may swipe which workspace in which store, [None] when the call
    may go on.  The specification leaves the investor designation and the
    self-investment policy to the implementer, so the gate is a parameter
    of the operations. *)
Definition Gate : Type := Store -> uuid -> uuid -> option ApiError.

(** Modelled from the spec: [swipe(investorId, workspaceId, action)] of the
    server, which is missing from the sources.  After the gate, the
    SwipeAction row is upserted by the one atomic insert-or-update
    statement of the table: inserted if the pair is unseen, overwritten if
    it is decided; the recorded action is returned. *)
Definition swipe (gate : Gate) (fresh : uuid) (now : timestamptz)
    (investorId workspaceId : uuid) (action : string) (s : Store)
    : result ApiError string * Store :=
  match gate s investorId workspaceId with
  | Some e => (Err e, s)
  | None =>
      match upsert_investor_swipes
              {| sw_id := fresh; sw_investor_id := investorId;
                 sw_startup_id := workspaceId; sw_action := action;
                 sw_created_at := now |} s with
      | Ok s' => (Ok action, s')
      | Err e => (Err (api_error e), s)
      end
  end.

(** Modelled from the spec: [undo(investorId, workspaceId)] as section 4.3
    words it, for a server that is missing from the sources: the row is
    deleted, silently nothing happens if there is none.  (The undo button
    of the feed runs [handleUndoSwipe] below, which calls no operation of
    the server.) *)
Definition undo (investorId workspaceId : uuid) (s : Store)
    : result ApiError unit * Store :=
  (Ok tt, delete_investor_swipes investorId workspaceId s).

(** Modelled from the spec: [removeMatch], "equivalent to undo, exposed as
    a distinct named operation for the matches view". *)
Definition removeMatch (investorId workspaceId : uuid) (s : Store)
    : result ApiError unit * Store :=
  undo investorId workspaceId s.

(** Modelled from the spec: the match view, the workspaces whose row for
    this investor says [interested]. *)
Definition listMatches (investorId : uuid) (s : Store) : list uuid :=
  map sw_startup_id
      (List.filter (fun r => bool_decide (sw_investor_id r = investorId)
                             && bool_decide (sw_action r = "interested"))
                   (investor_swipes s)).

(** Modelled from the spec: the browsable set, the workspaces with no row
    for this investor, the investor's own workspaces left out. *)
Definition listBrowsable (investorId : uuid) (s : Store) : list uuid :=
  map s_id
      (List.filter (fun w => negb (existsb (same_swipe investorId (s_id w))
                                           (investor_swipes s))
                             && negb (bool_decide (s_founder_id w = investorId)))
                   (startups s)).

(** The two observable states of a pair. *)
Definition current_action (investorId workspaceId : uuid) (s : Store) : option string :=
  sw_action <$> head (swipes_of investorId workspaceId s).

Definition unseen (investorId workspaceId : uuid) (s : Store) : Prop :=
  swipes_of investorId workspaceId s = [].

Definition decided (investorId workspaceId : uuid) (s : Store) : Prop :=
  swipes_of investorId workspaceId s <> [].

End Matching.

Module Metrics.

Import Db.

Record MetricsSnapshot : Type := {
  totalRaised : Q;
  balance : Q;
  monthlyBurn : Q;
  runwayMonths : option Q;
  teamSize : nat
}.

Definition sum (l : list Q) : Q := fold_right Qplus 0%Q l.

Definition of_startup {A : Type} (sid : A -> uuid) (w : uuid) (l : list A) : list A :=
  List.filter (fun r => bool_decide (sid r = w)) l.

(** The calendar month of a ledger date. *)
Definition month_of (d : date) : Z * Z := (year d, month d).

(** The months that occur in the expense rows, each once. *)
Definition months_present (es : list ledger_row) : list (Z * Z) :=
  remove_dups (map (fun e => month_of (l_date e)) es).

Definition month_total (es : list ledger_row) (m : Z * Z) : Q :=
  sum (map l_amount
           (List.filter (fun e => bool_decide (month_of (l_date e) = m)) es)).

(** The average of the monthly expense sums over the months present;
    zero without expense history. *)
Definition average_monthly (es : list ledger_row) : Q :=
  match months_present es with
  | [] => 0%Q
  | ms => (sum (map (month_total es) ms) / inject_Z (Z.of_nat (length ms)))%Q
  end.

(** Modelled from the spec: [computeSnapshot(workspaceId)] of the server,
    which is missing from the sources, by the formulas of section 4.4.
    The sentinel of the non-burning case is [None]. *)
Definition computeSnapshot (s : Store) (workspaceId : uuid) : MetricsSnapshot :=
  let raised := sum (map iv_amount (of_startup iv_startup_id workspaceId (investments s))) in
  let earned := sum (map l_amount (of_startup l_startup_id workspaceId (income s))) in
  let es := of_startup l_startup_id workspaceId (expenses s) in
  let spent := sum (map l_amount es) in
  let bal := (earned + raised - spent)%Q in
  let burn := average_monthly es in
  {| totalRaised := raised;
     balance := bal;
     monthlyBurn := burn;
     runwayMonths := if Qlt_le_dec 0 burn then Some (bal / burn)%Q else None;
     teamSize :=
       length (List.filter (fun m => negb (bool_decide (sm_role m = "investor")))
                           (of_startup sm_startup_id workspaceId (startup_members s))) |}.

(** The example of the specification, for any store that holds it: two
    income rows of 100 and 50, two expense rows of 30 and 20 in different
    months, one investment of 500 and three members who are not investors. *)
Definition example_ledger (s : Store) (w : uuid) : Prop :=
  map l_amount (of_startup l_startup_id w (income s)) = [100%Q; 50%Q] /\
  (exists e1 e2,
     of_startup l_startup_id w (expenses s) = [e1; e2] /\
     l_amount e1 = 30%Q /\ l_amount e2 = 20%Q /\
     month_of (l_date e1) <> month_of (l_date e2)) /\
  map iv_amount (of_startup iv_startup_id w (investments s)) = [500%Q] /\
  length (List.filter (fun m => negb (bool_decide (sm_role m = "investor")))
                      (of_startup sm_startup_id w (startup_members s))) = 3.

End Metrics.

(** ** InvestorFeedPage.js: the handlers of the investor feed *)

Module InvestorFeedPage.

Import Db Api.

(** The three pieces of component state the handlers read and set. *)
Record State : Type := {
  browsableStartups : list obj;
  currentIndex : Z;
  matches : list obj
}.

(** The notifications the handlers raise. *)
Inductive toast : Type :=
| InterestedIn (name : jsval)     (* You're interested in ..! Check your matches. *)
| PassedOn (name : jsval)         (* Passed on .. *)
| FailedToRecordSwipe             (* Failed to record swipe *)
| MatchRemoved                    (* Match removed *)
| FailedToRemoveMatch             (* Failed to remove match *)
| UndoShowingPrevious.            (* Undo! Showing previous startup *)

(** What a handler runs against: the server's store, the user behind the
    access token of [getAuthHeaders] (if a session exists), the text of
    [new Date().toISOString()], the component state and the toasts shown
    so far, latest first. *)
Record World : Type := {
  server : Store;
  session : option uuid;
  clock : string;
  page : State;
  toasts : list toast
}.

(** The two endpoints the handlers call, as the client meets them: the
    store a request finds, whether the promise resolves ([true]) or
    rejects, and the store the request leaves.  The arguments are the
    caller, the value spliced into the path and, for a swipe, the
    [action] of the body. *)
Record Backend : Type := {
  post_swipe : option uuid -> jsval -> jsval -> Store -> bool * Store;
  delete_match : option uuid -> jsval -> Store -> bool * Store
}.

(** Handlers are computations over the world that may throw; [None] is a
    thrown exception. *)
Definition M (A : Type) : Type := World -> option A * World.

Definition ret {A : Type} (a : A) : M A := fun w => (Some a, w).

Definition bind {A B : Type} (m : M A) (k : A -> M B) : M B :=
  fun w =>
    match m w with
    | (Some a, w') => k a w'
    | (None, w') => (None, w')
    end.

(** [try { m } catch (e) { h }] *)
Definition try_catch {A : Type} (m : M A) (h : M A) : M A :=
  fun w =>
    match m w with
    | (Some a, w') => (Some a, w')
    | (None, w') => h w'
    end.

Definition set_server (s : Store) (w : World) : World :=
  {| server := s; session := session w; clock := clock w;
     page := page w; toasts := toasts w |}.

Definition set_page (p : State) (w : World) : World :=
  {| server := server w; session := session w; clock := clock w;
     page := p; toasts := toasts w |}.

Definition show (t : toast) : M unit :=
  fun w =>
    (Some tt, {| server := server w; session := session w; clock := clock w;
                 page := page w; toasts := t :: toasts w |}).

Definition getState : M State := fun w => (Some (page w), w).

Definition new_Date_toISOString : M string := fun w => (Some (clock w), w).

(** [setMatches(prev => f(prev))] *)
Definition setMatches (f : list obj -> list obj) : M unit :=
  fun w =>
    (Some tt,
     set_page {| browsableStartups := browsableStartups (page w);
                 currentIndex := currentIndex (page w);
                 matches := f (matches (page w)) |} w).

(** [setCurrentIndex(prev => f(prev))] *)
Definition setCurrentIndex (f : Z -> Z) : M unit :=
  fun w =>
    (Some tt,
     set_page {| browsableStartups := browsableStartups (page w);
                 currentIndex := f (currentIndex (page w));
                 matches := matches (page w) |} w).

(** [await axios.post(`${API}/investor/swipe/${id}`, { action }, { headers })] *)
Definition axios_post_swipe (api : Backend) (id action : jsval) : M unit :=
  fun w =>
    let '(ok, s') := post_swipe api (session w) id action (server w) in
    (if ok then Some tt else None, set_server s' w).

(** [await axios.delete(`${API}/investor/matches/${id}`, { headers })] *)
Definition axios_delete_match (api : Backend) (id : jsval) : M unit :=
  fun w =>
    let '(ok, s') := delete_match api (session w) id (server w) in
    (if ok then Some tt else None, set_server s' w).

Declare Scope handler_scope.
Delimit Scope handler_scope with handler.
Notation "'let*' x := m 'in' k" := (bind m (fun x => k))
  (at level 10, x name, m at level 100, k at level 200) : handler_scope.
Notation "m ;; k" := (bind m (fun _ => k))
  (at level 100, k at level 200, right associativity) : handler_scope.
Local Open Scope handler_scope.

(** The cards are objects, hence truthy: [if (!startup) return] fires
    exactly when the index reads past the deck. *)
Definition handleSwipe (api : Backend) (action : jsval) : M unit :=
  let* st := getState in
  match index (browsableStartups st) (currentIndex st) with
  | None => ret tt
  | Some startup =>
      try_catch
        (axios_post_swipe api (get startup "id") action ;;
         (if strict_eq action (JStr "interested")
          then
            show (InterestedIn (get startup "name")) ;;
            let* now := new_Date_toISOString in
            setMatches (fun prev => spread_set startup "swiped_at" (JStr now) :: prev)
          else
            show (PassedOn (get startup "name"))) ;;
         setCurrentIndex (fun prev => (prev + 1)%Z))
        (show FailedToRecordSwipe)
  end.

Definition handleRemoveMatch (api : Backend) (startupId : jsval) : M unit :=
  try_catch
    (axios_delete_match api startupId ;;
     setMatches (fun prev =>
       List.filter (fun m => strict_neq (get m "id") startupId) prev) ;;
     show MatchRemoved)
    (show FailedToRemoveMatch).

Definition handleUndoSwipe : M unit :=
  let* st := getState in
  if (currentIndex st =? 0)%Z then ret tt
  else
    setCurrentIndex (fun prev => (prev - 1)%Z) ;;
    show UndoShowingPrevious.

(** The world a handler leaves. *)
Definition after {A : Type} (m : M A) (w : World) : World := snd (m w).

(** The pair the undo button is pressed for: the caller and the card one
    step back in the deck. *)
Definition previous_card (w : World) : option obj :=
  index (browsableStartups (page w)) (currentIndex (page w) - 1).

(** Modelled from the spec: the two endpoints of the missing server,
    [POST /investor/swipe/{workspaceId}] as [swipe] and
    [DELETE /investor/matches/{workspaceId}] as [removeMatch], refused
    without a session; [fresh] and [now] are the values the column
    defaults produce while the request is served. *)
Definition SpecBackend (gate : Matching.Gate) (fresh : uuid) (now : timestamptz)
    : Backend :=
  {| post_swipe := fun caller id action s =>
       match caller, action with
       | Some u, JStr a =>
           let '(r, s') := Matching.swipe gate fresh now u (template id) a s in
           (is_ok r, s')
       | _, _ => (false, s)
       end;
     delete_match := fun caller id s =>
       match caller with
       | Some u =>
           let '(r, s') := Matching.removeMatch u (template id) s in
           (is_ok r, s')
       | None => (false, s)
       end |}.

End InvestorFeedPage.

(** ** Sequences of calls on the SwipeAction table *)

Module Calls.

Import Db Api.

(** The calls of the matching engine on the SwipeAction table, each served
    by the operation of its name; remove-match is the second name of undo.
    A swipe carries the values the column defaults produce while it is
    served. *)
Inductive call : Type :=
| Swipe (fresh : uuid) (now : timestamptz)
        (investorId workspaceId : uuid) (action : string)
| Undo (investorId workspaceId : uuid)
| RemoveMatch (investorId workspaceId : uuid).

(** One call: whether it succeeded, and the store it leaves. *)
Definition step (gate : Matching.Gate) (c : call) (s : Store) : bool * Store :=
  match c with
  | Swipe fresh now i w a =>
      let '(r, s') := Matching.swipe gate fresh now i w a s in (is_ok r, s')
  | Undo i w =>
      let '(r, s') := Matching.undo i w s in (is_ok r, s')
  | RemoveMatch i w =>
      let '(r, s') := Matching.removeMatch i w s in (is_ok r, s')
  end.

(** The calls in order, each paired with its outcome. *)
Fixpoint run (gate : Matching.Gate) (cs : list call) (s : Store)
    : list (call * bool) * Store :=
  match cs with
  | [] => ([], s)
  | c :: cs' =>
      let '(ok, s1) := step gate c s in
      let '(tr, s2) := run gate cs' s1 in
      ((c, ok) :: tr, s2)
  end.

Definition on_pair (i w i' w' : uuid) : bool :=
  bool_decide (i' = i) && bool_decide (w' = w).

(** What one finished call means for the action on record for the pair
    [(i, w)]: a successful swipe on the pair records its argument, an undo
    or a remove-match on the pair clears the record, and a failed swipe or
    a call on another pair leaves it. *)
Definition record (i w : uuid) (cur : option string) (e : call * bool)
    : option string :=
  match e with
  | (Swipe _ _ i' w' a, ok) => if on_pair i w i' w' && ok then Some a else cur
  | (Undo i' w', _) => if on_pair i w i' w' then None else cur
  | (RemoveMatch i' w', _) => if on_pair i w i' w' then None else cur
  end.

(** The argument of the most recent successful swipe on the pair, [None]
    once an undo (or a remove-match) on the pair came later. *)
Definition last_decision (i w : uuid) (tr : list (call * bool))
    (init : option string) : option string :=
  fold_left (record i w) tr init.

End Calls.

(** ** Concrete stores and worlds used by the examples *)

Module Examples.

Import Db InvestorFeedPage.

Definition startup_row (id name founder : uuid) (code : option string) : startups_row :=
  {| s_id := id; s_name := name; s_description := None; s_industry := None;
     s_stage := None; s_website := None; s_founder_id := founder;
     s_invite_code := code; s_subscription_plan := Some "free";
     s_created_at := 0%Z; s_updated_at := 0%Z |}.

(** Two users, one of them the founder of the one workspace. *)
Definition one_startup : Store :=
  {| auth_users := ["founder-1"; "investor-1"];
     startups := [startup_row "startup-1" "Acme" "founder-1" (Some "ABCD1234")];
     startup_members :=
       [{| sm_id := "m-1"; sm_startup_id := "startup-1"; sm_user_id := "founder-1";
           sm_role := "founder"; sm_joined_at := 0%Z |}];
     investor_swipes := []; income := []; expenses := []; investments := [] |}.

(** A second workspace whose invite code is the one already in use. *)
Definition second_startup : startups_row :=
  startup_row "startup-2" "Beta" "founder-1" (Some "ABCD1234").

Definition two_startups : Store :=
  set_startups [startup_row "startup-1" "Acme" "founder-1" (Some "ABCD1234");
                second_startup] one_startup.

(** The two workspaces with different codes. *)
Definition distinct_codes : Store :=
  set_startups [startup_row "startup-1" "Acme" "founder-1" (Some "ABCD1234");
                startup_row "startup-2" "Beta" "founder-1" (Some "WXYZ5678")]
               one_startup.

Definition acme_card : obj :=
  {[ "id" := JStr "startup-1"; "name" := JStr "Acme" ]}.

Definition beta_card : obj :=
  {[ "id" := JStr "startup-2"; "name" := JStr "Beta" ]}.

(** The feed of [investor-1] on first load: the cards of the two
    workspaces, nothing decided. *)
Definition fresh_feed : World :=
  {| server := distinct_codes;
     session := Some "investor-1";
     clock := "2026-01-01T00:00:00.000Z";
     page := {| browsableStartups := [acme_card; beta_card]; currentIndex := 0%Z;
                matches := [] |};
     toasts := [] |}.

(** A server that lets every authenticated caller swipe. *)
Definition open_gate : Matching.Gate := fun _ _ _ => None.

Definition api : Backend := SpecBackend open_gate "swipe-1" 1%Z.

(** The same server a moment later. *)
Definition later_api : Backend := SpecBackend open_gate "swipe-2" 2%Z.

(** The row a right swipe on the first card leaves on the server. *)
Definition interested_row : investor_swipes_row :=
  {| sw_id := "swipe-1"; sw_investor_id := "investor-1";
     sw_startup_id := "startup-1"; sw_action := "interested";
     sw_created_at := 1%Z |}.

(** The feed after the first card was swiped right: the pair is decided,
    the card is among the matches, the index has moved on to the second
    card; one card is left, so the browse view with its undo button is on
    the page. *)
Definition swiped_feed : World :=
  {| server := set_investor_swipes [interested_row] distinct_codes;
     session := Some "investor-1";
     clock := "2026-01-01T00:00:00.000Z";
     page := {| browsableStartups := [acme_card; beta_card]; currentIndex := 1%Z;
                matches := [spread_set acme_card "swiped_at"
                              (JStr "2026-01-01T00:00:00.000Z")] |};
     toasts := [InterestedIn (JStr "Acme")] |}.

(** Six calls of [investor-1] on the one workspace: a right swipe, an
    undo, a new decision, a swipe with an action the table refuses, a
    remove-match and a fresh decision. *)
Definition calls : list Calls.call :=
  [ Calls.Swipe "swipe-1" 1%Z "investor-1" "startup-1" "interested";
    Calls.Undo "investor-1" "startup-1";
    Calls.Swipe "swipe-2" 2%Z "investor-1" "startup-1" "passed";
    Calls.Swipe "swipe-3" 3%Z "investor-1" "startup-1" "maybe";
    Calls.RemoveMatch "investor-1" "startup-1";
    Calls.Swipe "swipe-4" 4%Z "investor-1" "startup-1" "interested" ].

Definition ledger (id startup : uuid) (amount : Q) (d : date) : ledger_row :=
  {| l_id := id; l_startup_id := startup; l_title := "entry"; l_amount := amount;
     l_category := None; l_date := d; l_notes := None; l_created_by := None;
     l_created_at := 0%Z |}.

Definition membership (id startup user role : string) : startup_members_row :=
  {| sm_id := id; sm_startup_id := startup; sm_user_id := user; sm_role := role;
     sm_joined_at := 0%Z |}.

(** The ledger of the specification's example for [startup-1]: income 100
    and 50, expenses 30 and 20 in different months, one investment of 500,
    three members who are not investors and one who is; [startup-2] has
    rows of its own. *)
Definition books : Store :=
  {| auth_users := ["founder-1"; "manager-1"; "member-1"; "investor-1"];
     startups := [startup_row "startup-1" "Acme" "founder-1" (Some "ABCD1234");
                  startup_row "startup-2" "Beta" "founder-1" (Some "WXYZ5678")];
     startup_members :=
       [membership "m-1" "startup-1" "founder-1" "founder";
        membership "m-2" "startup-1" "manager-1" "manager";
        membership "m-3" "startup-1" "member-1" "member";
        membership "m-4" "startup-1" "investor-1" "investor";
        membership "m-5" "startup-2" "founder-1" "founder"];
     investor_swipes := [];
     income := [ledger "i-1" "startup-1" 100%Q (mkDate 2026 1 10);
                ledger "i-2" "startup-1" 50%Q (mkDate 2026 2 10);
                ledger "i-3" "startup-2" 7%Q (mkDate 2026 1 11)];
     expenses := [ledger "e-1" "startup-1" 30%Q (mkDate 2026 1 20);
                  ledger "e-2" "startup-2" 9%Q (mkDate 2026 1 21);
                  ledger "e-3" "startup-1" 20%Q (mkDate 2026 2 20)];
     investments :=
       [{| iv_id := "v-1"; iv_startup_id := "startup-1"; iv_investor_name := "Ada";
           iv_amount := 500%Q; iv_equity_percentage := Some 5%Q;
           iv_investment_type := None; iv_date := mkDate 2026 1 5;
           iv_notes := None; iv_created_by := None; iv_created_at := 0%Z |}] |}.

End Examples.

(** ** AuthContext.js: the backend address and the provider's state *)

Module BackendConfig.

(** [s.replace(/\/$/, "")]: one slash at the very end of the text is
    dropped, nothing else is touched. *)
Fixpoint strip_trailing_slash (s : string) : string :=
  match s with
  | EmptyString => EmptyString
  | String c EmptyString => if String.eqb s "/" then EmptyString else s
  | String c s' => String c (strip_trailing_slash s')
  end.

Definition ends_with_slash (s : string) : Prop := exists u, s = u +:+ "/".

(** [import.meta.env.VITE_BACKEND_URL || process.env.REACT_APP_BACKEND_URL];
    an environment variable is a string or [undefined] ([None]). *)
Definition USER_BACKEND_URL (vite react : option string) : jsval :=
  js_or (from_option JStr JUndefined vite) (from_option JStr JUndefined react).

(** AuthContext.js: [throw new Error] ([None]) without an address,
    otherwise [`${BACKEND_URL}/api`]. *)
Definition API (vite react : option string) : option string :=
  match USER_BACKEND_URL vite react with
  | JStr url =>
      if truthy (JStr url) then Some (strip_trailing_slash url +:+ "/api") else None
  | _ => None
  end.

(** The copy of the configuration that exports [API_BASE]: the same
    address, but a missing one is only logged and read as the empty
    text. *)
Definition API_BASE (vite react : option string) : string :=
  match USER_BACKEND_URL vite react with
  | JStr url =>
      (if truthy (JStr url) then strip_trailing_slash url else "") +:+ "/api"
  | _ => "/api"
  end.

End BackendConfig.

Module AuthProvider.

(** The state of [AuthProvider]; [None] is [null]. *)
Record State : Type := {
  user : option obj;
  profile : option obj;
  session : option obj;
  loading : bool;
  startups : list obj;
  currentStartup : option obj;
  startupsLoaded : bool
}.

(** The provider's state next to the browser's [localStorage], which maps
    keys to texts. *)
Record World : Type := {
  state : State;
  localStorage : gmap string string
}.

(** The state of the first render. *)
Definition initial : State :=
  {| user := None; profile := None; session := None; loading := true;
     startups := []; currentStartup := None; startupsLoaded := false |}.

(** [localStorage.getItem(key)]: the text, or [null]. *)
Definition getItem (ls : gmap string string) (key : string) : jsval :=
  from_option JStr JNull (ls !! key).

(** [localStorage.setItem(key, value)]: the value is stored as text. *)
Definition setItem (key : string) (value : jsval) (ls : gmap string string)
    : gmap string string :=
  <[key := template value]> ls.

Definition removeItem (key : string) (ls : gmap string string)
    : gmap string string :=
  delete key ls.

(** [arr.find(s => s.id === id)] *)
Definition find_by_id (arr : list obj) (id : jsval) : option obj :=
  List.find (fun s => strict_eq (get s "id") id) arr.

(** [getAuthHeaders]: the bearer header of a session with a truthy
    [access_token], the empty object otherwise. *)
Definition getAuthHeaders (st : State) : obj :=
  let token := opt_get (session st) "access_token" in
  if truthy token
  then {[ "Authorization" := JStr ("Bearer " +:+ template token) ]}
  else ∅.

Definition with_startups (l : list obj) (cur : option obj) (loaded : bool)
    (st : State) : State :=
  {| user := user st; profile := profile st; session := session st;
     loading := loading st; startups := l; currentStartup := cur;
     startupsLoaded := loaded |}.

(** [fetchStartups(sess)], given how [GET /startups] ended: [None] when the
    request was rejected, otherwise its [res.data], an array or nothing
    ([res.data || []]).  A non-empty answer selects the startup whose id
    is the saved one, or else the first; [startupsLoaded] is set in every
    case. *)
Definition fetchStartups (reply : option (option (list obj))) (w : World) : World :=
  let st := state w in
  let st' :=
    match reply with
    | Some data =>
        let startupsData := default [] data in
        match startupsData with
        | [] => with_startups startupsData (currentStartup st) true st
        | first :: _ =>
            let savedId := getItem (localStorage w) "currentStartupId" in
            let found := find_by_id startupsData savedId in
            let selected := default first found in
            with_startups startupsData (Some selected) true st
        end
    | None => with_startups (startups st) (currentStartup st) true st
    end in
  {| state := st'; localStorage := localStorage w |}.

(** [selectStartup(startup)] *)
Definition selectStartup (startup : obj) (w : World) : World :=
  {| state := with_startups (startups (state w)) (Some startup)
                (startupsLoaded (state w)) (state w);
     localStorage := setItem "currentStartupId" (get startup "id") (localStorage w) |}.

(** [refreshStartups]: a fetch when a session exists. *)
Definition refreshStartups (reply : option (option (list obj))) (w : World) : World :=
  match session (state w) with
  | Some _ => fetchStartups reply w
  | None => w
  end.

(** [signOut], once [supabase.auth.signOut()] has resolved. *)
Definition signOut (w : World) : World :=
  {| state := {| user := None; profile := None; session := None;
                 loading := loading (state w); startups := [];
                 currentStartup := None;
                 startupsLoaded := startupsLoaded (state w) |};
     localStorage := removeItem "currentStartupId" (localStorage w) |}.

(** The role and the permissions the provider hands out. *)
Definition userRole (w : World) : jsval :=
  AuthContext.userRole (currentStartup (state w)).

Definition permissions (w : World) : AuthContext.Permissions :=
  AuthContext.permissions (userRole w).

(** The selected startup is one of the fetched ones. *)
Definition selected_listed (w : World) : Prop :=
  forall s, currentStartup (state w) = Some s -> In s (startups (state w)).

End AuthProvider.

(** ** DashboardLayout.js: the sidebar *)

Module DashboardLayout.

(** An entry of [allNavItems]; [requiresPermission] is a property name or
    [null], [end_] is the [end] flag ([undefined] where it is not given). *)
Record NavItem : Type := {
  to : string;
  icon : string;
  label : string;
  end_ : jsval;
  requiresPermission : jsval
}.

Definition item (to icon label : string) (requires : jsval) : NavItem :=
  {| to := to; icon := icon; label := label; end_ := JUndefined;
     requiresPermission := requires |}.

Definition allNavItems : list NavItem :=
  [ {| to := "/dashboard"; icon := "Home"; label := "Overview";
       end_ := JBool true; requiresPermission := JNull |};
    item "/dashboard/tasks" "ClipboardList" "Tasks" (JStr "canViewTasks");
    item "/dashboard/milestones" "Target" "Milestones" (JStr "canViewTasks");
    item "/dashboard/feedback" "MessageSquare" "Feedback" (JStr "canViewTasks");
    item "/dashboard/finance" "IndianRupee" "Finance" (JStr "canViewTasks");
    item "/dashboard/analytics" "BarChart3" "Analytics" (JStr "canViewAnalytics");
    item "/dashboard/ai-insights" "Lightbulb" "AI Insights" (JStr "canViewAnalytics");
    item "/dashboard/pitch" "Presentation" "Pitch Generator" (JStr "canAccessPitch");
    item "/dashboard/investors" "Briefcase" "Manage Investors" (JStr "canManageInvestors");
    item "/dashboard/investor-feed" "Sparkles" "Discover Startups"
         (JStr "canViewInvestorFeed");
    item "/dashboard/my-investments" "Briefcase" "My Investments"
         (JStr "canViewMyInvestments");
    item "/dashboard/team" "Users" "Team" (JStr "canViewTeam");
    item "/dashboard/settings" "Settings" "Settings" JNull ].

(** [permissions[name]]: the flag of that name, [undefined] for any other
    key. *)
Definition property (p : AuthContext.Permissions) (name : jsval) : jsval :=
  match name with
  | JStr "canManageContent" => JBool (AuthContext.canManageContent p)
  | JStr "canViewAnalytics" => JBool (AuthContext.canViewAnalytics p)
  | JStr "canAccessPitch" => JBool (AuthContext.canAccessPitch p)
  | JStr "canManageTeam" => JBool (AuthContext.canManageTeam p)
  | JStr "canViewTeam" => JBool (AuthContext.canViewTeam p)
  | JStr "canViewTasks" => JBool (AuthContext.canViewTasks p)
  | JStr "canManageStartup" => JBool (AuthContext.canManageStartup p)
  | JStr "canViewInvestorFeed" => JBool (AuthContext.canViewInvestorFeed p)
  | JStr "canViewMyInvestments" => JBool (AuthContext.canViewMyInvestments p)
  | JStr "canManageInvestors" => JBool (AuthContext.canManageInvestors p)
  | _ => JUndefined
  end.

(** The callback of the filter: [if (!item.requiresPermission) return true;
    return permissions[item.requiresPermission]]. *)
Definition shown (p : AuthContext.Permissions) (it : NavItem) : bool :=
  if negb (truthy (requiresPermission it)) then true
  else truthy (property p (requiresPermission it)).

Definition navItems (p : AuthContext.Permissions) : list NavItem :=
  List.filter (shown p) allNavItems.

(** The labels of the sidebar for a role. *)
Definition sidebar (role : jsval) : list string :=
  map label (navItems (AuthContext.permissions role)).

(** The workspace selector: [onValueChange(v)].  ['create-new'] only
    navigates; any other value selects the startup with that id, if the
    provider lists one. *)
Definition onValueChange (v : jsval) (w : AuthProvider.World) : AuthProvider.World :=
  if strict_eq v (JStr "create-new") then w
  else match AuthProvider.find_by_id (AuthProvider.startups (AuthProvider.state w)) v with
       | Some s => AuthProvider.selectStartup s w
       | None => w
       end.

End DashboardLayout.

(** ** The five outcomes of the permission table and of the sidebar *)

Module Outcomes.

Definition founder_permissions : AuthContext.Permissions :=
  AuthContext.mkPermissions true true true true true true true false false true.

Definition manager_permissions : AuthContext.Permissions :=
  AuthContext.mkPermissions true true false true true true false false false true.

Definition investor_permissions : AuthContext.Permissions :=
  AuthContext.mkPermissions false false false false false false false true true false.

(** The permissions the four role names stand for, nothing for any other
    value. *)
Definition permissions_of (role : jsval) : AuthContext.Permissions :=
  if bool_decide (role = JStr "founder") then founder_permissions
  else if bool_decide (role = JStr "manager") then manager_permissions
  else if bool_decide (role = JStr "member") then AuthContext.member_permissions
  else if bool_decide (role = JStr "investor") then investor_permissions
  else AuthContext.no_permissions.

Definition sidebar_of (role : jsval) : list string :=
  if bool_decide (role = JStr "founder")
  then ["Overview"; "Tasks"; "Milestones"; "Feedback"; "Finance"; "Analytics";
        "AI Insights"; "Pitch Generator"; "Manage Investors"; "Team"; "Settings"]
  else if bool_decide (role = JStr "manager")
  then ["Overview"; "Tasks"; "Milestones"; "Feedback"; "Finance"; "Analytics";
        "AI Insights"; "Manage Investors"; "Team"; "Settings"]
  else if bool_decide (role = JStr "member")
  then ["Overview"; "Tasks"; "Milestones"; "Feedback"; "Finance"; "Team"; "Settings"]
  else if bool_decide (role = JStr "investor")
  then ["Overview"; "Discover Startups"; "My Investments"; "Settings"]
  else ["Overview"; "Settings"].

End Outcomes.

(** ** The role guards at the top of the pages *)

Module Pages.

(** AIInsightsPage.js: [if (userRole === 'investor')] shows the refusal. *)
Definition AIInsightsPage_open (userRole : jsval) : bool :=
  negb (strict_eq userRole (JStr "investor")).

(** PitchGeneratorPage.js: [if (userRole !== 'founder')] shows the refusal. *)
Definition PitchGeneratorPage_open (userRole : jsval) : bool :=
  negb (strict_neq userRole (JStr "founder")).

(** MyInvestmentsPage: [if (userRole !== 'investor')] shows "Access Denied". *)
Definition MyInvestmentsPage_open (userRole : jsval) : bool :=
  negb (strict_neq userRole (JStr "investor")).

(** OnboardingPage: [handleSelectStartup(startupId)], as far as the
    provider is concerned: when the id is one of the existing startups the
    list is refreshed; [selectStartup] is not called. *)
Definition handleSelectStartup (startupId : jsval)
    (reply : option (option (list obj))) (w : AuthProvider.World)
    : AuthProvider.World :=
  match AuthProvider.find_by_id (AuthProvider.startups (AuthProvider.state w)) startupId with
  | Some _ => AuthProvider.refreshStartups reply w
  | None => w
  end.

(** PitchGeneratorPage.js: the slide deck and the index of the slide on
    show. *)
Record Deck : Type := {
  slides : list obj;
  currentSlideIndex : Z
}.

Definition nextSlide (d : Deck) : Deck :=
  if (currentSlideIndex d <? Z.of_nat (length (slides d)) - 1)%Z
  then {| slides := slides d; currentSlideIndex := (currentSlideIndex d + 1)%Z |}
  else d.

Definition prevSlide (d : Deck) : Deck :=
  if (currentSlideIndex d >? 0)%Z
  then {| slides := slides d; currentSlideIndex := (currentSlideIndex d - 1)%Z |}
  else d.

(** The thumbnails: [slides.map((slide, idx) => .. onClick={() =>
    setCurrentSlideIndex(idx)})]; only the indices of the slides have a
    thumbnail. *)
Definition clickThumbnail (idx : nat) (d : Deck) : Deck :=
  match slides d !! idx with
  | Some _ => {| slides := slides d; currentSlideIndex := Z.of_nat idx |}
  | None => d
  end.

(** [setSlides(slidesArray); setCurrentSlideIndex(0)] of [generatePitch]
    and [loadHistoryItem]. *)
Definition showSlides (slidesArray : list obj) (d : Deck) : Deck :=
  {| slides := slidesArray; currentSlideIndex := 0%Z |}.

(** The index points at a slide, or the deck is empty and the index is 0. *)
Definition on_a_slide (d : Deck) : Prop :=
  (0 <= currentSlideIndex d < Z.of_nat (length (slides d)))%Z \/
  (slides d = [] /\ currentSlideIndex d = 0%Z).

Inductive deck_event : Type :=
| Next
| Prev
| Thumbnail (idx : nat)
| Show (slidesArray : list obj).

Definition deck_step (e : deck_event) (d : Deck) : Deck :=
  match e with
  | Next => nextSlide d
  | Prev => prevSlide d
  | Thumbnail idx => clickThumbnail idx d
  | Show l => showSlides l d
  end.

End Pages.

(** ** InvestorFeedPage.js: loading the feed, and what the page shows *)

Module FeedPage.

Import InvestorFeedPage.
Local Open Scope handler_scope.

(** [useState([])], [useState(0)], [useState([])] *)
Definition initial_page : State :=
  {| browsableStartups := []; currentIndex := 0%Z; matches := [] |}.

(** [setBrowsableStartups(v)] *)
Definition setBrowsableStartups (v : list obj) : M unit :=
  fun w =>
    (Some tt,
     set_page {| browsableStartups := v;
                 currentIndex := currentIndex (page w);
                 matches := matches (page w) |} w).

(** [await Promise.all([axios.get(browse), axios.get(matches)])]: the two
    replies as the client meets them, [None] for a rejected request; the
    [data] of a resolved one is an array or a falsy body ([None]).  The
    await throws as soon as one of the two is rejected. *)
Definition axios_get_all (browseRes matchesRes : option (option (list obj)))
    : M (option (list obj) * option (list obj)) :=
  fun w =>
    match browseRes, matchesRes with
    | Some b, Some m => (Some (b, m), w)
    | _, _ => (None, w)
    end.

(** The catch branch only writes to the console. *)
Definition fetchBrowseData (browseRes matchesRes : option (option (list obj)))
    : M unit :=
  try_catch
    (let* r := axios_get_all browseRes matchesRes in
     setBrowsableStartups (default [] (fst r)) ;;
     setMatches (fun _ => default [] (snd r)) ;;
     setCurrentIndex (fun _ => 0%Z))
    (ret tt).

(** What the render reads off the state. *)
Definition currentCard (w : World) : option obj :=
  index (browsableStartups (page w)) (currentIndex (page w)).

Definition nextCard (w : World) : option obj :=
  index (browsableStartups (page w)) (currentIndex (page w) + 1).

Definition cardsRemaining (w : World) : Z :=
  (Z.of_nat (length (browsableStartups (page w))) - currentIndex (page w))%Z.

(** The browse view, with its cards and buttons, is rendered while cards
    are left; the undo button in it is disabled at index 0. *)
Definition browse_shown (w : World) : bool := (0 <? cardsRemaining w)%Z.

Definition undo_enabled (w : World) : bool :=
  browse_shown w && negb (currentIndex (page w) =? 0)%Z.

(** *** The handlers as closures, split at their [await]

    A handler is a closure of one render: where its body names
    [browsableStartups] or [currentIndex], it reads the state that render
    saw ([seen]); its updater functions ([prev => ..]) act on the state of
    the moment.  At its [await] the handler stops, and goes on when the
    request settles; other handlers may run in between. *)

(** A request under way, with what its handler holds on to, and whether
    the promise will resolve. *)
Inductive request : Type :=
| SwipeSent (startup : obj) (action : jsval) (ok : bool)
| RemoveSent (startupId : jsval) (ok : bool)
| LoadSent (browseRes matchesRes : option (option (list obj))).

Record Session : Type := {
  world : World;
  inflight : list request
}.

(** The promise of a request that has been served settles. *)
Definition settle (ok : bool) : M unit :=
  fun w => (if ok then Some tt else None, w).

(** [handleSwipe] up to its [await]: the card is read off the render and
    the request goes out; requests are served as they are sent, the
    promise settles later. *)
Definition handleSwipe_sent (seen : State) (api : Backend) (action : jsval)
    (s : Session) : Session :=
  match index (browsableStartups seen) (currentIndex seen) with
  | None => s
  | Some startup =>
      let '(ok, st) :=
        post_swipe api (session (world s)) (get startup "id") action
                   (server (world s)) in
      {| world := set_server st (world s);
         inflight := (inflight s ++ [SwipeSent startup action ok])%list |}
  end.

(** [handleSwipe] from its [await] on. *)
Definition handleSwipe_settled (startup : obj) (action : jsval) (ok : bool)
    : M unit :=
  try_catch
    (settle ok ;;
     (if strict_eq action (JStr "interested")
      then
        show (InterestedIn (get startup "name")) ;;
        let* now := new_Date_toISOString in
        setMatches (fun prev => spread_set startup "swiped_at" (JStr now) :: prev)
      else
        show (PassedOn (get startup "name"))) ;;
     setCurrentIndex (fun prev => (prev + 1)%Z))
    (show FailedToRecordSwipe).

Definition handleRemoveMatch_sent (api : Backend) (startupId : jsval)
    (s : Session) : Session :=
  let '(ok, st) :=
    delete_match api (session (world s)) startupId (server (world s)) in
  {| world := set_server st (world s);
     inflight := (inflight s ++ [RemoveSent startupId ok])%list |}.

Definition handleRemoveMatch_settled (startupId : jsval) (ok : bool) : M unit :=
  try_catch
    (settle ok ;;
     setMatches (fun prev =>
       List.filter (fun m => strict_neq (get m "id") startupId) prev) ;;
     show MatchRemoved)
    (show FailedToRemoveMatch).

(** [handleUndoSwipe] has no [await]; its test reads the render. *)
Definition handleUndoSwipe_seen (seen : State) : M unit :=
  if (currentIndex seen =? 0)%Z then ret tt
  else
    setCurrentIndex (fun prev => (prev - 1)%Z) ;;
    show UndoShowingPrevious.

(** The handler goes on after its [await]. *)
Definition resume (r : request) : M unit :=
  match r with
  | SwipeSent startup action ok => handleSwipe_settled startup action ok
  | RemoveSent startupId ok => handleRemoveMatch_settled startupId ok
  | LoadSent b m => fetchBrowseData b m
  end.

(** What happens to the page: the effect starts a load, a handler of some
    render is called (a swipe by button or by card, the undo button, the
    remove button of a match), or a request under way settles. *)
Inductive event : Type :=
| Load (browseRes matchesRes : option (option (list obj)))
| Swiped (seen : State) (api : Backend) (action : jsval)
| UndoPressed (seen : State)
| RemovePressed (api : Backend) (startupId : jsval)
| Settled (n : nat).

Definition step (e : event) (s : Session) : Session :=
  match e with
  | Load b m =>
      {| world := world s; inflight := (inflight s ++ [LoadSent b m])%list |}
  | Swiped seen api action => handleSwipe_sent seen api action s
  | UndoPressed seen =>
      {| world := after (handleUndoSwipe_seen seen) (world s);
         inflight := inflight s |}
  | RemovePressed api id => handleRemoveMatch_sent api id s
  | Settled n =>
      match inflight s !! n with
      | Some r =>
          {| world := after (resume r) (world s);
             inflight := delete n (inflight s) |}
      | None => s
      end
  end.

Definition run (es : list event) (s : Session) : Session :=
  fold_left (fun s e => step e s) es s.

(** One handler at a time: a load or a handler starts only when no request
    is under way, and a handler that reads the render is one of the render
    of the current state. *)
Definition unhurried (e : event) (s : Session) : Prop :=
  match e with
  | Settled _ => True
  | Swiped seen _ _ | UndoPressed seen =>
      inflight s = [] /\ seen = page (world s)
  | Load _ _ | RemovePressed _ _ => inflight s = []
  end.

Fixpoint sequential (es : list event) (s : Session) : Prop :=
  match es with
  | [] => True
  | e :: es' => unhurried e s /\ sequential es' (step e s)
  end.

(** The index is a position of the deck, or one past its end. *)
Definition index_in_deck (w : World) : Prop :=
  (0 <= currentIndex (page w) <= Z.of_nat (length (browsableStartups (page w))))%Z.

(** With one handler at a time, at most one request is under way, and a
    swipe under way still has its card under the index. *)
Definition one_at_a_time (s : Session) : Prop :=
  index_in_deck (world s) /\
  match inflight s with
  | [] => True
  | [SwipeSent _ _ _] =>
      (currentIndex (page (world s))
       < Z.of_nat (length (browsableStartups (page (world s)))))%Z
  | [_] => True
  | _ => False
  end.

(** The ids of the matches on show, in order. *)
Definition match_ids (w : World) : list jsval :=
  map (fun m => get m "id") (matches (page w)).

End FeedPage.

(** ** InvestorFeedPage.js: the swipe card *)

Module SwipeCard.

(** JavaScript numbers as far as the card uses them: literals, [-], [>]
    and [<]. *)
Class Number : Type := {
  num : Type;
  lit : Z -> num;
  minus : num -> num -> num;
  gt : num -> num -> bool;
  lt : num -> num -> bool
}.

(** Whole numbers, where the operations are exact. *)
#[export] Instance Z_Number : Number :=
  {| num := Z; lit := fun z => z; minus := Z.sub; gt := Z.gtb; lt := Z.ltb |}.

Inductive direction : Type := left | right.

Section Card.

Context {N : Number}.

Record DragState : Type := {
  x : num;
  y : num;
  dragging : bool;
  startX : num;
  startY : num
}.

(** The component's state, and the [setTimeout] callbacks not yet run,
    oldest first (they share one delay). *)
Record Card : Type := {
  dragState : DragState;
  showDetails : bool;
  swipeIndicator : option direction;
  timers : list direction
}.

(** [{ x: 0, y: 0, dragging: false, startX: 0, startY: 0 }] *)
Definition at_rest : DragState :=
  {| x := lit 0; y := lit 0; dragging := false; startX := lit 0; startY := lit 0 |}.

Definition initial : Card :=
  {| dragState := at_rest; showDetails := false; swipeIndicator := None;
     timers := [] |}.

(** [on_control]: the press landed on a button or a link of the card. *)
Definition handlePointerDown (isTop : bool) (clientX clientY : num)
    (on_control : bool) (c : Card) : Card :=
  if negb isTop then c
  else if on_control then c
  else {| dragState := {| x := lit 0; y := lit 0; dragging := true;
                          startX := clientX; startY := clientY |};
          showDetails := showDetails c;
          swipeIndicator := swipeIndicator c;
          timers := timers c |}.

Definition handlePointerMove (clientX clientY : num) (c : Card) : Card :=
  if negb (dragging (dragState c)) then c
  else
    let dx := minus clientX (startX (dragState c)) in
    let dy := minus clientY (startY (dragState c)) in
    {| dragState := {| x := dx; y := dy; dragging := dragging (dragState c);
                       startX := startX (dragState c);
                       startY := startY (dragState c) |};
       showDetails := showDetails c;
       swipeIndicator :=
         if gt dx (lit 80) then Some right
         else if lt dx (lit (-80)) then Some left
         else None;
       timers := timers c |}.

Definition animateOff (d : direction) (c : Card) : Card :=
  let offX := match d with right => lit 600 | left => lit (-600) end in
  {| dragState := {| x := offX; y := y (dragState c); dragging := false;
                     startX := startX (dragState c);
                     startY := startY (dragState c) |};
     showDetails := showDetails c;
     swipeIndicator := Some d;
     timers := (timers c ++ [d])%list |}.

(** Also the handler of [pointercancel]. *)
Definition handlePointerUp (c : Card) : Card :=
  if negb (dragging (dragState c)) then c
  else if gt (x (dragState c)) (lit 120) then animateOff right c
  else if lt (x (dragState c)) (lit (-120)) then animateOff left c
  else {| dragState := at_rest; showDetails := showDetails c;
          swipeIndicator := None; timers := timers c |}.

(** The callback of [setTimeout]: the argument it hands to [onSwipe], and
    the card it leaves. *)
Definition onTimeout (c : Card) : option jsval * Card :=
  match timers c with
  | [] => (None, c)
  | d :: rest =>
      (Some (JStr match d with right => "interested" | left => "passed" end),
       {| dragState := at_rest; showDetails := showDetails c;
          swipeIndicator := None; timers := rest |})
  end.

(** [setShowDetails(!showDetails)] *)
Definition toggleDetails (c : Card) : Card :=
  {| dragState := dragState c; showDetails := negb (showDetails c);
     swipeIndicator := swipeIndicator c; timers := timers c |}.

Inductive event : Type :=
| PointerDown (clientX clientY : num) (on_control : bool)
| PointerMove (clientX clientY : num)
| PointerUp
| Timeout
| DetailsClicked.

Definition step (isTop : bool) (e : event) (c : Card) : option jsval * Card :=
  match e with
  | PointerDown cx cy oc => (None, handlePointerDown isTop cx cy oc c)
  | PointerMove cx cy => (None, handlePointerMove cx cy c)
  | PointerUp => (None, handlePointerUp c)
  | Timeout => onTimeout c
  | DetailsClicked => (None, toggleDetails c)
  end.

(** The arguments handed to [onSwipe] along a sequence of events, in
    order, and the card at the end. *)
Fixpoint run (isTop : bool) (es : list event) (c : Card) : list jsval * Card :=
  match es with
  | [] => ([], c)
  | e :: es' =>
      let '(out, c1) := step isTop e c in
      let '(outs, c2) := run isTop es' c1 in
      (match out with Some a => a :: outs | None => outs end, c2)
  end.

(** The one event that can start a drag. *)
Definition starts_drag (isTop : bool) (e : event) : bool :=
  match e with
  | PointerDown _ _ on_control => isTop && negb on_control
  | _ => false
  end.

(** Nothing is being dragged, shown or awaited. *)
Definition idle (c : Card) : Prop :=
  dragState c = at_rest /\ swipeIndicator c = None /\ timers c = [].

End Card.

End SwipeCard.

(** ** setup_database.sql: statements against the tables, with the cascade *)

Module Schema.

Import Db.

(** [delete from startups where id = sid]: every table that references
    [startups] does so [on delete cascade]. *)
Definition delete_startups (sid : uuid) (s : Store) : Store :=
  {| auth_users := auth_users s;
     startups := List.filter (fun r => negb (bool_decide (s_id r = sid))) (startups s);
     startup_members :=
       List.filter (fun r => negb (bool_decide (sm_startup_id r = sid)))
                   (startup_members s);
     investor_swipes :=
       List.filter (fun r => negb (bool_decide (sw_startup_id r = sid)))
                   (investor_swipes s);
     income :=
       List.filter (fun r => negb (bool_decide (l_startup_id r = sid))) (income s);
     expenses :=
       List.filter (fun r => negb (bool_decide (l_startup_id r = sid))) (expenses s);
     investments :=
       List.filter (fun r => negb (bool_decide (iv_startup_id r = sid)))
                   (investments s) |}.

Definition set_role (role : string) (r : startup_members_row) : startup_members_row :=
  {| sm_id := sm_id r; sm_startup_id := sm_startup_id r; sm_user_id := sm_user_id r;
     sm_role := role; sm_joined_at := sm_joined_at r |}.

(** [update startup_members set role = .. where startup_id = .. and user_id = ..] *)
Definition update_startup_members (startup_id user_id : uuid) (role : string)
    (s : Store) : result DbError Store :=
  if negb (role_check role) then Err check_violation
  else Ok (set_startup_members
             (map (fun r => if same_member startup_id user_id r
                            then set_role role r else r)
                  (startup_members s)) s).

(** [delete from startup_members where startup_id = .. and user_id = ..] *)
Definition delete_startup_members (startup_id user_id : uuid) (s : Store) : Store :=
  set_startup_members
    (List.filter (fun r => negb (same_member startup_id user_id r))
                 (startup_members s)) s.

(** The statements on the three tables of workspaces, memberships and
    swipes. *)
Inductive statement : Type :=
| InsertStartups (r : startups_row)
| UpdateInviteCode (sid : uuid) (code : option string)
| DeleteStartups (sid : uuid)
| InsertStartupMembers (r : startup_members_row)
| UpdateStartupMembers (startup_id user_id : uuid) (role : string)
| DeleteStartupMembers (startup_id user_id : uuid)
| InsertInvestorSwipes (r : investor_swipes_row)
| UpdateInvestorSwipes (investor_id startup_id : uuid) (action : string)
                       (at_ : timestamptz)
| DeleteInvestorSwipes (investor_id startup_id : uuid).

Definition execute (st : statement) (s : Store) : result DbError Store :=
  match st with
  | InsertStartups r => insert_startups r s
  | UpdateInviteCode sid code => update_startups_invite_code sid code s
  | DeleteStartups sid => Ok (delete_startups sid s)
  | InsertStartupMembers r => insert_startup_members r s
  | UpdateStartupMembers w u role => update_startup_members w u role s
  | DeleteStartupMembers w u => Ok (delete_startup_members w u s)
  | InsertInvestorSwipes r => insert_investor_swipes r s
  | UpdateInvestorSwipes i w a t => update_investor_swipes i w a t s
  | DeleteInvestorSwipes i w => Ok (delete_investor_swipes i w s)
  end.

(** A statement in error leaves the store as it was. *)
Definition after (st : statement) (s : Store) : Store :=
  match execute st s with
  | Ok s' => s'
  | Err _ => s
  end.

Definition script (sts : list statement) (s : Store) : Store :=
  fold_left (fun s st => after st s) sts s.

(** The primary keys, the two [unique(..)] constraints and the two
    [check]s. *)
Record constrained (s : Store) : Prop := {
  startups_pkey : NoDup (map s_id (startups s));
  startup_members_pkey : NoDup (map sm_id (startup_members s));
  investor_swipes_pkey : NoDup (map sw_id (investor_swipes s));
  startup_members_key : members_unique s;
  investor_swipes_key : swipes_unique s;
  role_checked : Forall (fun r => role_check (sm_role r) = true) (startup_members s);
  action_checked : Forall (fun r => action_check (sw_action r) = true) (investor_swipes s)
}.

(** Every [references startups] of the tables in the store, and the
    [references auth.users] of the three tables written here. *)
Record referential (s : Store) : Prop := {
  startups_founder : Forall (fun r => s_founder_id r ∈ auth_users s) (startups s);
  startup_members_startup :
    Forall (fun r => sm_startup_id r ∈ map s_id (startups s)) (startup_members s);
  startup_members_user :
    Forall (fun r => sm_user_id r ∈ auth_users s) (startup_members s);
  investor_swipes_startup :
    Forall (fun r => sw_startup_id r ∈ map s_id (startups s)) (investor_swipes s);
  investor_swipes_investor :
    Forall (fun r => sw_investor_id r ∈ auth_users s) (investor_swipes s);
  income_startup :
    Forall (fun r => l_startup_id r ∈ map s_id (startups s)) (income s);
  expenses_startup :
    Forall (fun r => l_startup_id r ∈ map s_id (startups s)) (expenses s);
  investments_startup :
    Forall (fun r => iv_startup_id r ∈ map s_id (startups s)) (investments s)
}.

(** The part of the store that belongs to one workspace: its row, and
    the rows of every table that refer to it. *)
Definition rows_of (sid : uuid) (s : Store) : Store :=
  {| auth_users := auth_users s;
     startups := List.filter (fun r => bool_decide (s_id r = sid)) (startups s);
     startup_members :=
       List.filter (fun r => bool_decide (sm_startup_id r = sid)) (startup_members s);
     investor_swipes :=
       List.filter (fun r => bool_decide (sw_startup_id r = sid)) (investor_swipes s);
     income := List.filter (fun r => bool_decide (l_startup_id r = sid)) (income s);
     expenses := List.filter (fun r => bool_decide (l_startup_id r = sid)) (expenses s);
     investments :=
       List.filter (fun r => bool_decide (iv_startup_id r = sid)) (investments s) |}.

(** A store without workspaces. *)
Definition no_rows (users : list uuid) : Store :=
  {| auth_users := users; startups := []; startup_members := [];
     investor_swipes := []; income := []; expenses := []; investments := [] |}.

End Schema.

(** * Properties *)

(** ** The permission table *)

Section Authorization.

Import AuthContext CapabilityTable.

Lemma strict_eq_str (s t : string) :
  strict_eq (JStr s) (JStr t) = bool_decide (s = t).
Proof.
  unfold strict_eq. apply bool_decide_ext. split; congruence.
Qed.

Lemma strict_eq_str_ne (s t : string) :
  s <> t -> strict_eq (JStr s) (JStr t) = false.
Proof.
  intros Hne. rewrite strict_eq_str. by apply bool_decide_eq_false.
Qed.

(** C1: [PERMISSIONS] against the capability table of the specification.
    The code grants the manager role both "remove members / change roles"
    ([canManageTeam]) and "view founder-facing investor portal"
    ([canManageInvestors]), which the table gives to the founder alone; on
    every other cell of the table the code and the table agree. *)
Theorem PERMISSIONS_manager_beyond_table :
  granted RemoveMembers manager = true /\ table RemoveMembers manager = false /\
  granted ViewInvestorPortal manager = true /\ table ViewInvestorPortal manager = false /\
  (forall c r,
     granted c r <> table c r <->
     r = manager /\ (c = RemoveMembers \/ c = ViewInvestorPortal)).
Proof.
  repeat split; try reflexivity.
  - destruct c, r; vm_compute in H; congruence.
  - destruct c, r; vm_compute in H; try congruence; auto.
  - intros [-> [-> | ->]]; vm_compute; discriminate.
Qed.

(** C10: a role string outside founder, manager, member and investor is
    refused by every predicate of [PERMISSIONS]: the permissions object
    built from it is the empty capability set. *)
Theorem unknown_role_no_permissions (s : string) :
  unknown_role s -> permissions (JStr s) = no_permissions.
Proof.
  intros (Hf & Hm & Hb & Hi).
  unfold permissions, no_permissions.
  unfold PERMISSIONS.canManageContent, PERMISSIONS.canViewAnalytics,
    PERMISSIONS.canAccessPitch, PERMISSIONS.canManageTeam,
    PERMISSIONS.canViewTeam, PERMISSIONS.canViewTasks,
    PERMISSIONS.canManageStartup, PERMISSIONS.canViewInvestorFeed,
    PERMISSIONS.canViewMyInvestments, PERMISSIONS.canManageInvestors.
  cbn [includes existsb].
  rewrite !(strict_eq_str_ne s "founder"), !(strict_eq_str_ne s "investor") by done.
  rewrite !(strict_eq_str_ne "founder" s), !(strict_eq_str_ne "manager" s),
    !(strict_eq_str_ne "member" s) by done.
  reflexivity.
Qed.

Lemma unknown_role_no_permissions_witness :
  unknown_role "" /\ permissions (JStr "") = no_permissions.
Proof.
  assert (H : unknown_role "") by (repeat split; discriminate).
  split; [exact H | exact (unknown_role_no_permissions "" H)].
Defined.

Lemma userRole_default (currentStartup : option obj) :
  no_workspace_role currentStartup -> userRole currentStartup = JStr "member".
Proof.
  intros [-> | (o & -> & Hnone)]; unfold userRole, opt_get, get.
  - reflexivity.
  - rewrite Hnone. reflexivity.
Qed.

(** C8: with no workspace selected ([currentStartup] is [null] or has no
    [user_role]) the derived role is ["member"], and the permissions object
    is the member's: [canViewTasks] and [canViewTeam] hold, every other
    capability is refused. *)
Theorem no_workspace_member_permissions (currentStartup : option obj) :
  no_workspace_role currentStartup ->
  userRole currentStartup = JStr "member" /\
  permissions (userRole currentStartup) = member_permissions.
Proof.
  intros H. rewrite (userRole_default _ H). split; reflexivity.
Qed.

Lemma no_workspace_member_permissions_witness :
  no_workspace_role (Some Examples.acme_card) /\
  userRole (Some Examples.acme_card) = JStr "member" /\
  permissions (userRole (Some Examples.acme_card)) = member_permissions.
Proof.
  assert (H : no_workspace_role (Some Examples.acme_card))
    by (right; exists Examples.acme_card; split; reflexivity).
  split; [exact H | exact (no_workspace_member_permissions _ H)].
Defined.

(** A startup that carries a role, for contrast: the role is taken as it
    is, and [null] selects the default as well. *)
Lemma userRole_examples :
  userRole (Some (<["user_role" := JStr "founder"]> Examples.acme_card)) = JStr "founder" /\
  userRole (Some (<["user_role" := JStr ""]> Examples.acme_card)) = JStr "member" /\
  userRole None = JStr "member".
Proof.
  repeat split; vm_compute; reflexivity.
Qed.

End Authorization.

(** ** The handlers of the investor feed *)

Section Feed.

Import Db Api InvestorFeedPage.

Variable api : Backend.

(** Without a card at the current index the swipe handler does nothing:
    no request, no state change. *)
Lemma handleSwipe_no_card (action : jsval) (w : World) :
  index (browsableStartups (page w)) (currentIndex (page w)) = None ->
  handleSwipe api action w = (Some tt, w).
Proof.
  intros Hnone. unfold handleSwipe, bind, getState. rewrite Hnone. reflexivity.
Qed.

(** C9: the swipe handler against its local state.  With a card at the
    current index, a rejected request leaves the index and the matches as
    they were; a resolved request moves the index on by exactly one, and
    puts the card (stamped with [swiped_at]) in front of the matches
    exactly when the action is ['interested']. *)
Theorem handleSwipe_atomic (action : jsval) (w : World) (startup : obj) :
  index (browsableStartups (page w)) (currentIndex (page w)) = Some startup ->
  let reply := post_swipe api (session w) (get startup "id") action (server w) in
  let w' := after (handleSwipe api action) w in
  (reply.1 = false ->
     currentIndex (page w') = currentIndex (page w) /\
     matches (page w') = matches (page w)) /\
  (reply.1 = true ->
     currentIndex (page w') = (currentIndex (page w) + 1)%Z /\
     matches (page w') =
       if strict_eq action (JStr "interested")
       then spread_set startup "swiped_at" (JStr (clock w)) :: matches (page w)
       else matches (page w)).
Proof.
  intros Hcard. cbv zeta.
  unfold after, handleSwipe, bind, getState, try_catch, axios_post_swipe.
  rewrite Hcard.
  destruct (post_swipe api (session w) (get startup "id") action (server w))
    as [[|] s'] eqn:Hreply; cbn [fst snd];
    (split; [intros Hr | intros Hr]); try discriminate Hr.
  - destruct (strict_eq action (JStr "interested")); cbn; split; reflexivity.
  - cbn. split; reflexivity.
Qed.

Lemma handleUndoSwipe_server (w : World) :
  server (after handleUndoSwipe w) = server w.
Proof.
  unfold after, handleUndoSwipe, bind, getState. cbn [fst snd page].
  destruct (currentIndex (page w) =? 0)%Z; reflexivity.
Qed.

(** C2: what the undo handler does.  It sends no request: the server's
    store, hence every SwipeAction row, is as before, and so are the
    matches and the deck; the current index steps back by one unless it is
    zero, where the handler does nothing at all. *)
Theorem handleUndoSwipe_local (w : World) :
  let w' := after handleUndoSwipe w in
  server w' = server w /\
  browsableStartups (page w') = browsableStartups (page w) /\
  matches (page w') = matches (page w) /\
  currentIndex (page w') =
    (if (currentIndex (page w) =? 0)%Z then 0 else currentIndex (page w) - 1)%Z /\
  (if (currentIndex (page w) =? 0)%Z then w' = w
   else toasts w' = UndoShowingPrevious :: toasts w).
Proof.
  cbv zeta. unfold after, handleUndoSwipe, bind, getState.
  cbn [fst snd page].
  destruct (currentIndex (page w) =? 0)%Z eqn:Hz; cbn.
  - apply Z.eqb_eq in Hz. repeat split; auto.
  - repeat split; auto.
Qed.

End Feed.

Lemma handleSwipe_atomic_witness :
  let api := Examples.api in
  let w := Examples.fresh_feed in
  let w' := InvestorFeedPage.after (InvestorFeedPage.handleSwipe api (JStr "interested")) w in
  index (InvestorFeedPage.browsableStartups (InvestorFeedPage.page w))
        (InvestorFeedPage.currentIndex (InvestorFeedPage.page w)) = Some Examples.acme_card /\
  InvestorFeedPage.currentIndex (InvestorFeedPage.page w') = 1%Z /\
  InvestorFeedPage.matches (InvestorFeedPage.page w') =
    [spread_set Examples.acme_card "swiped_at" (JStr "2026-01-01T00:00:00.000Z")].
Proof.
  cbv zeta. split; [reflexivity |].
  exact (proj2 (handleSwipe_atomic Examples.api (JStr "interested")
                 Examples.fresh_feed Examples.acme_card eq_refl) eq_refl).
Defined.

(** ** Lists filtered by a predicate and by its negation *)

Section Filters.

Context {A : Type} (f : A -> bool).

Lemma filter_nil_forallb (l : list A) :
  List.filter f l = [] <-> forallb (fun x => negb (f x)) l = true.
Proof.
  induction l as [| a l IH]; cbn; [tauto |].
  destruct (f a); cbn; [split; discriminate | exact IH].
Qed.

Lemma filter_negb_fixed (l : list A) :
  List.filter (fun x => negb (f x)) l = l <-> List.filter f l = [].
Proof.
  rewrite filter_nil_forallb. split.
  - intros H. apply filter_length_forallb. by rewrite H.
  - apply forallb_filter_id.
Qed.

Lemma filter_filter_negb (l : list A) :
  List.filter f (List.filter (fun x => negb (f x)) l) = [].
Proof.
  apply filter_nil_forallb, forallb_filter.
Qed.

End Filters.

(** ** Undo and remove-match against the server's store *)

Section UndoAndRemove.

Import Db Api InvestorFeedPage.

(** The example's right swipe, served by the modelled endpoint, leads from
    the fresh feed to the swiped one. *)
Lemma swiped_feed_reached :
  after (handleSwipe Examples.api (JStr "interested")) Examples.fresh_feed
  = Examples.swiped_feed.
Proof.
  vm_compute. reflexivity.
Qed.

(** C2, refuted as stated: the first of two cards was swiped right, so
    the pair is decided (its SwipeAction row is on the server), one card
    is left, and the undo button is on the page and enabled.  Pressing it
    brings the swiped card back and leaves the row where it was: the pair
    does not return to unseen, and the matches list is as before. *)
Lemma undo_leaves_swipe_row :
  FeedPage.undo_enabled Examples.swiped_feed = true /\
  Matching.decided "investor-1" "startup-1" (server Examples.swiped_feed) /\
  previous_card Examples.swiped_feed = Some Examples.acme_card /\
  FeedPage.currentCard (after handleUndoSwipe Examples.swiped_feed)
    = Some Examples.acme_card /\
  swipes_of "investor-1" "startup-1"
    (server (after handleUndoSwipe Examples.swiped_feed)) = [Examples.interested_row] /\
  Matching.decided "investor-1" "startup-1"
    (server (after handleUndoSwipe Examples.swiped_feed)) /\
  matches (page (after handleUndoSwipe Examples.swiped_feed))
    = matches (page Examples.swiped_feed).
Proof.
  repeat split; try (vm_compute; reflexivity); vm_compute; discriminate.
Qed.

(** C7, refuted as stated: from the same state, where both the undo
    button and the remove button of the match are on the page, removing
    the match empties the SwipeAction table while undo leaves the row in
    it; the match and browsable sets derived from the two tables differ. *)
Lemma removeMatch_differs_from_undo :
  let removed :=
    server (after (handleRemoveMatch Examples.api (JStr "startup-1"))
                  Examples.swiped_feed) in
  let undone := server (after handleUndoSwipe Examples.swiped_feed) in
  FeedPage.undo_enabled Examples.swiped_feed = true /\
  FeedPage.match_ids Examples.swiped_feed = [JStr "startup-1"] /\
  investor_swipes removed = [] /\
  investor_swipes undone = [Examples.interested_row] /\
  Matching.listMatches "investor-1" removed = [] /\
  Matching.listMatches "investor-1" undone = ["startup-1"] /\
  Matching.listBrowsable "investor-1" removed = ["startup-1"; "startup-2"] /\
  Matching.listBrowsable "investor-1" undone = ["startup-2"].
Proof.
  cbv zeta. repeat split; vm_compute; reflexivity.
Qed.

Variable api : Backend.

(** The remove handler leaves the server as its one request leaves it. *)
Lemma handleRemoveMatch_server (id : jsval) (w : World) :
  server (after (handleRemoveMatch api id) w) =
  (delete_match api (session w) id (server w)).2.
Proof.
  unfold after, handleRemoveMatch, try_catch, bind, axios_delete_match.
  destruct (delete_match api (session w) id (server w)) as [[|] s']; reflexivity.
Qed.

(** The local side of the remove handler: the index stays; the startup
    leaves the matches when the request resolves. *)
Lemma handleRemoveMatch_page (id : jsval) (w : World) :
  let w' := after (handleRemoveMatch api id) w in
  currentIndex (page w') = currentIndex (page w) /\
  matches (page w') =
    if (delete_match api (session w) id (server w)).1
    then List.filter (fun m => strict_neq (get m "id") id) (matches (page w))
    else matches (page w).
Proof.
  cbv zeta. unfold after, handleRemoveMatch, try_catch, bind, axios_delete_match.
  destruct (delete_match api (session w) id (server w)) as [[|] s']; cbn;
    split; reflexivity.
Qed.

(** C7: remove-match against undo.  When the DELETE request of a signed-in
    caller is served as [removeMatch], the remove handler leaves the pair
    unseen on the server, the undo handler leaves the SwipeAction table as
    it found it, and the two tables are the same exactly when the pair
    was unseen to begin with. *)
Theorem removeMatch_undo_agree_iff_unseen (id : jsval) (w : World) (u : uuid) :
  session w = Some u ->
  (delete_match api (Some u) id (server w)).2 =
    (Matching.removeMatch u (template id) (server w)).2 ->
  let removed := after (handleRemoveMatch api id) w in
  let undone := after handleUndoSwipe w in
  Matching.unseen u (template id) (server removed) /\
  investor_swipes (server undone) = investor_swipes (server w) /\
  (investor_swipes (server removed) = investor_swipes (server undone) <->
   Matching.unseen u (template id) (server w)).
Proof.
  intros Hu Hserved. cbv zeta.
  rewrite handleRemoveMatch_server, Hu, Hserved, handleUndoSwipe_server.
  unfold Matching.unseen, swipes_of, Matching.removeMatch, Matching.undo,
    delete_investor_swipes. cbn.
  repeat split.
  - apply filter_filter_negb.
  - apply filter_negb_fixed.
  - apply filter_negb_fixed.
Qed.

End UndoAndRemove.

Lemma removeMatch_undo_agree_iff_unseen_witness :
  let w := Examples.swiped_feed in
  let removed :=
    InvestorFeedPage.after
      (InvestorFeedPage.handleRemoveMatch Examples.api (JStr "startup-1")) w in
  let undone := InvestorFeedPage.after InvestorFeedPage.handleUndoSwipe w in
  InvestorFeedPage.session w = Some "investor-1" /\
  (InvestorFeedPage.delete_match Examples.api (Some "investor-1") (JStr "startup-1")
     (InvestorFeedPage.server w)).2 =
    (Matching.removeMatch "investor-1" "startup-1" (InvestorFeedPage.server w)).2 /\
  Matching.unseen "investor-1" "startup-1" (InvestorFeedPage.server removed) /\
  Db.investor_swipes (InvestorFeedPage.server undone) =
    Db.investor_swipes (InvestorFeedPage.server w) /\
  (Db.investor_swipes (InvestorFeedPage.server removed) =
     Db.investor_swipes (InvestorFeedPage.server undone) <->
   Matching.unseen "investor-1" "startup-1" (InvestorFeedPage.server w)).
Proof.
  cbv zeta. split; [reflexivity |]. split; [reflexivity |].
  exact (removeMatch_undo_agree_iff_unseen Examples.api
           (JStr "startup-1") Examples.swiped_feed "investor-1" eq_refl eq_refl).
Defined.

(** ** The SwipeAction table under the server's statements *)

Section SwipeTable.

Import Db Api Matching.

Lemma same_swipe_true (i w : uuid) (r : investor_swipes_row) :
  same_swipe i w r = true <-> sw_investor_id r = i /\ sw_startup_id r = w.
Proof.
  unfold same_swipe. rewrite andb_true_iff, !bool_decide_eq_true. tauto.
Qed.

(** A row belongs to one pair only. *)
Lemma same_swipe_other (i w i0 w0 : uuid) (r : investor_swipes_row) :
  ~ (i = i0 /\ w = w0) -> same_swipe i0 w0 r = true -> same_swipe i w r = false.
Proof.
  intros Hne H0. apply same_swipe_true in H0 as [Hi0 Hw0].
  destruct (same_swipe i w r) eqn:H; [| reflexivity].
  apply same_swipe_true in H as [Hi Hw].
  exfalso. apply Hne. split; congruence.
Qed.

Lemma existsb_filter {A : Type} (f : A -> bool) (l : list A) :
  existsb f l = false <-> List.filter f l = [].
Proof.
  induction l as [| a l IH]; cbn; [tauto |].
  destruct (f a); cbn; [split; discriminate | exact IH].
Qed.

Lemma filter_after_negb {A : Type} (f g : A -> bool) (l : list A) :
  (forall x, f x = true -> g x = false) ->
  List.filter f (List.filter (fun x => negb (g x)) l) = List.filter f l.
Proof.
  intros Hfg. induction l as [| a l IH]; cbn; [reflexivity |].
  destruct (g a) eqn:Hg; cbn.
  - destruct (f a) eqn:Hf; [| exact IH].
    apply Hfg in Hf. congruence.
  - rewrite IH. reflexivity.
Qed.

Lemma filter_after_map {A : Type} (f g : A -> bool) (h : A -> A) (l : list A) :
  (forall x, f (h x) = f x) ->
  List.filter f (map (fun x => if g x then h x else x) l) =
  map (fun x => if g x then h x else x) (List.filter f l).
Proof.
  intros Hfh. induction l as [| a l IH]; cbn; [reflexivity |].
  assert (Ha : f (if g a then h a else a) = f a) by (destruct (g a); auto).
  rewrite Ha. destruct (f a); cbn; rewrite IH; reflexivity.
Qed.

Lemma map_if_all {A : Type} (g : A -> bool) (h : A -> A) (l : list A) :
  (forall x, In x l -> g x = true) ->
  map (fun x => if g x then h x else x) l = map h l.
Proof.
  intros Hg. apply map_ext_in. intros x Hx. by rewrite (Hg x Hx).
Qed.

Lemma map_if_none {A : Type} (g : A -> bool) (h : A -> A) (l : list A) :
  (forall x, In x l -> g x = false) ->
  map (fun x => if g x then h x else x) l = l.
Proof.
  intros Hg. rewrite <- (map_id l) at 2.
  apply map_ext_in. intros x Hx. by rewrite (Hg x Hx).
Qed.

(** *** delete *)

Lemma swipes_of_delete_same (i w : uuid) (s : Store) :
  swipes_of i w (delete_investor_swipes i w s) = [].
Proof.
  unfold swipes_of, delete_investor_swipes. cbn. apply filter_filter_negb.
Qed.

Lemma swipes_of_delete_other (i w i0 w0 : uuid) (s : Store) :
  ~ (i = i0 /\ w = w0) ->
  swipes_of i0 w0 (delete_investor_swipes i w s) = swipes_of i0 w0 s.
Proof.
  intros Hne. unfold swipes_of, delete_investor_swipes. cbn.
  apply filter_after_negb. intros r. by apply same_swipe_other.
Qed.

(** *** update *)

Lemma update_investor_swipes_Ok (i w : uuid) (a : string) (t : timestamptz)
    (s s' : Store) :
  update_investor_swipes i w a t s = Ok s' ->
  action_check a = true /\
  forall i0 w0,
    swipes_of i0 w0 s' =
    map (fun r => if same_swipe i w r then set_action a t r else r) (swipes_of i0 w0 s).
Proof.
  unfold update_investor_swipes.
  destruct (action_check a); cbn; [| discriminate].
  intros [= <-]. split; [reflexivity |]. intros i0 w0.
  unfold swipes_of. cbn. by apply filter_after_map.
Qed.

(** *** insert *)

Lemma insert_investor_swipes_Ok (r : investor_swipes_row) (s s' : Store) :
  insert_investor_swipes r s = Ok s' ->
  action_check (sw_action r) = true /\
  swipes_of (sw_investor_id r) (sw_startup_id r) s = [] /\
  investor_swipes s' = (investor_swipes s ++ [r])%list.
Proof.
  unfold insert_investor_swipes.
  destruct (mem (sw_id r) _); [discriminate |].
  destruct (mem (sw_investor_id r) _); cbn; [| discriminate].
  destruct (mem (sw_startup_id r) _); cbn; [| discriminate].
  destruct (action_check (sw_action r)); cbn; [| discriminate].
  destruct (existsb _ _) eqn:Hex; [discriminate |].
  intros [= <-]. repeat split. by apply existsb_filter.
Qed.

(** *** upsert: a row is inserted where the pair has none, and the row of
    the pair is overwritten where the unique constraint is in the way. *)

Lemma upsert_investor_swipes_Ok (r : investor_swipes_row) (s s' : Store) :
  upsert_investor_swipes r s = Ok s' ->
  (swipes_of (sw_investor_id r) (sw_startup_id r) s = [] /\
   investor_swipes s' = (investor_swipes s ++ [r])%list) \/
  (swipes_of (sw_investor_id r) (sw_startup_id r) s <> [] /\
   forall i0 w0,
     swipes_of i0 w0 s' =
     map (fun x => if same_swipe (sw_investor_id r) (sw_startup_id r) x
                   then set_action (sw_action r) (sw_created_at r) x else x)
         (swipes_of i0 w0 s)).
Proof.
  unfold upsert_investor_swipes.
  destruct (insert_investor_swipes r s) as [s1 | e] eqn:Hins.
  - intros [= <-]. left.
    apply insert_investor_swipes_Ok in Hins as (_ & Hnone & Happ). by split.
  - destruct e; try discriminate.
    destruct (existsb _ _) eqn:Hex; [| discriminate].
    intros Hup. right.
    apply update_investor_swipes_Ok in Hup as [_ Hrows].
    split; [| exact Hrows].
    intros Hnone. apply existsb_filter in Hnone. congruence.
Qed.

Lemma swipes_of_app (i w : uuid) (s s' : Store) (r : investor_swipes_row) :
  investor_swipes s' = (investor_swipes s ++ [r])%list ->
  swipes_of i w s' = (swipes_of i w s ++ (if same_swipe i w r then [r] else []))%list.
Proof.
  intros H. unfold swipes_of. rewrite H, List.filter_app. reflexivity.
Qed.

End SwipeTable.

(** ** Sequences of swipe, undo and remove-match calls *)

Section SwipeMachine.

Import Db Api Matching Calls.

Variable gate : Gate.

Lemma on_pair_decide (i w i' w' : uuid) :
  on_pair i w i' w' = bool_decide (i' = i /\ w' = w).
Proof.
  unfold on_pair. repeat case_bool_decide; cbn; tauto || reflexivity.
Qed.

Lemma swipes_of_same_swipe (i w : uuid) (s : Store) (r : investor_swipes_row) :
  In r (swipes_of i w s) -> same_swipe i w r = true.
Proof.
  unfold swipes_of. rewrite filter_In. tauto.
Qed.

(** A refused swipe changes nothing for any pair. *)
Lemma record_refused (i0 w0 fresh i w a : uuid) (now : timestamptz)
    (cur : option string) :
  record i0 w0 cur (Swipe fresh now i w a, false) = cur.
Proof.
  unfold record. by rewrite andb_false_r.
Qed.

(** One call, seen from the pair [(i0, w0)]: uniqueness is kept, and the
    action on record moves as [record] says. *)
Lemma step_pair (c : call) (s s' : Store) (ok : bool) (i0 w0 : uuid) :
  step gate c s = (ok, s') ->
  (length (swipes_of i0 w0 s) <= 1 -> length (swipes_of i0 w0 s') <= 1) /\
  current_action i0 w0 s' = record i0 w0 (current_action i0 w0 s) (c, ok).
Proof.
  destruct c as [fresh now i w a | i w | i w]; unfold step.
  - unfold swipe. destruct (gate s i w) as [e |].
    { intros [= <- <-]. by rewrite record_refused. }
    destruct (upsert_investor_swipes _ s) as [s1 | e] eqn:Hup.
    2:{ intros [= <- <-]. by rewrite record_refused. }
    intros [= <- <-].
    apply upsert_investor_swipes_Ok in Hup as [[Hnone Happ] | [Hsome Hrows]];
      cbn [sw_investor_id sw_startup_id sw_action sw_created_at] in *.
    + unfold current_action, record.
      rewrite (swipes_of_app i0 w0 s s1 _ Happ), on_pair_decide.
      case_bool_decide as Hp; cbn [andb].
      * destruct Hp as [-> ->]. rewrite Hnone.
        assert (Hs : same_swipe i0 w0
                  {| sw_id := fresh; sw_investor_id := i0; sw_startup_id := w0;
                     sw_action := a; sw_created_at := now |} = true)
          by (apply same_swipe_true; split; reflexivity).
        rewrite Hs. cbn. split; [lia | reflexivity].
      * assert (Hs : same_swipe i0 w0
                  {| sw_id := fresh; sw_investor_id := i; sw_startup_id := w;
                     sw_action := a; sw_created_at := now |} = false).
        { destruct (same_swipe i0 w0 _) eqn:H; [| reflexivity].
          apply same_swipe_true in H as [H1 H2]. cbn in H1, H2. tauto. }
        rewrite Hs, app_nil_r. auto.
    + unfold current_action, record. rewrite Hrows, on_pair_decide.
      case_bool_decide as Hp; cbn [andb].
      * destruct Hp as [-> ->].
        rewrite map_if_all by apply swipes_of_same_swipe.
        rewrite length_map. split; [auto |].
        destruct (swipes_of i0 w0 s) as [| r rs]; [congruence | reflexivity].
      * rewrite map_if_none; [auto |].
        intros r Hr. apply swipes_of_same_swipe in Hr.
        by apply (same_swipe_other i w i0 w0).
  - unfold undo. intros [= <- <-].
    unfold current_action, record. rewrite on_pair_decide.
    case_bool_decide as Hp.
    + destruct Hp as [-> ->]. rewrite swipes_of_delete_same. cbn. split; [lia | reflexivity].
    + rewrite swipes_of_delete_other by exact Hp. auto.
  - unfold removeMatch, undo. intros [= <- <-].
    unfold current_action, record. rewrite on_pair_decide.
    case_bool_decide as Hp.
    + destruct Hp as [-> ->]. rewrite swipes_of_delete_same. cbn. split; [lia | reflexivity].
    + rewrite swipes_of_delete_other by exact Hp. auto.
Qed.

Lemma run_snoc (cs : list call) (c : call) (s : Store) :
  (run gate (cs ++ [c]) s).2 = (step gate c (run gate cs s).2).2.
Proof.
  revert s. induction cs as [| c0 cs IH]; intros s; cbn.
  - by destruct (step gate c s).
  - destruct (step gate c0 s) as [ok s1]. specialize (IH s1).
    destruct (run gate (cs ++ [c]) s1) as [tr s2].
    destruct (run gate cs s1) as [tr' s2']. exact IH.
Qed.

(** C3: after any sequence of swipe and undo calls (and remove-match
    calls, the second name of undo) on a table that started with at most
    one row per pair, every pair still has at most one row; the action of
    that row is the argument of the most recent swipe on the pair that
    succeeded, and the row is absent when an undo on the pair came after
    that swipe (or when nothing was ever recorded).  In particular the
    pair has no row when the most recent call was an undo on it. *)
Theorem swipes_after_calls (cs : list call) (s : Store) :
  swipes_unique s ->
  swipes_unique (run gate cs s).2 /\
  (forall i w,
     current_action i w (run gate cs s).2 =
     last_decision i w (run gate cs s).1 (current_action i w s)) /\
  (forall cs' i w,
     cs = (cs' ++ [Undo i w])%list -> unseen i w (run gate cs s).2).
Proof.
  intros Hu. split; [| split].
  - revert s Hu. induction cs as [| c cs IH]; intros s Hu; [exact Hu |].
    cbn [run]. destruct (step gate c s) as [ok s1] eqn:Hstep.
    assert (Hu1 : swipes_unique s1).
    { intros i w. apply (step_pair c s s1 ok i w Hstep), Hu. }
    specialize (IH s1 Hu1). by destruct (run gate cs s1) as [tr s2].
  - clear Hu. revert s. induction cs as [| c cs IH]; intros s i w; [reflexivity |].
    cbn [run]. destruct (step gate c s) as [ok s1] eqn:Hstep.
    specialize (IH s1 i w). destruct (run gate cs s1) as [tr s2].
    cbn in *. rewrite IH. unfold last_decision. cbn [fold_left].
    f_equal. by apply step_pair.
  - intros cs' i w ->. rewrite run_snoc. cbn [step]. unfold undo. cbn.
    apply swipes_of_delete_same.
Qed.

End SwipeMachine.

(** The swipe and the remove handler reach the server as the calls of
    their names, when the endpoints are the modelled ones and a session
    exists.  (The undo handler reaches no endpoint.) *)
Lemma handlers_as_calls (gate : Matching.Gate) (fresh : Db.uuid)
    (now : Db.timestamptz) (w : InvestorFeedPage.World) (u : Db.uuid) :
  let api := InvestorFeedPage.SpecBackend gate fresh now in
  let served c := (Calls.step gate c (InvestorFeedPage.server w)).2 in
  InvestorFeedPage.session w = Some u ->
  (forall card a,
     index (InvestorFeedPage.browsableStartups (InvestorFeedPage.page w))
           (InvestorFeedPage.currentIndex (InvestorFeedPage.page w)) = Some card ->
     InvestorFeedPage.server
       (InvestorFeedPage.after (InvestorFeedPage.handleSwipe api (JStr a)) w)
     = served (Calls.Swipe fresh now u (template (get card "id")) a)) /\
  (forall id,
     InvestorFeedPage.server
       (InvestorFeedPage.after (InvestorFeedPage.handleRemoveMatch api id) w)
     = served (Calls.RemoveMatch u (template id))).
Proof.
  cbv zeta. intros Hu. split.
  - intros card a Hcard.
    unfold InvestorFeedPage.after, InvestorFeedPage.handleSwipe,
      InvestorFeedPage.bind, InvestorFeedPage.getState,
      InvestorFeedPage.try_catch, InvestorFeedPage.axios_post_swipe.
    rewrite Hcard. cbn [InvestorFeedPage.post_swipe InvestorFeedPage.SpecBackend].
    rewrite Hu. cbn [Calls.step].
    destruct (Matching.swipe gate fresh now u (template (get card "id")) a
                (InvestorFeedPage.server w)) as [[r | e] s']; cbn;
      [destruct (strict_eq (JStr a) (JStr "interested")) |]; reflexivity.
  - intros id. rewrite handleRemoveMatch_server.
    cbn [InvestorFeedPage.delete_match InvestorFeedPage.SpecBackend].
    rewrite Hu. reflexivity.
Qed.

(** The six calls of the example: the undo clears the first decision, the
    fourth call is refused by the action check and leaves the third on
    record, the remove-match clears it, and the row at the end is the one
    of the last swipe. *)
Lemma calls_outcome :
  map snd (Calls.run Examples.open_gate Examples.calls Examples.one_startup).1 =
    [true; true; true; false; true; true] /\
  Matching.current_action "investor-1" "startup-1"
    (Calls.run Examples.open_gate (take 1 Examples.calls) Examples.one_startup).2 =
    Some "interested" /\
  Matching.current_action "investor-1" "startup-1"
    (Calls.run Examples.open_gate (take 2 Examples.calls) Examples.one_startup).2 =
    None /\
  Matching.current_action "investor-1" "startup-1"
    (Calls.run Examples.open_gate (take 4 Examples.calls) Examples.one_startup).2 =
    Some "passed" /\
  Matching.current_action "investor-1" "startup-1"
    (Calls.run Examples.open_gate (take 5 Examples.calls) Examples.one_startup).2 =
    None /\
  Db.swipes_of "investor-1" "startup-1"
    (Calls.run Examples.open_gate Examples.calls Examples.one_startup).2 =
    [{| Db.sw_id := "swipe-4"; Db.sw_investor_id := "investor-1";
        Db.sw_startup_id := "startup-1"; Db.sw_action := "interested";
        Db.sw_created_at := 4%Z |}].
Proof.
  repeat split; vm_compute; reflexivity.
Qed.

Lemma swipes_after_calls_witness :
  let final := (Calls.run Examples.open_gate Examples.calls Examples.one_startup).2 in
  let undone :=
    (Calls.run Examples.open_gate (take 2 Examples.calls) Examples.one_startup).2 in
  Db.swipes_unique Examples.one_startup /\
  Db.swipes_unique final /\
  Matching.current_action "investor-1" "startup-1" final = Some "interested" /\
  Matching.unseen "investor-1" "startup-1" undone.
Proof.
  cbv zeta.
  assert (H : Db.swipes_unique Examples.one_startup) by (intros i w; cbn; lia).
  split; [exact H |].
  destruct (swipes_after_calls Examples.open_gate Examples.calls
              Examples.one_startup H) as (Hu & Hact & _).
  destruct (swipes_after_calls Examples.open_gate (take 2 Examples.calls)
              Examples.one_startup H) as (_ & _ & Hundo).
  split; [exact Hu |]. split.
  - rewrite Hact. vm_compute. reflexivity.
  - apply (Hundo [Calls.Swipe "swipe-1" 1%Z "investor-1" "startup-1" "interested"]).
    reflexivity.
Defined.

(** ** Invite codes: redemption and uniqueness *)

Section Invites.

Import Db Api Registry.

Lemma same_member_true (w u : uuid) (r : startup_members_row) :
  same_member w u r = true <-> sm_startup_id r = w /\ sm_user_id r = u.
Proof.
  unfold same_member. rewrite andb_true_iff, !bool_decide_eq_true. tauto.
Qed.

Lemma insert_startup_members_Ok (r : startup_members_row) (s s' : Store) :
  insert_startup_members r s = Ok s' ->
  startups s' = startups s /\
  startup_members s' = (startup_members s ++ [r])%list /\
  members_of (sm_startup_id r) (sm_user_id r) s = [].
Proof.
  unfold insert_startup_members.
  destruct (mem (sm_id r) _); [discriminate |].
  destruct (mem (sm_startup_id r) _); cbn; [| discriminate].
  destruct (mem (sm_user_id r) _); cbn; [| discriminate].
  destruct (role_check (sm_role r)); cbn; [| discriminate].
  destruct (existsb _ _) eqn:Hex; [discriminate |].
  intros [= <-]. repeat split. by apply existsb_filter.
Qed.

(** The table keeps [unique(startup_id, user_id)] under insertion. *)
Lemma insert_startup_members_unique (r : startup_members_row) (s s' : Store) :
  members_unique s -> insert_startup_members r s = Ok s' -> members_unique s'.
Proof.
  intros Hu Hins w u.
  apply insert_startup_members_Ok in Hins as (_ & Hmem & Hnone).
  unfold members_of in *. rewrite Hmem, List.filter_app, length_app. cbn [List.filter].
  destruct (same_member w u r) eqn:Hr; cbn [length].
  - apply same_member_true in Hr as [<- <-]. rewrite Hnone. cbn. lia.
  - specialize (Hu w u). unfold members_of in Hu. lia.
Qed.

Variable is_investor : uuid -> bool.

(** A user who is a member already is turned away with [ConflictError],
    and nothing is written. *)
Lemma redeemInviteCode_member (fresh : uuid) (now : timestamptz)
    (userId : uuid) (code : string) (role : option string) (s : Store)
    (w : startups_row) :
  List.find (fun w => bool_decide (s_invite_code w = Some code)) (startups s) = Some w ->
  members_of (s_id w) userId s <> [] ->
  redeemInviteCode is_investor fresh now userId code role s = (Err ConflictError, s).
Proof.
  intros Hfind Hmem. unfold redeemInviteCode. rewrite Hfind.
  destruct (existsb _ _) eqn:Hex; [reflexivity |].
  apply existsb_filter in Hex. contradiction.
Qed.

(** C4: a user redeems a code, and then redeems it again.  The second call
    fails with [ConflictError], whatever role it asks for, and leaves the
    store as the first call left it, with exactly one Membership row of the
    user in the workspace of the code. *)
Theorem redeemInviteCode_twice (fresh1 fresh2 : uuid) (now1 now2 : timestamptz)
    (userId : uuid) (code : string) (role1 role2 : option string)
    (s s1 : Store) (row : startup_members_row) :
  redeemInviteCode is_investor fresh1 now1 userId code role1 s = (Ok row, s1) ->
  redeemInviteCode is_investor fresh2 now2 userId code role2 s1
    = (Err ConflictError, s1) /\
  sm_user_id row = userId /\
  members_of (sm_startup_id row) userId s1 = [row].
Proof.
  unfold redeemInviteCode.
  destruct (List.find _ (startups s)) as [w |] eqn:Hfind; [| discriminate].
  destruct (existsb (same_member (s_id w) userId) (startup_members s)) eqn:Hex;
    [discriminate |].
  destruct (_ && _); [discriminate |].
  destruct (insert_startup_members _ s) as [s' | e] eqn:Hins; [| discriminate].
  intros [= <- <-].
  apply insert_startup_members_Ok in Hins as (Hst & Hmem & _). cbn in Hmem.
  apply existsb_filter in Hex.
  assert (Hrow : same_member (s_id w) userId
            {| sm_id := fresh1; sm_startup_id := s_id w; sm_user_id := userId;
               sm_role := default "member" role1; sm_joined_at := now1 |} = true)
    by (apply same_member_true; split; reflexivity).
  rewrite Hst, Hfind, Hmem, existsb_app. cbn [existsb].
  rewrite Hrow, orb_true_r. cbn.
  repeat split.
  unfold members_of. rewrite Hmem, List.filter_app, Hex. cbn [List.filter].
  rewrite Hrow. reflexivity.
Qed.

(** C5: the [startups] table takes a second workspace whose invite code is
    already in use, and an update may give a workspace the code another one
    holds (from a store whose codes are all different): either way the
    statement succeeds and two workspaces share one code. *)
Theorem duplicate_invite_code_accepted :
  insert_startups Examples.second_startup Examples.one_startup
    = Ok Examples.two_startups /\
  invite_codes_unique Examples.distinct_codes /\
  update_startups_invite_code "startup-2" (Some "ABCD1234") Examples.distinct_codes
    = Ok Examples.two_startups /\
  ~ invite_codes_unique Examples.two_startups.
Proof.
  split; [reflexivity |]. split; [| split; [reflexivity |]].
  - intros r1 r2 code H1 H2.
    apply list_elem_of_In in H1, H2. cbn in H1, H2.
    destruct H1 as [<- | [<- | []]], H2 as [<- | [<- | []]]; cbn;
      intros E1 E2; congruence.
  - intros Huniq.
    specialize (Huniq (Examples.startup_row "startup-1" "Acme" "founder-1" (Some "ABCD1234"))
                      Examples.second_startup "ABCD1234").
    cbn in Huniq.
    assert (H : "startup-1" = "startup-2");
      [apply Huniq; try reflexivity | discriminate H].
    + apply list_elem_of_In. cbn. auto.
    + apply list_elem_of_In. cbn. auto.
Qed.

End Invites.

Lemma redeemInviteCode_twice_witness :
  let first :=
    Registry.redeemInviteCode (fun _ => false) "m-2" 0%Z "investor-1" "ABCD1234"
      None Examples.one_startup in
  first = (Db.Ok (Examples.membership "m-2" "startup-1" "investor-1" "member"), first.2) /\
  Registry.redeemInviteCode (fun _ => false) "m-3" 6%Z "investor-1" "ABCD1234"
    (Some "manager") first.2 = (Db.Err Api.ConflictError, first.2) /\
  Db.members_of "startup-1" "investor-1" first.2 =
    [Examples.membership "m-2" "startup-1" "investor-1" "member"].
Proof.
  cbv zeta.
  assert (H : Registry.redeemInviteCode (fun _ => false) "m-2" 0%Z "investor-1"
                "ABCD1234" None Examples.one_startup
              = (Db.Ok (Examples.membership "m-2" "startup-1" "investor-1" "member"),
                 (Registry.redeemInviteCode (fun _ => false) "m-2" 0%Z "investor-1"
                    "ABCD1234" None Examples.one_startup).2))
    by (vm_compute; reflexivity).
  split; [exact H |].
  destruct (redeemInviteCode_twice (fun _ => false) "m-2" "m-3" 0%Z 6%Z
              "investor-1" "ABCD1234" None (Some "manager")
              Examples.one_startup _ _ H) as (H2 & _ & H1).
  split; [exact H2 | exact H1].
Defined.

(** ** The metrics snapshot *)

Section Snapshot.

Import Db Metrics.

Lemma runway_burning (s : Store) (w : uuid) :
  (0 < monthlyBurn (computeSnapshot s w))%Q ->
  runwayMonths (computeSnapshot s w) =
    Some (balance (computeSnapshot s w) / monthlyBurn (computeSnapshot s w))%Q.
Proof.
  unfold computeSnapshot. cbn. intros Hpos.
  destruct (Qlt_le_dec 0 _) as [_ | Hle]; [reflexivity |].
  exfalso. exact (Qlt_not_le _ _ Hpos Hle).
Qed.

Lemma runway_not_burning (s : Store) (w : uuid) :
  (monthlyBurn (computeSnapshot s w) <= 0)%Q ->
  runwayMonths (computeSnapshot s w) = None.
Proof.
  unfold computeSnapshot. cbn. intros Hle.
  destruct (Qlt_le_dec 0 _) as [Hpos |]; [| reflexivity].
  exfalso. exact (Qlt_not_le _ _ Hpos Hle).
Qed.

(** *** The monthly sums add up to the total *)

Lemma month_total_cons (e : ledger_row) (es : list ledger_row) (m : Z * Z) :
  month_total (e :: es) m =
  if bool_decide (month_of (l_date e) = m)
  then (l_amount e + month_total es m)%Q
  else month_total es m.
Proof.
  unfold month_total. cbn. case_bool_decide; reflexivity.
Qed.

Lemma month_total_absent (es : list ledger_row) (k : Z * Z) :
  k ∉ map (fun e => month_of (l_date e)) es -> month_total es k = 0%Q.
Proof.
  intros Hk. unfold month_total.
  replace (List.filter _ es) with (@nil ledger_row); [reflexivity |].
  symmetry. apply existsb_filter.
  destruct (existsb _ es) eqn:Hex; [| reflexivity].
  apply existsb_exists in Hex as (e & He & Hm).
  apply bool_decide_eq_true in Hm. exfalso. apply Hk.
  apply list_elem_of_In, in_map_iff. eauto.
Qed.

Lemma sum_if_absent (k : Z * Z) (a : Q) (g : Z * Z -> Q) (ms : list (Z * Z)) :
  k ∉ ms ->
  map (fun m => if bool_decide (k = m) then (a + g m)%Q else g m) ms = map g ms.
Proof.
  intros Hk. apply map_ext_in. intros m Hm.
  case_bool_decide as E; [| reflexivity].
  subst m. exfalso. apply Hk. by apply list_elem_of_In.
Qed.

Lemma sum_if_present (k : Z * Z) (a : Q) (g : Z * Z -> Q) (ms : list (Z * Z)) :
  NoDup ms -> k ∈ ms ->
  sum (map (fun m => if bool_decide (k = m) then (a + g m)%Q else g m) ms)
  == a + sum (map g ms).
Proof.
  induction 1 as [| x ms Hx Hnd IH]; intros Hk.
  - by apply not_elem_of_nil in Hk.
  - unfold sum in *. cbn. case_bool_decide as E.
    + subst x. rewrite sum_if_absent by exact Hx. ring.
    + apply elem_of_cons in Hk as [-> | Hk]; [congruence |].
      rewrite (IH Hk). ring.
Qed.

Lemma month_totals_sum (es : list ledger_row) :
  sum (map (month_total es) (months_present es)) == sum (map l_amount es).
Proof.
  induction es as [| e es IH]; [reflexivity |].
  unfold months_present in *. cbn [map remove_dups].
  rewrite (map_ext _ _ (month_total_cons e es)).
  destruct (decide_rel elem_of _ _) as [Hin | Hout].
  - rewrite sum_if_present.
    + cbn. by rewrite IH.
    + apply NoDup_remove_dups.
    + by apply elem_of_remove_dups.
  - cbn. rewrite bool_decide_eq_true_2 by reflexivity.
    rewrite sum_if_absent by (by rewrite elem_of_remove_dups).
    rewrite (month_total_absent es _ Hout), IH. unfold sum. ring.
Qed.

(** The monthly burn is also the total of the expenses over the number of
    months that occur in them. *)
Lemma average_monthly_total (es : list ledger_row) :
  average_monthly es ==
  sum (map l_amount es) / inject_Z (Z.of_nat (length (months_present es))).
Proof.
  unfold average_monthly.
  destruct (months_present es) as [| m ms] eqn:Hms.
  - rewrite <- month_totals_sum, Hms. reflexivity.
  - rewrite <- month_totals_sum, Hms. reflexivity.
Qed.

Lemma average_monthly_two (e1 e2 : ledger_row) :
  month_of (l_date e1) <> month_of (l_date e2) ->
  average_monthly [e1; e2] =
  ((l_amount e1 + 0 + (l_amount e2 + 0 + 0)) / inject_Z 2)%Q.
Proof.
  intros Hne. unfold average_monthly, months_present. cbn [map remove_dups].
  destruct (decide_rel elem_of _ _) as [Hin | _].
  { apply list_elem_of_singleton in Hin. contradiction. }
  destruct (decide_rel elem_of _ _) as [Hin | _].
  { by apply not_elem_of_nil in Hin. }
  cbn [map length]. rewrite !month_total_cons.
  repeat case_bool_decide; try congruence. reflexivity.
Qed.

(** C6: wherever the example ledger of the specification is found, the
    snapshot is totalRaised 500, balance 600, teamSize 3, monthlyBurn 25
    and runway 24; for every store and workspace the balance is income
    plus raised minus expenses, the burn is the expenses over the number
    of months they fall in, the runway is balance over burn while the burn
    is positive, and without expense rows the burn is zero and the runway
    is the sentinel [None]. *)
Theorem computeSnapshot_formulas :
  (forall s w,
     example_ledger s w ->
     let snap := computeSnapshot s w in
     totalRaised snap == 500 /\ balance snap == 600 /\ teamSize snap = 3 /\
     monthlyBurn snap == 25 /\
     exists r, runwayMonths snap = Some r /\ r == 24) /\
  (forall s w,
     let snap := computeSnapshot s w in
     let earned := sum (map l_amount (of_startup l_startup_id w (income s))) in
     let es := of_startup l_startup_id w (expenses s) in
     let spent := sum (map l_amount es) in
     totalRaised snap = sum (map iv_amount (of_startup iv_startup_id w (investments s))) /\
     balance snap == earned + totalRaised snap - spent /\
     monthlyBurn snap == spent / inject_Z (Z.of_nat (length (months_present es))) /\
     ((0 < monthlyBurn snap)%Q ->
        runwayMonths snap = Some (balance snap / monthlyBurn snap)%Q) /\
     (es = [] -> monthlyBurn snap = 0%Q /\ runwayMonths snap = None)).
Proof.
  split.
  - intros s w (Hin & (e1 & e2 & Hex & H1 & H2 & Hne) & Hiv & Hteam). cbv zeta.
    unfold computeSnapshot. cbn [totalRaised balance teamSize monthlyBurn runwayMonths].
    rewrite Hin, Hex, Hiv, Hteam, (average_monthly_two e1 e2 Hne).
    cbn [map]. rewrite H1, H2.
    repeat split; try (vm_compute; reflexivity).
    eexists. split; vm_compute; reflexivity.
  - intros s w. cbv zeta. split; [reflexivity |]. split; [reflexivity |].
    split; [apply average_monthly_total |].
    split; [apply runway_burning |].
    intros Hnone.
    assert (Hburn : monthlyBurn (computeSnapshot s w) = 0%Q).
    { unfold computeSnapshot. cbn. rewrite Hnone. reflexivity. }
    split; [exact Hburn |].
    apply runway_not_burning. rewrite Hburn. apply Qle_refl.
Qed.

End Snapshot.

Lemma computeSnapshot_formulas_witness :
  let snap := Metrics.computeSnapshot Examples.books "startup-1" in
  let idle := Metrics.computeSnapshot Examples.books "startup-3" in
  Metrics.example_ledger Examples.books "startup-1" /\
  (Metrics.totalRaised snap == 500 /\ Metrics.balance snap == 600 /\
   Metrics.teamSize snap = 3 /\ Metrics.monthlyBurn snap == 25 /\
   exists r, Metrics.runwayMonths snap = Some r /\ r == 24) /\
  Metrics.of_startup Db.l_startup_id "startup-3" (Db.expenses Examples.books) = [] /\
  Metrics.monthlyBurn idle = 0%Q /\ Metrics.runwayMonths idle = None.
Proof.
  cbv zeta.
  assert (H : Metrics.example_ledger Examples.books "startup-1").
  { split; [reflexivity |]. split; [| split; reflexivity].
    eexists _, _. split; [reflexivity |]. repeat split. discriminate. }
  split; [exact H |].
  split; [exact (proj1 computeSnapshot_formulas Examples.books "startup-1" H) |].
  split; [reflexivity |].
  exact (proj2 (proj2 (proj2 (proj2
           (proj2 computeSnapshot_formulas Examples.books "startup-3")))) eq_refl).
Defined.

(** * Further properties of the provider, the sidebar and the pages *)

(** ** The permission table on arbitrary values *)

Section Roles.

Import AuthContext Outcomes.

Lemma strict_eq_ne (a b : jsval) : a <> b -> strict_eq a b = false.
Proof.
  intros Hne. unfold strict_eq. by apply bool_decide_eq_false.
Qed.

Lemma permissions_no_role (role : jsval) :
  role <> JStr "founder" -> role <> JStr "manager" ->
  role <> JStr "member" -> role <> JStr "investor" ->
  permissions role = no_permissions.
Proof.
  intros Hf Hm Hb Hi.
  unfold permissions, no_permissions.
  unfold PERMISSIONS.canManageContent, PERMISSIONS.canViewAnalytics,
    PERMISSIONS.canAccessPitch, PERMISSIONS.canManageTeam,
    PERMISSIONS.canViewTeam, PERMISSIONS.canViewTasks,
    PERMISSIONS.canManageStartup, PERMISSIONS.canViewInvestorFeed,
    PERMISSIONS.canViewMyInvestments, PERMISSIONS.canManageInvestors.
  cbn [includes existsb].
  rewrite !(strict_eq_ne role (JStr "founder")), !(strict_eq_ne role (JStr "investor"))
    by done.
  rewrite !(strict_eq_ne (JStr "founder") role), !(strict_eq_ne (JStr "manager") role),
    !(strict_eq_ne (JStr "member") role) by done.
  reflexivity.
Qed.

(** X1: whatever value the role is (a string, a number, [null],
    [undefined], a boolean), the permissions object is one of five: the
    founder's, the manager's, the member's or the investor's for exactly
    these four strings, and the empty one for every other value. *)
Theorem permissions_five_outcomes (role : jsval) :
  permissions role = permissions_of role.
Proof.
  unfold permissions_of.
  repeat case_bool_decide; subst; try reflexivity.
  by apply permissions_no_role.
Qed.

(** X2: the sidebar of [DashboardLayout] for any role value: one of five
    lists of entries, in the order of [allNavItems]; Overview and Settings
    are in each, and a value that is none of the four role names sees
    nothing else. *)
Theorem sidebar_five_outcomes (role : jsval) :
  DashboardLayout.sidebar role = sidebar_of role.
Proof.
  unfold DashboardLayout.sidebar, sidebar_of.
  repeat case_bool_decide; subst; try reflexivity.
  rewrite permissions_no_role by done. reflexivity.
Qed.

Lemma sidebar_cases (role : jsval) :
  (role = JStr "founder" \/ role = JStr "manager" \/ role = JStr "member" \/
   role = JStr "investor") \/
  DashboardLayout.sidebar role = ["Overview"; "Settings"].
Proof.
  destruct (decide (role = JStr "founder")); [tauto |].
  destruct (decide (role = JStr "manager")); [tauto |].
  destruct (decide (role = JStr "member")); [tauto |].
  destruct (decide (role = JStr "investor")); [tauto |].
  right. unfold DashboardLayout.sidebar.
  rewrite permissions_no_role by done. reflexivity.
Qed.

(** X3: the pages' own role guards against the sidebar.  The Pitch
    Generator and My Investments pages open for exactly the roles that see
    their sidebar entry; the AI Insights page opens for every role that
    sees its entry, and also for a member, who does not. *)
Theorem page_guards_and_sidebar (role : jsval) :
  Pages.PitchGeneratorPage_open role =
    bool_decide ("Pitch Generator" ∈ DashboardLayout.sidebar role) /\
  Pages.MyInvestmentsPage_open role =
    bool_decide ("My Investments" ∈ DashboardLayout.sidebar role) /\
  implb (bool_decide ("AI Insights" ∈ DashboardLayout.sidebar role))
        (Pages.AIInsightsPage_open role) = true /\
  Pages.AIInsightsPage_open (JStr "member") = true /\
  bool_decide ("AI Insights" ∈ DashboardLayout.sidebar (JStr "member")) = false.
Proof.
  destruct (sidebar_cases role) as [[-> | [-> | [-> | ->]]] | Hnone].
  1-4: repeat split; vm_compute; reflexivity.
  rewrite Hnone.
  assert (Hf : strict_eq role (JStr "founder") = false).
  { destruct (strict_eq role (JStr "founder")) eqn:E; [| reflexivity].
    apply bool_decide_eq_true in E. subst role. vm_compute in Hnone. discriminate. }
  assert (Hi : strict_eq role (JStr "investor") = false).
  { destruct (strict_eq role (JStr "investor")) eqn:E; [| reflexivity].
    apply bool_decide_eq_true in E. subst role. vm_compute in Hnone. discriminate. }
  unfold Pages.PitchGeneratorPage_open, Pages.MyInvestmentsPage_open,
    Pages.AIInsightsPage_open, strict_neq. rewrite Hf, Hi.
  repeat split; vm_compute; reflexivity.
Qed.

End Roles.

(** ** The provider: fetching, selecting and signing out *)

Section Provider.

Import AuthProvider.

Lemma find_by_id_Some (l : list obj) (id : jsval) (s : obj) :
  find_by_id l id = Some s -> In s l /\ get s "id" = id.
Proof.
  unfold find_by_id. intros H. apply find_some in H as [Hin Heq].
  split; [exact Hin |]. by apply bool_decide_eq_true in Heq.
Qed.

Lemma find_by_id_None (l : list obj) (id : jsval) :
  find_by_id l id = None -> forall s, In s l -> get s "id" <> id.
Proof.
  unfold find_by_id. intros H s Hin Heq.
  apply (find_none _ _ H) in Hin. unfold strict_eq in Hin.
  by rewrite bool_decide_eq_true_2 in Hin.
Qed.

Lemma find_by_id_is_Some (l : list obj) (id : jsval) (s : obj) :
  In s l -> get s "id" = id -> exists s', find_by_id l id = Some s'.
Proof.
  intros Hin Heq. destruct (find_by_id l id) as [s' |] eqn:H; [eauto |].
  exfalso. exact (find_by_id_None l id H s Hin Heq).
Qed.

Lemma fetchStartups_selects_aux (l : list obj) (w : World) :
  l <> [] ->
  startups (state (fetchStartups (Some (Some l)) w)) = l /\
  exists s, currentStartup (state (fetchStartups (Some (Some l)) w)) = Some s /\ In s l.
Proof.
  intros Hne. unfold fetchStartups.
  destruct l as [| first rest]; [contradiction |].
  cbn -[find_by_id getItem].
  split; [reflexivity |].
  destruct (find_by_id (first :: rest) (getItem (localStorage w) "currentStartupId"))
    as [found |] eqn:Hfind; cbn [default].
  - exists found. apply find_by_id_Some in Hfind as [Hin _].
    split; [reflexivity | exact Hin].
  - exists first. split; [reflexivity | by left].
Qed.

(** X4: a fetch that brings a non-empty list replaces the list and selects
    one of its startups: the first whose id is the saved
    [currentStartupId] if there is one, the first of the list otherwise;
    [localStorage] is only read. *)
Theorem fetchStartups_selects (l : list obj) (w : World) :
  l <> [] ->
  let w' := fetchStartups (Some (Some l)) w in
  let savedId := getItem (localStorage w) "currentStartupId" in
  startups (state w') = l /\
  startupsLoaded (state w') = true /\
  localStorage w' = localStorage w /\
  exists s,
    currentStartup (state w') = Some s /\ In s l /\
    match find_by_id l savedId with
    | Some found => s = found /\ get s "id" = savedId
    | None => head l = Some s
    end.
Proof.
  intros Hne. cbv zeta. unfold fetchStartups.
  destruct l as [| first rest]; [contradiction |].
  cbn -[find_by_id getItem].
  repeat split.
  destruct (find_by_id (first :: rest) (getItem (localStorage w) "currentStartupId"))
    as [found |] eqn:Hfind; cbn [default].
  - exists found. apply find_by_id_Some in Hfind as [Hin Hid].
    split; [reflexivity |]. split; [exact Hin |]. split; [reflexivity | exact Hid].
  - exists first. split; [reflexivity |]. split; [by left | reflexivity].
Qed.

Lemma fetchStartups_selects_witness :
  let l := [Examples.acme_card] in
  let w := {| state := initial; localStorage := ∅ |} in
  l <> [] /\
  startups (state (fetchStartups (Some (Some l)) w)) = l /\
  currentStartup (state (fetchStartups (Some (Some l)) w)) = Some Examples.acme_card.
Proof.
  cbv zeta.
  assert (H : [Examples.acme_card] <> []) by discriminate.
  split; [exact H |].
  destruct (fetchStartups_selects [Examples.acme_card]
              {| state := initial; localStorage := ∅ |} H) as (Hl & _ & _ & _).
  split; [exact Hl | reflexivity].
Defined.

(** X5: a fetch that fails, or that brings nothing, never touches the
    selection: [currentStartup] (and with it the role) stays what it was,
    also when the list becomes empty; [startupsLoaded] is set all the
    same, and a failed fetch keeps the old list. *)
Theorem fetchStartups_keeps_selection (w : World) :
  currentStartup (state (fetchStartups None w)) = currentStartup (state w) /\
  startups (state (fetchStartups None w)) = startups (state w) /\
  startupsLoaded (state (fetchStartups None w)) = true /\
  (forall data,
     default [] data = [] ->
     currentStartup (state (fetchStartups (Some data) w)) = currentStartup (state w) /\
     startups (state (fetchStartups (Some data) w)) = [] /\
     startupsLoaded (state (fetchStartups (Some data) w)) = true /\
     userRole (fetchStartups (Some data) w) = userRole w).
Proof.
  repeat split; try reflexivity;
    unfold userRole, fetchStartups; rewrite H; reflexivity.
Qed.

(** X6: the selection survives a refetch.  After [selectStartup(s)] for a
    startup whose id is a string, a fetch whose list holds a startup with
    that id selects the first such startup. *)
Theorem selectStartup_survives_fetch (s x : obj) (i : string) (l : list obj)
    (w : World) :
  get s "id" = JStr i -> In x l -> get x "id" = JStr i ->
  let w' := fetchStartups (Some (Some l)) (selectStartup s w) in
  currentStartup (state w') = find_by_id l (JStr i) /\
  exists s', currentStartup (state w') = Some s' /\ In s' l /\ get s' "id" = JStr i.
Proof.
  intros Hs Hin Hx. cbv zeta.
  destruct (find_by_id_is_Some l (JStr i) x Hin Hx) as [s' Hfind].
  assert (Hcur : currentStartup (state (fetchStartups (Some (Some l)) (selectStartup s w)))
                 = Some s').
  { unfold fetchStartups, selectStartup.
    destruct l as [| first rest]; [destruct Hin |].
    cbn -[find_by_id getItem setItem].
    unfold getItem, setItem. rewrite lookup_insert_eq, Hs. cbn [template from_option].
    rewrite Hfind. reflexivity. }
  rewrite Hcur, Hfind. split; [reflexivity |].
  exists s'. apply find_by_id_Some in Hfind as [H1 H2]. auto.
Qed.

Lemma selectStartup_survives_fetch_witness :
  let founder_card := <["user_role" := JStr "founder"]> Examples.acme_card in
  let other := {[ "id" := JStr "startup-0" ]} : obj in
  let w := {| state := initial; localStorage := ∅ |} in
  get Examples.acme_card "id" = JStr "startup-1" /\
  get founder_card "id" = JStr "startup-1" /\
  exists s',
    currentStartup
      (state (fetchStartups (Some (Some [other; founder_card]))
                            (selectStartup Examples.acme_card w))) = Some s' /\
    In s' [other; founder_card] /\ get s' "id" = JStr "startup-1".
Proof.
  cbv zeta.
  assert (H1 : get Examples.acme_card "id" = JStr "startup-1")
    by (vm_compute; reflexivity).
  assert (H2 : get (<["user_role" := JStr "founder"]> Examples.acme_card) "id"
               = JStr "startup-1") by (vm_compute; reflexivity).
  split; [exact H1 |]. split; [exact H2 |].
  exact (proj2 (selectStartup_survives_fetch Examples.acme_card
                  (<["user_role" := JStr "founder"]> Examples.acme_card)
                  "startup-1"
                  [{[ "id" := JStr "startup-0" ]};
                   <["user_role" := JStr "founder"]> Examples.acme_card]
                  {| state := initial; localStorage := ∅ |}
                  H1 (or_intror (or_introl eq_refl)) H2)).
Defined.

(** An id that is not a string does not come back from [localStorage] as
    it went in: the saved text never equals a number, and the refetch
    falls back to the first startup. *)
Lemma numeric_id_not_kept :
  let five := {[ "id" := JNum 5 ]} : obj in
  let four := {[ "id" := JNum 4 ]} : obj in
  currentStartup
    (state (fetchStartups (Some (Some [four; five]))
              (selectStartup five {| state := initial; localStorage := ∅ |})))
  = Some four.
Proof.
  vm_compute. reflexivity.
Qed.

(** X7: signing out forgets the workspace.  Afterwards nothing is
    selected, the role is the default ["member"], the saved id is gone,
    and the next fetch (of startups that all have an id) selects the first
    startup of its list, whatever was selected before. *)
Theorem signOut_forgets_selection (first : obj) (rest : list obj) (w : World) :
  (forall x, In x (first :: rest) -> get x "id" <> JNull) ->
  currentStartup (state (signOut w)) = None /\
  startups (state (signOut w)) = [] /\
  session (state (signOut w)) = None /\
  localStorage (signOut w) !! "currentStartupId" = None /\
  userRole (signOut w) = JStr "member" /\
  currentStartup (state (fetchStartups (Some (Some (first :: rest))) (signOut w)))
    = Some first.
Proof.
  intros Hids. repeat split.
  - unfold signOut, removeItem. cbn. apply lookup_delete_eq.
  - unfold fetchStartups, signOut. cbn -[find_by_id getItem removeItem].
    unfold removeItem, getItem. rewrite lookup_delete_eq. cbn [from_option].
    destruct (find_by_id (first :: rest) JNull) as [found |] eqn:Hfind; [| reflexivity].
    apply find_by_id_Some in Hfind as [Hin Hid]. exfalso. exact (Hids found Hin Hid).
Qed.

Lemma signOut_forgets_selection_witness :
  let w := selectStartup {[ "id" := JStr "startup-9" ]}
             {| state := initial; localStorage := ∅ |} in
  (forall x, In x [Examples.acme_card] -> get x "id" <> JNull) /\
  userRole (signOut w) = JStr "member" /\
  currentStartup (state (fetchStartups (Some (Some [Examples.acme_card])) (signOut w)))
    = Some Examples.acme_card.
Proof.
  cbv zeta.
  assert (H : forall x, In x [Examples.acme_card] -> get x "id" <> JNull).
  { intros x [<- | []]. vm_compute. discriminate. }
  split; [exact H |].
  destruct (signOut_forgets_selection Examples.acme_card []
              (selectStartup {[ "id" := JStr "startup-9" ]}
                 {| state := initial; localStorage := ∅ |}) H)
    as (_ & _ & _ & _ & Hrole & Hcur).
  split; [exact Hrole | exact Hcur].
Defined.

(** X8: the selected startup is one of the listed ones, and stays so under
    the workspace selector, a failed fetch, a fetch that brings startups
    and a sign-out.  (A fetch that brings an empty list is the exception:
    it empties the list and keeps the selection.) *)
Theorem selected_listed_kept (w : World) :
  selected_listed w ->
  (forall v, selected_listed (DashboardLayout.onValueChange v w)) /\
  selected_listed (fetchStartups None w) /\
  (forall l, l <> [] -> selected_listed (fetchStartups (Some (Some l)) w)) /\
  selected_listed (signOut w).
Proof.
  intros Hw. repeat split.
  - intros v. unfold DashboardLayout.onValueChange.
    destruct (strict_eq v (JStr "create-new")); [exact Hw |].
    destruct (find_by_id _ v) as [s |] eqn:Hfind; [| exact Hw].
    apply find_by_id_Some in Hfind as [Hin _].
    intros s' [= <-]. exact Hin.
  - exact Hw.
  - intros l Hne s Hs.
    destruct (fetchStartups_selects_aux l w Hne) as (Hl & s' & Hcur & Hin).
    rewrite Hl. congruence.
  - intros s Hs. discriminate Hs.
Qed.

End Provider.

Lemma selected_listed_kept_witness :
  let w := {| AuthProvider.state := AuthProvider.initial;
              AuthProvider.localStorage := ∅ |} in
  AuthProvider.selected_listed w /\
  AuthProvider.selected_listed
    (AuthProvider.fetchStartups (Some (Some [Examples.acme_card])) w).
Proof.
  cbv zeta.
  assert (H : AuthProvider.selected_listed
                {| AuthProvider.state := AuthProvider.initial;
                   AuthProvider.localStorage := ∅ |})
    by (intros s Hs; discriminate Hs).
  split; [exact H |].
  refine (proj1 (proj2 (proj2 (selected_listed_kept _ H))) [Examples.acme_card] _).
  discriminate.
Defined.

(** ** The onboarding page's workspace list *)

Section Onboarding.

Import AuthProvider.

(** X9: picking a workspace on the onboarding page does not select it.
    For any two ids of listed startups the provider ends in the same state:
    the list is refreshed, [localStorage] is left alone, and the selection
    is the one [fetchStartups] makes from the saved id. *)
Theorem handleSelectStartup_ignores_choice
    (id1 id2 : jsval) (s1 s2 : obj) (reply : option (option (list obj)))
    (w : World) :
  find_by_id (startups (state w)) id1 = Some s1 ->
  find_by_id (startups (state w)) id2 = Some s2 ->
  Pages.handleSelectStartup id1 reply w = Pages.handleSelectStartup id2 reply w /\
  localStorage (Pages.handleSelectStartup id1 reply w) = localStorage w.
Proof.
  intros H1 H2. unfold Pages.handleSelectStartup. rewrite H1, H2.
  split; [reflexivity |].
  unfold refreshStartups. destruct (session (state w)); reflexivity.
Qed.

End Onboarding.

Lemma handleSelectStartup_ignores_choice_witness :
  let a := ({[ "id" := JStr "startup-1" ]} : obj) in
  let b := ({[ "id" := JStr "startup-2" ]} : obj) in
  let w := {| AuthProvider.state :=
                AuthProvider.with_startups [a; b] (Some a) true
                  {| AuthProvider.user := None; AuthProvider.profile := None;
                     AuthProvider.session := Some ∅; AuthProvider.loading := false;
                     AuthProvider.startups := []; AuthProvider.currentStartup := None;
                     AuthProvider.startupsLoaded := true |};
              AuthProvider.localStorage := ∅ |} in
  AuthProvider.find_by_id (AuthProvider.startups (AuthProvider.state w))
    (JStr "startup-1") = Some a /\
  AuthProvider.find_by_id (AuthProvider.startups (AuthProvider.state w))
    (JStr "startup-2") = Some b /\
  AuthProvider.currentStartup
    (AuthProvider.state
       (Pages.handleSelectStartup (JStr "startup-2") (Some (Some [a; b])) w))
  = AuthProvider.currentStartup
      (AuthProvider.state
         (Pages.handleSelectStartup (JStr "startup-1") (Some (Some [a; b])) w)).
Proof.
  cbv zeta.
  match goal with |- ?A /\ ?B /\ _ =>
    assert (H1 : A) by (vm_compute; reflexivity);
    assert (H2 : B) by (vm_compute; reflexivity)
  end.
  split; [exact H1 |]. split; [exact H2 |].
  rewrite (proj1 (handleSelectStartup_ignores_choice _ _ _ _ _ _ H1 H2)).
  reflexivity.
Defined.

(** ** The slide deck of the pitch generator *)

Section Slides.

Import Pages.

Lemma deck_step_on_a_slide (e : deck_event) (d : Deck) :
  on_a_slide d -> on_a_slide (deck_step e d).
Proof.
  unfold on_a_slide. intros Hd. destruct e as [| | idx | l]; cbn.
  - unfold nextSlide. destruct (_ <? _)%Z eqn:Hlt; [| exact Hd].
    apply Z.ltb_lt in Hlt. cbn. left. destruct Hd as [Hd | [_ Hd]]; lia.
  - unfold prevSlide. destruct (_ >? _)%Z eqn:Hgt; [| exact Hd].
    apply Z.gtb_lt in Hgt. cbn. destruct Hd as [Hd | [_ Hd]]; [left; lia | lia].
  - unfold clickThumbnail. destruct (slides d !! idx) eqn:Hidx; [| exact Hd].
    apply lookup_lt_Some in Hidx. cbn. left. lia.
  - unfold showSlides. cbn. destruct l as [| x l]; [right; auto | left; cbn; lia].
Qed.

(** X10: whatever the user does with the pitch deck (next, previous, a
    thumbnail, a new or a loaded deck), the index on show stays within the
    deck: it is never negative, [slides[currentSlideIndex]] is a slide
    whenever there is one, and the index is 0 on an empty deck. *)
Theorem slide_index_in_deck (es : list deck_event) :
  let d := fold_left (fun d e => deck_step e d) es
             {| slides := []; currentSlideIndex := 0%Z |} in
  (0 <= currentSlideIndex d)%Z /\
  match slides d with
  | [] => currentSlideIndex d = 0%Z
  | _ :: _ => exists slide, index (slides d) (currentSlideIndex d) = Some slide
  end.
Proof.
  cbv zeta.
  assert (H : on_a_slide (fold_left (fun d e => deck_step e d) es
                            {| slides := []; currentSlideIndex := 0%Z |})).
  { generalize {| slides := []; currentSlideIndex := 0%Z |},
      (or_intror (conj eq_refl eq_refl) :
         on_a_slide {| slides := []; currentSlideIndex := 0%Z |}).
    induction es as [| e es IH]; intros d Hd; cbn; [exact Hd |].
    apply IH. by apply deck_step_on_a_slide. }
  destruct H as [[H0 Hlt] | [Hnil H0]].
  - split; [exact H0 |].
    destruct (slides _) as [| x l] eqn:Hs; [cbn in Hlt; lia |].
    rewrite <- Hs. unfold index.
    destruct (_ <? 0)%Z eqn:Hneg; [apply Z.ltb_lt in Hneg; lia |].
    apply lookup_lt_is_Some_2. rewrite Hs in *. lia.
  - split; [lia |]. rewrite Hnil. exact H0.
Qed.

(** X11: next and previous undo each other wherever they move.  On a deck
    whose index is on a slide, stepping back after a step forward that
    moved returns the deck as it was, and the other way round. *)
Theorem next_prev_inverse (d : Deck) :
  on_a_slide d ->
  (nextSlide d <> d -> prevSlide (nextSlide d) = d) /\
  (prevSlide d <> d -> nextSlide (prevSlide d) = d).
Proof.
  intros Hd. destruct d as [l i]. unfold on_a_slide, nextSlide, prevSlide in *.
  cbn in *. split.
  - destruct (i <? Z.of_nat (length l) - 1)%Z eqn:Hlt; [| congruence]. cbn.
    intros _. apply Z.ltb_lt in Hlt.
    assert (Hgt : (i + 1 >? 0)%Z = true) by (apply Z.gtb_lt; lia).
    rewrite Hgt. f_equal. lia.
  - destruct (i >? 0)%Z eqn:Hgt; [| congruence]. cbn.
    intros _. apply Z.gtb_lt in Hgt.
    assert (Hlt : (i - 1 <? Z.of_nat (length l) - 1)%Z = true)
      by (apply Z.ltb_lt; lia).
    rewrite Hlt. f_equal. lia.
Qed.

End Slides.

Lemma next_prev_inverse_witness :
  let d := {| Pages.slides := [Examples.acme_card; Examples.acme_card];
              Pages.currentSlideIndex := 0%Z |} in
  Pages.on_a_slide d /\ Pages.nextSlide d <> d /\
  Pages.prevSlide (Pages.nextSlide d) = d.
Proof.
  cbv zeta.
  assert (H : Pages.on_a_slide
                {| Pages.slides := [Examples.acme_card; Examples.acme_card];
                   Pages.currentSlideIndex := 0%Z |}) by (left; cbn; lia).
  assert (Hmove : Pages.nextSlide
                    {| Pages.slides := [Examples.acme_card; Examples.acme_card];
                       Pages.currentSlideIndex := 0%Z |}
                  <> {| Pages.slides := [Examples.acme_card; Examples.acme_card];
                        Pages.currentSlideIndex := 0%Z |})
    by (cbn; intros E; discriminate E).
  split; [exact H |]. split; [exact Hmove |].
  exact (proj1 (next_prev_inverse _ H) Hmove).
Defined.

(** ** The backend address *)

Section Address.

Import BackendConfig.

Lemma strip_trailing_slash_app (u : string) :
  strip_trailing_slash (u +:+ "/") = u.
Proof.
  induction u as [| c u IH]; [reflexivity |].
  change (String c u +:+ "/") with (String c (u +:+ "/")).
  cbn [strip_trailing_slash]. rewrite IH.
  destruct u; reflexivity.
Qed.

Lemma strip_trailing_slash_id (u : string) :
  ~ ends_with_slash u -> strip_trailing_slash u = u.
Proof.
  induction u as [| c u IH]; [reflexivity |].
  intros Hno. destruct u as [| c' u'].
  - cbn [strip_trailing_slash].
    destruct (String.eqb (String c EmptyString) "/") eqn:E; [| reflexivity].
    apply String.eqb_eq in E. exfalso. apply Hno. exists "". exact E.
  - change (strip_trailing_slash (String c (String c' u')))
      with (String c (strip_trailing_slash (String c' u'))).
    rewrite IH; [reflexivity |].
    intros [v Hv]. apply Hno. exists (String c v). cbn. by rewrite Hv.
Qed.

Lemma truthy_app_slash (u : string) : truthy (JStr (u +:+ "/")) = true.
Proof.
  destruct u; reflexivity.
Qed.

Lemma truthy_nonempty (u : string) : u <> "" -> truthy (JStr u) = true.
Proof.
  destruct u; [congruence | reflexivity].
Qed.

(** X12: one slash at the end of the configured address is dropped before
    [/api] is appended, and only one: an address ending in two slashes
    keeps the first of them. *)
Theorem API_drops_one_slash (u : string) (react : option string) :
  API (Some (u +:+ "/")) react = Some (u +:+ "/api") /\
  API_BASE (Some (u +:+ "/")) react = u +:+ "/api" /\
  API (Some ((u +:+ "/") +:+ "/")) react = Some ((u +:+ "/") +:+ "/api").
Proof.
  unfold API, API_BASE, USER_BACKEND_URL, js_or. cbn [from_option].
  rewrite !truthy_app_slash, !strip_trailing_slash_app. auto.
Qed.

(** X13: an address that does not end in a slash is used as it is; it is
    read from [VITE_BACKEND_URL], and from [REACT_APP_BACKEND_URL] when the
    former is missing or empty. *)
Theorem API_keeps_address (u : string) (react : option string) :
  u <> "" -> ~ ends_with_slash u ->
  API (Some u) react = Some (u +:+ "/api") /\
  API None (Some u) = Some (u +:+ "/api") /\
  API (Some "") (Some u) = Some (u +:+ "/api") /\
  API_BASE (Some u) react = u +:+ "/api".
Proof.
  intros Hne Hno.
  unfold API, API_BASE, USER_BACKEND_URL, js_or. cbn [from_option].
  change (truthy JUndefined) with false. change (truthy (JStr "")) with false.
  cbn iota. rewrite !truthy_nonempty, !strip_trailing_slash_id by assumption.
  auto.
Qed.

End Address.

Lemma API_keeps_address_witness :
  "http://localhost:8000" <> "" /\
  ~ BackendConfig.ends_with_slash "http://localhost:8000" /\
  BackendConfig.API (Some "http://localhost:8000") None
  = Some "http://localhost:8000/api".
Proof.
  assert (Hne : "http://localhost:8000" <> "") by discriminate.
  assert (Hno : ~ BackendConfig.ends_with_slash "http://localhost:8000").
  { intros [v Hv].
    assert (H : BackendConfig.strip_trailing_slash "http://localhost:8000" = v)
      by (rewrite Hv; apply strip_trailing_slash_app).
    vm_compute in H. subst v. vm_compute in Hv. discriminate Hv. }
  split; [exact Hne |]. split; [exact Hno |].
  exact (proj1 (API_keeps_address "http://localhost:8000" None Hne Hno)).
Defined.

(** ** The investor feed: loading, the index and the matches *)

Section FeedSession.

Import Db Api InvestorFeedPage FeedPage.

Lemma index_Some_lt {A : Type} (l : list A) (i : Z) (a : A) :
  index l i = Some a -> (0 <= i < Z.of_nat (length l))%Z.
Proof.
  unfold index. destruct (i <? 0)%Z eqn:Hneg; [discriminate |].
  apply Z.ltb_ge in Hneg. intros Hl. apply lookup_lt_Some in Hl. lia.
Qed.

Lemma index_None_ge {A : Type} (l : list A) (i : Z) :
  (0 <= i)%Z -> index l i = None -> (Z.of_nat (length l) <= i)%Z.
Proof.
  unfold index. intros H0. destruct (i <? 0)%Z eqn:Hneg.
  - apply Z.ltb_lt in Hneg. lia.
  - intros Hl. apply lookup_ge_None in Hl. lia.
Qed.

Lemma handleRemoveMatch_deck (api : Backend) (id : jsval) (w : World) :
  browsableStartups (page (after (handleRemoveMatch api id) w))
  = browsableStartups (page w).
Proof.
  unfold after, handleRemoveMatch, try_catch, bind, axios_delete_match.
  destruct (delete_match api (session w) id (server w)) as [[|] s']; reflexivity.
Qed.

Lemma fetchBrowseData_page (browseRes matchesRes : option (option (list obj)))
    (w : World) :
  page (after (fetchBrowseData browseRes matchesRes) w) =
  match browseRes, matchesRes with
  | Some b, Some m =>
      {| browsableStartups := default [] b; currentIndex := 0%Z;
         matches := default [] m |}
  | _, _ => page w
  end.
Proof.
  unfold after, fetchBrowseData, try_catch, bind, axios_get_all.
  destruct browseRes as [b |], matchesRes as [m |]; reflexivity.
Qed.

(** The two halves of the swipe handler, one after the other on the
    render of the current state, are the handler run in one go. *)
Lemma handleSwipe_unhurried (api : Backend) (action : jsval) (s : Session) :
  inflight s = [] ->
  world (run [Swiped (page (world s)) api action; Settled 0] s)
  = after (handleSwipe api action) (world s).
Proof.
  intros Hin. unfold run. cbn [fold_left step].
  unfold handleSwipe_sent, after, handleSwipe, bind, getState.
  cbn [fst snd].
  destruct (index (browsableStartups (page (world s))) (currentIndex (page (world s))))
    as [startup |] eqn:Hcard.
  - unfold try_catch, bind, axios_post_swipe.
    destruct (post_swipe api (session (world s)) (get startup "id") action
                (server (world s))) as [ok st].
    rewrite Hin. cbn [app inflight lookup list_lookup world resume].
    unfold after, handleSwipe_settled, try_catch, bind, settle.
    destruct ok; cbn; [destruct (strict_eq action (JStr "interested")) |];
      reflexivity.
  - rewrite Hin. reflexivity.
Qed.

Lemma handleUndoSwipe_unhurried (w : World) :
  handleUndoSwipe_seen (page w) w = handleUndoSwipe w.
Proof.
  reflexivity.
Qed.

Lemma handleRemoveMatch_unhurried (api : Backend) (id : jsval) (s : Session) :
  inflight s = [] ->
  world (run [RemovePressed api id; Settled 0] s)
  = after (handleRemoveMatch api id) (world s).
Proof.
  intros Hin. unfold run. cbn [fold_left step].
  unfold handleRemoveMatch_sent, after, handleRemoveMatch, try_catch, bind,
    axios_delete_match.
  destruct (delete_match api (session (world s)) id (server (world s))) as [ok st].
  rewrite Hin. cbn [app inflight lookup list_lookup world resume].
  unfold after, handleRemoveMatch_settled, try_catch, bind, settle.
  destruct ok; reflexivity.
Qed.

(** What a settling swipe does to the deck and the index. *)
Lemma handleSwipe_settled_page (startup : obj) (action : jsval) (ok : bool)
    (w : World) :
  let w' := after (handleSwipe_settled startup action ok) w in
  browsableStartups (page w') = browsableStartups (page w) /\
  currentIndex (page w') =
    (if ok then currentIndex (page w) + 1 else currentIndex (page w))%Z.
Proof.
  cbv zeta. unfold after, handleSwipe_settled, try_catch, bind, settle.
  destruct ok; cbn; [destruct (strict_eq action (JStr "interested")) |];
    by split.
Qed.

Lemma handleRemoveMatch_settled_page (id : jsval) (ok : bool) (w : World) :
  let w' := after (handleRemoveMatch_settled id ok) w in
  browsableStartups (page w') = browsableStartups (page w) /\
  currentIndex (page w') = currentIndex (page w).
Proof.
  cbv zeta. unfold after, handleRemoveMatch_settled, try_catch, bind, settle.
  destruct ok; by split.
Qed.

Lemma step_one_at_a_time (e : event) (s : Session) :
  unhurried e s -> one_at_a_time s -> one_at_a_time (step e s).
Proof.
  unfold one_at_a_time, index_in_deck. intros He [Hw Hin].
  destruct e as [b m | seen api action | seen | api id | n]; cbn [step unhurried] in *.
  - rewrite He. cbn. auto.
  - destruct He as [He ->]. unfold handleSwipe_sent.
    destruct (index _ _) as [startup |] eqn:Hcard; [| by rewrite He].
    apply index_Some_lt in Hcard.
    destruct (post_swipe _ _ _ _ _) as [ok st]. rewrite He. cbn. lia.
  - destruct He as [He ->]. rewrite He. cbn [world inflight]. split; [| exact I].
    unfold after, handleUndoSwipe_seen, bind. cbn [fst snd].
    destruct (currentIndex (page (world s)) =? 0)%Z eqn:Hz; cbn; [exact Hw |].
    apply Z.eqb_neq in Hz. lia.
  - unfold handleRemoveMatch_sent.
    destruct (delete_match _ _ _ _) as [ok st]. rewrite He. cbn. auto.
  - destruct (inflight s) as [| r [| r' rest]] eqn:Hl;
      [| | destruct r; contradiction].
    + rewrite lookup_nil, Hl. auto.
    + destruct n as [| n];
        [change ([r] !! 0) with (Some r)
        | change ([r] !! S n) with (@nil request !! n);
          rewrite lookup_nil, Hl; auto].
      cbn [world inflight delete list_delete]. split; [| exact I].
      destruct r as [startup action ok | id ok | b m]; cbn [resume].
      * destruct (handleSwipe_settled_page startup action ok (world s)) as [-> ->].
        destruct ok; lia.
      * by destruct (handleRemoveMatch_settled_page id ok (world s)) as [-> ->].
      * rewrite fetchBrowseData_page.
        destruct b as [b |], m as [m |]; cbn; lia.
Qed.

Lemma run_one_at_a_time (es : list event) (s : Session) :
  sequential es s -> one_at_a_time s -> one_at_a_time (run es s).
Proof.
  revert s. induction es as [| e es IH]; intros s Hes Hs; [exact Hs |].
  destruct Hes as [He Hes]. cbn. apply IH; [exact Hes |].
  by apply step_one_at_a_time.
Qed.

(** X14: as long as one handler runs at a time (a load, a swipe, an undo
    or a removal starts only when no request is under way, on the render
    of the current state), the index stays between 0 and the length of the
    deck whatever the requests answer; so the number of cards left is
    never negative, and there is a card to show exactly when it is
    positive. *)
Theorem feed_index_in_deck (es : list event) (s : Store) (u : option uuid)
    (now : string) :
  let s0 := {| world := {| server := s; session := u; clock := now;
                           page := initial_page; toasts := [] |};
               inflight := [] |} in
  sequential es s0 ->
  let w := world (run es s0) in
  (0 <= currentIndex (page w))%Z /\
  (0 <= cardsRemaining w)%Z /\
  (is_Some (currentCard w) <-> (0 < cardsRemaining w)%Z).
Proof.
  cbv zeta. intros Hes.
  set (s0 := {| world := _; inflight := [] |}) in *.
  assert (H : one_at_a_time (run es s0)).
  { apply run_one_at_a_time; [exact Hes |].
    split; [unfold index_in_deck; cbn; lia | exact I]. }
  destruct H as [H _].
  unfold index_in_deck in H. unfold cardsRemaining, currentCard.
  split; [lia |]. split; [lia |]. split.
  - intros [c Hc]. apply index_Some_lt in Hc. lia.
  - intros Hpos.
    destruct (index _ _) as [c |] eqn:Hc; [by exists c |].
    apply index_None_ge in Hc; lia.
Qed.

(** X24: two swipes in a hurry.  When the swipe handler is called a
    second time before the request of the first has settled, both calls
    read the same card off the same render and both requests name that
    card; once both have resolved the index has moved on by two.  On the
    last card of the deck this leaves the index past the end, and the
    number of cards left at -1. *)
Theorem hurried_swipes_overshoot (api api' : Backend) (action action' : jsval)
    (s : Session) (startup : obj) :
  inflight s = [] ->
  currentCard (world s) = Some startup ->
  let w := world s in
  let first := post_swipe api (session w) (get startup "id") action (server w) in
  let second := post_swipe api' (session w) (get startup "id") action' first.2 in
  first.1 = true ->
  second.1 = true ->
  let s2 := run [Swiped (page w) api action; Swiped (page w) api' action'] s in
  let s4 := run [Settled 0; Settled 0] s2 in
  inflight s2 = [SwipeSent startup action true; SwipeSent startup action' true] /\
  inflight s4 = [] /\
  browsableStartups (page (world s4)) = browsableStartups (page w) /\
  currentIndex (page (world s4)) = (currentIndex (page w) + 2)%Z /\
  cardsRemaining (world s4) = (cardsRemaining w - 2)%Z /\
  (nextCard w = None -> cardsRemaining (world s4) = (-1)%Z).
Proof.
  intros Hin Hcard. cbv zeta. intros Hfirst Hsecond.
  set (s2 := run _ s).
  assert (Hs2 : s2 =
    {| world := set_server
                  (post_swipe api' (session (world s)) (get startup "id") action'
                     (post_swipe api (session (world s)) (get startup "id") action
                        (server (world s))).2).2
                  (world s);
       inflight := [SwipeSent startup action true; SwipeSent startup action' true] |}).
  { subst s2. unfold run. cbn [fold_left step]. unfold handleSwipe_sent.
    unfold currentCard in Hcard. rewrite Hcard.
    destruct (post_swipe api _ _ _ _) as [ok1 st1]. cbn [fst snd] in *.
    cbn [world set_server session server].
    destruct (post_swipe api' _ _ _ _) as [ok2 st2]. cbn [fst snd] in *.
    subst ok1 ok2. rewrite Hin. reflexivity. }
  assert (Hsent : inflight s2 =
            [SwipeSent startup action true; SwipeSent startup action' true])
    by (rewrite Hs2; reflexivity).
  assert (Hpage : page (world s2) = page (world s)) by (rewrite Hs2; reflexivity).
  clearbody s2. clear Hs2.
  split; [exact Hsent |].
  set (w3 := after (handleSwipe_settled startup action true) (world s2)).
  set (w4 := after (handleSwipe_settled startup action' true) w3).
  assert (Hrun : run [Settled 0; Settled 0] s2 = {| world := w4; inflight := [] |}).
  { unfold run. cbn [fold_left].
    assert (H3 : step (Settled 0) s2 =
                 {| world := w3; inflight := [SwipeSent startup action' true] |})
      by (cbn [step]; rewrite Hsent; reflexivity).
    rewrite H3. reflexivity. }
  rewrite Hrun. cbn [world inflight].
  destruct (handleSwipe_settled_page startup action true (world s2)) as [Hd1 Hi1].
  destruct (handleSwipe_settled_page startup action' true w3) as [Hd2 Hi2].
  fold w3 in Hd1, Hi1. fold w4 in Hd2, Hi2.
  assert (Hdeck : browsableStartups (page w4) = browsableStartups (page (world s)))
    by (rewrite Hd2, Hd1, Hpage; reflexivity).
  assert (Hidx : currentIndex (page w4) = (currentIndex (page (world s)) + 2)%Z)
    by (rewrite Hi2, Hi1, Hpage; lia).
  assert (Hleft : cardsRemaining w4 = (cardsRemaining (world s) - 2)%Z)
    by (unfold cardsRemaining; rewrite Hdeck, Hidx; lia).
  split; [reflexivity |]. split; [exact Hdeck |]. split; [exact Hidx |].
  split; [exact Hleft |].
  intros Hnext. rewrite Hleft.
  apply index_Some_lt in Hcard. unfold nextCard in Hnext.
  apply index_None_ge in Hnext; [| lia]. unfold cardsRemaining. lia.
Qed.

(** X15: the load is all or nothing.  If either of the two requests is
    rejected, the deck, the index and the matches stay as they were and no
    notification is shown; if both resolve, the index restarts at 0 on the
    new deck, an empty one when the body is falsy. *)
Theorem fetchBrowseData_all_or_nothing
    (browseRes matchesRes : option (option (list obj))) (w : World) :
  let w' := after (fetchBrowseData browseRes matchesRes) w in
  match browseRes, matchesRes with
  | Some b, Some m =>
      browsableStartups (page w') = default [] b /\
      matches (page w') = default [] m /\
      currentIndex (page w') = 0%Z /\
      currentCard w' = head (default [] b) /\
      toasts w' = toasts w
  | _, _ => w' = w
  end.
Proof.
  cbv zeta. unfold after, fetchBrowseData, try_catch, bind, axios_get_all.
  destruct browseRes as [b |], matchesRes as [m |]; cbn;
    try (destruct w; reflexivity).
  repeat split. unfold currentCard. cbn. by destruct (default [] b).
Qed.

End FeedSession.

Lemma feed_index_in_deck_witness :
  let deck := [Examples.acme_card; Examples.beta_card] in
  let stamped :=
    spread_set Examples.acme_card "swiped_at" (JStr "2026-01-01T00:00:00.000Z") in
  let first_render :=
    {| InvestorFeedPage.browsableStartups := deck;
       InvestorFeedPage.currentIndex := 0%Z;
       InvestorFeedPage.matches := [] |} in
  let second_render :=
    {| InvestorFeedPage.browsableStartups := deck;
       InvestorFeedPage.currentIndex := 1%Z;
       InvestorFeedPage.matches := [stamped] |} in
  let third_render :=
    {| InvestorFeedPage.browsableStartups := deck;
       InvestorFeedPage.currentIndex := 0%Z;
       InvestorFeedPage.matches := [stamped] |} in
  let es :=
    [FeedPage.Load (Some (Some deck)) (Some None);
     FeedPage.Settled 0;
     FeedPage.Swiped first_render Examples.api (JStr "interested");
     FeedPage.Settled 0;
     FeedPage.UndoPressed second_render;
     FeedPage.Swiped third_render Examples.later_api (JStr "passed");
     FeedPage.Settled 0] in
  let s0 :=
    {| FeedPage.world :=
         {| InvestorFeedPage.server := Examples.distinct_codes;
            InvestorFeedPage.session := Some "investor-1";
            InvestorFeedPage.clock := "2026-01-01T00:00:00.000Z";
            InvestorFeedPage.page := FeedPage.initial_page;
            InvestorFeedPage.toasts := [] |};
       FeedPage.inflight := [] |} in
  let w := FeedPage.world (FeedPage.run es s0) in
  FeedPage.sequential es s0 /\
  FeedPage.currentCard w = Some Examples.beta_card /\
  FeedPage.cardsRemaining w = 1%Z /\
  (0 < FeedPage.cardsRemaining w)%Z.
Proof.
  cbv zeta.
  match goal with
  | |- FeedPage.sequential ?es ?s0 /\ _ =>
      assert (Hseq : FeedPage.sequential es s0)
        by (repeat split; vm_compute; reflexivity);
      pose proof (feed_index_in_deck es Examples.distinct_codes
                    (Some "investor-1") "2026-01-01T00:00:00.000Z" Hseq)
        as (_ & _ & Hcard)
  end.
  split; [exact Hseq |].
  split; [vm_compute; reflexivity |].
  split; [vm_compute; reflexivity |].
  apply Hcard. exists Examples.beta_card. vm_compute. reflexivity.
Defined.

Lemma hurried_swipes_overshoot_witness :
  let s := {| FeedPage.world := Examples.swiped_feed; FeedPage.inflight := [] |} in
  let seen := InvestorFeedPage.page Examples.swiped_feed in
  let swipe := FeedPage.Swiped seen Examples.later_api (JStr "interested") in
  let s4 := FeedPage.run [swipe; swipe; FeedPage.Settled 0; FeedPage.Settled 0] s in
  FeedPage.browse_shown Examples.swiped_feed = true /\
  FeedPage.currentCard Examples.swiped_feed = Some Examples.beta_card /\
  FeedPage.nextCard Examples.swiped_feed = None /\
  InvestorFeedPage.currentIndex (InvestorFeedPage.page (FeedPage.world s4)) = 3%Z /\
  FeedPage.cardsRemaining (FeedPage.world s4) = (-1)%Z /\
  FeedPage.match_ids (FeedPage.world s4)
    = [JStr "startup-2"; JStr "startup-2"; JStr "startup-1"].
Proof.
  cbv zeta.
  assert (Hcard : FeedPage.currentCard Examples.swiped_feed = Some Examples.beta_card)
    by reflexivity.
  assert (Hnext : FeedPage.nextCard Examples.swiped_feed = None) by reflexivity.
  split; [reflexivity |]. split; [exact Hcard |]. split; [exact Hnext |].
  split; [vm_compute; reflexivity |].
  split; [| vm_compute; reflexivity].
  refine (proj2 (proj2 (proj2 (proj2 (proj2
    (hurried_swipes_overshoot Examples.later_api Examples.later_api
       (JStr "interested") (JStr "interested")
       {| FeedPage.world := Examples.swiped_feed; FeedPage.inflight := [] |}
       Examples.beta_card eq_refl Hcard _ _))))) Hnext);
    vm_compute; reflexivity.
Defined.

Section Matches.

Import Db Api InvestorFeedPage FeedPage.

(** A resolved right swipe, spelled out. *)
Lemma handleSwipe_interested (api : Backend) (w : World) (startup : obj) :
  currentCard w = Some startup ->
  (post_swipe api (session w) (get startup "id") (JStr "interested") (server w)).1 = true ->
  after (handleSwipe api (JStr "interested")) w =
  {| server := (post_swipe api (session w) (get startup "id") (JStr "interested")
                           (server w)).2;
     session := session w;
     clock := clock w;
     page := {| browsableStartups := browsableStartups (page w);
                currentIndex := (currentIndex (page w) + 1)%Z;
                matches := spread_set startup "swiped_at" (JStr (clock w))
                           :: matches (page w) |};
     toasts := InterestedIn (get startup "name") :: toasts w |}.
Proof.
  unfold currentCard. intros Hcard.
  unfold after, handleSwipe, bind, getState, try_catch, axios_post_swipe.
  rewrite Hcard.
  destruct (post_swipe api (session w) (get startup "id") (JStr "interested") (server w))
    as [ok s']. cbn [fst snd]. intros ->. reflexivity.
Qed.

Lemma get_spread_set_other (o : obj) (p q : string) (v : jsval) :
  p <> q -> get (spread_set o p v) q = get o q.
Proof.
  intros Hpq. unfold get, spread_set. by rewrite lookup_insert_ne.
Qed.

Lemma strict_neq_refl (v : jsval) : strict_neq v v = false.
Proof.
  unfold strict_neq, strict_eq. by rewrite bool_decide_eq_true_2.
Qed.

(** X16: a right swipe followed by removing that match, both requests
    resolved.  The matches are the earlier ones without the startup (the
    very list from before when it was not among them), but the card does
    not come back: the index stays one past it. *)
Theorem remove_after_interested (api api' : Backend) (w : World) (startup : obj) :
  currentCard w = Some startup ->
  (post_swipe api (session w) (get startup "id") (JStr "interested") (server w)).1 = true ->
  let w1 := after (handleSwipe api (JStr "interested")) w in
  (delete_match api' (session w1) (get startup "id") (server w1)).1 = true ->
  let w2 := after (handleRemoveMatch api' (get startup "id")) w1 in
  matches (page w2) =
    List.filter (fun m => strict_neq (get m "id") (get startup "id")) (matches (page w)) /\
  (forallb (fun m => strict_neq (get m "id") (get startup "id")) (matches (page w)) = true ->
   matches (page w2) = matches (page w)) /\
  currentIndex (page w2) = (currentIndex (page w) + 1)%Z /\
  currentCard w2 = nextCard w.
Proof.
  intros Hcard Hpost. cbv zeta. intros Hdel.
  destruct (handleRemoveMatch_page api' (get startup "id")
              (after (handleSwipe api (JStr "interested")) w)) as [Hidx Hm].
  rewrite Hdel in Hm.
  assert (Hdeck := handleRemoveMatch_deck api' (get startup "id")
                     (after (handleSwipe api (JStr "interested")) w)).
  rewrite (handleSwipe_interested api w startup Hcard Hpost) in Hidx, Hm, Hdeck |- *.
  cbn [page matches currentIndex browsableStartups] in Hidx, Hm, Hdeck.
  cbn [List.filter] in Hm.
  rewrite get_spread_set_other, strict_neq_refl in Hm by discriminate.
  repeat split.
  - exact Hm.
  - intros Hall. rewrite Hm. by apply forallb_filter_id.
  - exact Hidx.
  - unfold currentCard, nextCard. by rewrite Hdeck, Hidx.
Qed.

(** X17: a right swipe, undo, and the same right swipe again, both
    requests resolved: the startup is listed twice at the head of the
    matches, and the index ends one past the card. *)
Theorem swipe_undo_swipe_lists_twice (api api' : Backend) (w : World) (startup : obj) :
  currentCard w = Some startup ->
  (post_swipe api (session w) (get startup "id") (JStr "interested") (server w)).1 = true ->
  let w1 := after (handleSwipe api (JStr "interested")) w in
  let w2 := after handleUndoSwipe w1 in
  (post_swipe api' (session w2) (get startup "id") (JStr "interested") (server w2)).1 = true ->
  let w3 := after (handleSwipe api' (JStr "interested")) w2 in
  match_ids w3 = get startup "id" :: get startup "id" :: match_ids w /\
  currentIndex (page w3) = (currentIndex (page w) + 1)%Z.
Proof.
  intros Hcard Hpost. cbv zeta.
  rewrite (handleSwipe_interested api w startup Hcard Hpost).
  set (w1 := {| server := _; session := session w |}).
  assert (Hidx : (0 <= currentIndex (page w))%Z)
    by (apply index_Some_lt in Hcard; lia).
  assert (Hundo : after handleUndoSwipe w1 =
            {| server := server w1; session := session w; clock := clock w;
               page := {| browsableStartups := browsableStartups (page w);
                          currentIndex := currentIndex (page w);
                          matches := matches (page w1) |};
               toasts := UndoShowingPrevious :: toasts w1 |}).
  { unfold after, handleUndoSwipe, bind, getState. cbn [fst snd].
    destruct (currentIndex (page w1) =? 0)%Z eqn:Hz.
    - apply Z.eqb_eq in Hz. subst w1. cbn in Hz. lia.
    - subst w1. cbn. repeat f_equal. lia. }
  rewrite Hundo. clear Hundo.
  set (w2 := {| server := server w1; session := session w |}).
  intros Hpost2.
  assert (Hcard2 : currentCard w2 = Some startup) by exact Hcard.
  rewrite (handleSwipe_interested api' w2 startup Hcard2 Hpost2).
  unfold match_ids. subst w2 w1. cbn.
  rewrite !get_spread_set_other by discriminate. auto.
Qed.

End Matches.

Lemma remove_after_interested_witness :
  let w := Examples.fresh_feed in
  let w1 := InvestorFeedPage.after
              (InvestorFeedPage.handleSwipe Examples.api (JStr "interested")) w in
  let w2 := InvestorFeedPage.after
              (InvestorFeedPage.handleRemoveMatch Examples.api (JStr "startup-1")) w1 in
  FeedPage.currentCard w = Some Examples.acme_card /\
  InvestorFeedPage.matches (InvestorFeedPage.page w1) <> [] /\
  InvestorFeedPage.matches (InvestorFeedPage.page w2) = [] /\
  InvestorFeedPage.currentIndex (InvestorFeedPage.page w2) = 1%Z.
Proof.
  cbv zeta.
  assert (Hcard : FeedPage.currentCard Examples.fresh_feed = Some Examples.acme_card)
    by reflexivity.
  assert (Hpost :
    (InvestorFeedPage.post_swipe Examples.api
       (InvestorFeedPage.session Examples.fresh_feed)
       (get Examples.acme_card "id") (JStr "interested")
       (InvestorFeedPage.server Examples.fresh_feed)).1 = true)
    by (vm_compute; reflexivity).
  assert (Hdel :
    (InvestorFeedPage.delete_match Examples.api
       (InvestorFeedPage.session
          (InvestorFeedPage.after
             (InvestorFeedPage.handleSwipe Examples.api (JStr "interested"))
             Examples.fresh_feed))
       (get Examples.acme_card "id")
       (InvestorFeedPage.server
          (InvestorFeedPage.after
             (InvestorFeedPage.handleSwipe Examples.api (JStr "interested"))
             Examples.fresh_feed))).1 = true)
    by (vm_compute; reflexivity).
  destruct (remove_after_interested Examples.api Examples.api Examples.fresh_feed
              Examples.acme_card Hcard Hpost Hdel) as (Hm & _ & Hi & _).
  split; [exact Hcard |]. split; [vm_compute; discriminate |].
  split; [exact Hm | exact Hi].
Defined.

Lemma swipe_undo_swipe_lists_twice_witness :
  let w := Examples.fresh_feed in
  let w1 := InvestorFeedPage.after
              (InvestorFeedPage.handleSwipe Examples.api (JStr "interested")) w in
  let w2 := InvestorFeedPage.after InvestorFeedPage.handleUndoSwipe w1 in
  let w3 := InvestorFeedPage.after
              (InvestorFeedPage.handleSwipe Examples.api (JStr "interested")) w2 in
  FeedPage.currentCard w = Some Examples.acme_card /\
  FeedPage.match_ids w3 = [JStr "startup-1"; JStr "startup-1"] /\
  length (Db.investor_swipes (InvestorFeedPage.server w3)) = 1.
Proof.
  cbv zeta.
  assert (Hcard : FeedPage.currentCard Examples.fresh_feed = Some Examples.acme_card)
    by reflexivity.
  assert (Hpost :
    (InvestorFeedPage.post_swipe Examples.api
       (InvestorFeedPage.session Examples.fresh_feed)
       (get Examples.acme_card "id") (JStr "interested")
       (InvestorFeedPage.server Examples.fresh_feed)).1 = true)
    by (vm_compute; reflexivity).
  assert (Hpost2 :
    (InvestorFeedPage.post_swipe Examples.api
       (InvestorFeedPage.session
          (InvestorFeedPage.after InvestorFeedPage.handleUndoSwipe
             (InvestorFeedPage.after
                (InvestorFeedPage.handleSwipe Examples.api (JStr "interested"))
                Examples.fresh_feed)))
       (get Examples.acme_card "id") (JStr "interested")
       (InvestorFeedPage.server
          (InvestorFeedPage.after InvestorFeedPage.handleUndoSwipe
             (InvestorFeedPage.after
                (InvestorFeedPage.handleSwipe Examples.api (JStr "interested"))
                Examples.fresh_feed)))).1 = true)
    by (vm_compute; reflexivity).
  split; [exact Hcard |].
  split; [| vm_compute; reflexivity].
  exact (proj1 (swipe_undo_swipe_lists_twice Examples.api Examples.api
                 Examples.fresh_feed Examples.acme_card Hcard Hpost Hpost2)).
Defined.

(** ** The swipe card *)

Section Gestures.

Import SwipeCard.

Context {N : Number}.

Lemma idle_not_dragging (c : Card) : idle c -> dragging (dragState c) = false.
Proof.
  intros (Hd & _ & _). by rewrite Hd.
Qed.

Lemma step_idle (isTop : bool) (e : event) (c : Card) :
  idle c -> starts_drag isTop e = false ->
  (step isTop e c).1 = None /\ idle (step isTop e c).2.
Proof.
  intros Hc He. pose proof (idle_not_dragging c Hc) as Hdrag.
  destruct e as [cx cy oc | cx cy | | |]; cbn [step fst snd].
  - split; [reflexivity |]. unfold handlePointerDown.
    cbn in He. destruct isTop; cbn in *; [| exact Hc].
    destruct oc; [exact Hc | discriminate].
  - split; [reflexivity |]. unfold handlePointerMove. by rewrite Hdrag.
  - split; [reflexivity |]. unfold handlePointerUp. by rewrite Hdrag.
  - unfold onTimeout. destruct Hc as (Hd & Hi & Ht). rewrite Ht. cbn.
    repeat split; assumption.
  - split; [reflexivity |]. exact Hc.
Qed.

(** X18: a card that is not on top, or whose presses all land on its
    buttons and links, never leaves rest: no drag starts, no timer is set,
    and [onSwipe] is never called, whatever else happens to it. *)
Theorem card_without_drag_start (isTop : bool) (es : list event) (c : Card) :
  idle c ->
  forallb (fun e => negb (starts_drag isTop e)) es = true ->
  (run isTop es c).1 = [] /\ idle (run isTop es c).2.
Proof.
  revert c. induction es as [| e es IH]; intros c Hc Hes; [by split |].
  cbn in Hes. apply andb_true_iff in Hes as [He Hes].
  apply negb_true_iff in He.
  destruct (step_idle isTop e c Hc He) as [Hout Hidle].
  cbn [run]. destruct (step isTop e c) as [out c1]. cbn in Hout, Hidle. subst out.
  destruct (IH c1 Hidle Hes) as [Houts Hidle2].
  destruct (run isTop es c1) as [outs c2]. cbn in *. by split.
Qed.

Lemma run_app (isTop : bool) (es1 es2 : list event) (c : Card) :
  run isTop (es1 ++ es2)%list c =
  ((run isTop es1 c).1 ++ (run isTop es2 (run isTop es1 c).2).1,
   (run isTop es2 (run isTop es1 c).2).2)%list.
Proof.
  revert c. induction es1 as [| e es1 IH]; intros c; cbn.
  - by destruct (run isTop es2 c).
  - destruct (step isTop e c) as [out c1]. rewrite IH.
    destruct (run isTop es1 c1) as [o1 c2]. cbn.
    destruct (run isTop es2 c2) as [o2 c3]. cbn. by destruct out.
Qed.

(** While a drag is on, moving the pointer keeps it on, with the same
    starting point, and calls nothing. *)
Lemma run_moves (isTop : bool) (ms : list (num * num)) (c : Card) :
  dragging (dragState c) = true ->
  let r := run isTop (map (fun p => PointerMove p.1 p.2) ms) c in
  r.1 = [] /\
  dragging (dragState r.2) = true /\
  startX (dragState r.2) = startX (dragState c) /\
  startY (dragState r.2) = startY (dragState c) /\
  showDetails r.2 = showDetails c /\
  timers r.2 = timers c.
Proof.
  cbv zeta. revert c. induction ms as [| [mx my] ms IH]; intros c Hc; [by cbn |].
  cbn [map run step fst snd].
  specialize (IH (handlePointerMove mx my c)).
  destruct (run isTop _ (handlePointerMove mx my c)) as [outs c2].
  unfold handlePointerMove in IH. rewrite Hc in IH. cbn in IH.
  destruct (IH eq_refl) as (H1 & H2 & H3 & H4 & H5 & H6). cbn. auto.
Qed.

(** X19: a whole gesture on the top card at rest: press at a point off
    the controls, move about, release, and let the timer run.  Only the
    last position before the release counts: more than 120 to the right of
    the press calls [onSwipe('interested')], more than 120 to the left
    [onSwipe('passed')], anything else calls nothing; either way the card
    is back as it was. *)
Theorem gesture_outcome (c : Card) (x0 y0 x1 y1 : num) (ms : list (num * num)) :
  idle c ->
  run true
    (PointerDown x0 y0 false ::
     map (fun p => PointerMove p.1 p.2) ms ++
     [PointerMove x1 y1; PointerUp; Timeout])%list c
  = (if gt (minus x1 x0) (lit 120) then [JStr "interested"]
     else if lt (minus x1 x0) (lit (-120)) then [JStr "passed"]
     else [],
     c).
Proof.
  intros (Hd & Hi & Ht).
  destruct c as [ds sd si ts]. cbn in Hd, Hi, Ht. subst ds si ts.
  cbn [run step handlePointerDown negb fst snd showDetails swipeIndicator timers].
  set (c1 := {| dragState := {| x := lit 0; y := lit 0; dragging := true;
                                startX := x0; startY := y0 |};
                showDetails := sd; swipeIndicator := None; timers := [] |}).
  rewrite run_app.
  destruct (run_moves true ms c1 eq_refl) as (H1 & H2 & H3 & H4 & H5 & H6).
  destruct (run true (map _ ms) c1) as [outs c2].
  cbn [fst snd] in *. subst outs.
  destruct c2 as [[cx cy cd csx csy] csd csi cts]. cbn in H2, H3, H4, H5, H6.
  subst cd csx csy csd cts.
  cbn [run step handlePointerMove handlePointerUp dragState dragging negb
       startX startY x y showDetails timers fst snd app].
  destruct (gt (minus x1 x0) (lit 120)); [reflexivity |].
  destruct (lt (minus x1 x0) (lit (-120))); reflexivity.
Qed.

End Gestures.

Lemma card_without_drag_start_witness :
  let es := [@SwipeCard.PointerDown SwipeCard.Z_Number 10%Z 10%Z false;
             @SwipeCard.PointerMove SwipeCard.Z_Number 300%Z 10%Z;
             SwipeCard.PointerUp; SwipeCard.Timeout] in
  SwipeCard.idle (@SwipeCard.initial SwipeCard.Z_Number) /\
  forallb (fun e => negb (SwipeCard.starts_drag false e)) es = true /\
  (SwipeCard.run false es SwipeCard.initial).1 = [] /\
  SwipeCard.run true es SwipeCard.initial = ([JStr "interested"], SwipeCard.initial).
Proof.
  cbv zeta.
  assert (Hidle : SwipeCard.idle (@SwipeCard.initial SwipeCard.Z_Number))
    by (repeat split).
  split; [exact Hidle |]. split; [reflexivity |]. split; [| reflexivity].
  destruct (card_without_drag_start false
              [@SwipeCard.PointerDown SwipeCard.Z_Number 10%Z 10%Z false;
               @SwipeCard.PointerMove SwipeCard.Z_Number 300%Z 10%Z;
               SwipeCard.PointerUp; SwipeCard.Timeout]
              SwipeCard.initial Hidle eq_refl) as [Hout _].
  exact Hout.
Defined.

Lemma gesture_outcome_witness :
  SwipeCard.idle (@SwipeCard.initial SwipeCard.Z_Number) /\
  SwipeCard.run true
    [@SwipeCard.PointerDown SwipeCard.Z_Number 10%Z 10%Z false;
     @SwipeCard.PointerMove SwipeCard.Z_Number 300%Z 10%Z;
     @SwipeCard.PointerMove SwipeCard.Z_Number (-200)%Z 40%Z;
     SwipeCard.PointerUp; SwipeCard.Timeout]
    SwipeCard.initial
  = ([JStr "passed"], SwipeCard.initial).
Proof.
  split; [repeat split |].
  exact (@gesture_outcome SwipeCard.Z_Number SwipeCard.initial
           10%Z 10%Z (-200)%Z 40%Z [(300, 10)%Z]
           (conj eq_refl (conj eq_refl eq_refl))).
Defined.

(** ** The tables under any sequence of statements *)

Section Tables.

Import Db Schema.

Lemma Forall_filter_bool {A : Type} (P : A -> Prop) (f : A -> bool) (l : list A) :
  Forall P l -> Forall P (List.filter f l).
Proof.
  rewrite !List.Forall_forall. intros H a Ha.
  apply filter_In in Ha as [Ha _]. auto.
Qed.

Lemma Forall_map_if {A : Type} (P : A -> Prop) (g : A -> bool) (h : A -> A)
    (l : list A) :
  (forall a, P a -> P (h a)) ->
  Forall P l -> Forall P (map (fun a => if g a then h a else a) l).
Proof.
  intros Hh Hl. induction Hl as [| a l Ha Hl IH]; cbn; constructor; [| exact IH].
  destruct (g a); auto.
Qed.

Lemma map_map_if {A B : Type} (k : A -> B) (g : A -> bool) (h : A -> A)
    (l : list A) :
  (forall a, k (h a) = k a) ->
  map k (map (fun a => if g a then h a else a) l) = map k l.
Proof.
  intros Hk. rewrite map_map. apply map_ext. intros a. destruct (g a); auto.
Qed.

Lemma elem_of_map_filter {A B : Type} (k : A -> B) (f : A -> bool) (l : list A)
    (b : B) :
  b ∈ map k (List.filter f l) -> b ∈ map k l.
Proof.
  rewrite !list_elem_of_In, !in_map_iff.
  intros (a & <- & Ha). apply filter_In in Ha as [Ha _]. eauto.
Qed.

Lemma NoDup_map_filter {A B : Type} (k : A -> B) (f : A -> bool) (l : list A) :
  NoDup (map k l) -> NoDup (map k (List.filter f l)).
Proof.
  induction l as [| a l IH]; cbn; [auto |].
  rewrite NoDup_cons. intros [Ha Hl].
  destruct (f a); cbn; [| auto].
  apply NoDup_cons. split; [| auto].
  intros Hin. apply Ha. by apply elem_of_map_filter in Hin.
Qed.

Lemma NoDup_map_snoc {A B : Type} (k : A -> B) (l : list A) (a : A) :
  NoDup (map k l) -> k a ∉ map k l -> NoDup (map k (l ++ [a])%list).
Proof.
  intros Hl Ha. rewrite map_app. apply NoDup_app. split; [exact Hl |].
  split; [| apply NoDup_singleton].
  intros b Hb Hba. cbn in Hba. apply list_elem_of_singleton in Hba. by subst b.
Qed.

Lemma length_filter_filter {A : Type} (f g : A -> bool) (l : list A) :
  length (List.filter f (List.filter g l)) <= length (List.filter f l).
Proof.
  induction l as [| a l IH]; cbn; [lia |].
  destruct (g a); cbn; destruct (f a); cbn; lia.
Qed.

Lemma mem_true (x : uuid) (l : list uuid) : mem x l = true -> x ∈ l.
Proof.
  unfold mem. by rewrite bool_decide_eq_true.
Qed.

Lemma mem_false (x : uuid) (l : list uuid) : mem x l = false -> x ∉ l.
Proof.
  unfold mem. by rewrite bool_decide_eq_false.
Qed.

Lemma Forall_snoc {A : Type} (P : A -> Prop) (l : list A) (a : A) :
  Forall P l -> P a -> Forall P (l ++ [a])%list.
Proof.
  intros Hl Ha. apply Forall_app. split; [exact Hl | by constructor].
Qed.

(** An id other than the deleted one is still the id of a startup. *)
Lemma startup_survives (sid w : uuid) (l : list startups_row) :
  w ∈ map s_id l -> w <> sid ->
  w ∈ map s_id (List.filter (fun r => negb (bool_decide (s_id r = sid))) l).
Proof.
  rewrite !list_elem_of_In, !in_map_iff.
  intros (r & <- & Hr) Hne. exists r. split; [reflexivity |].
  apply filter_In. split; [exact Hr |].
  apply negb_true_iff. by apply bool_decide_eq_false.
Qed.

Lemma Forall_cascade {A : Type} (k : A -> uuid) (sid : uuid)
    (l : list A) (ss : list startups_row) :
  Forall (fun r => k r ∈ map s_id ss) l ->
  Forall (fun r => k r ∈
            map s_id (List.filter (fun r => negb (bool_decide (s_id r = sid))) ss))
         (List.filter (fun r => negb (bool_decide (k r = sid))) l).
Proof.
  rewrite !List.Forall_forall. intros H r Hr.
  apply filter_In in Hr as [Hr Hne].
  apply negb_true_iff, bool_decide_eq_false in Hne.
  apply startup_survives; auto.
Qed.

Lemma Forall_more_startups {A : Type} (k : A -> uuid) (l : list A)
    (ss : list startups_row) (r : startups_row) :
  Forall (fun a => k a ∈ map s_id ss) l ->
  Forall (fun a => k a ∈ map s_id (ss ++ [r])%list) l.
Proof.
  intros H. eapply List.Forall_impl; [| exact H].
  intros a Ha. cbn in Ha |- *. rewrite map_app. apply elem_of_app. by left.
Qed.

Lemma execute_constrained (st : statement) (s s' : Store) :
  constrained s -> execute st s = Ok s' -> constrained s'.
Proof.
  intros [Hsp Hmp Hwp Hmk Hwk Hrc Hac].
  destruct st as [r | sid code | sid | r | w u role | w u | r | i w a t | i w];
    cbn [execute].
  - unfold insert_startups.
    destruct (mem (s_id r) _) eqn:Hid; [discriminate |].
    destruct (mem (s_founder_id r) _); cbn; [| discriminate].
    intros [= <-]. constructor; cbn; try assumption.
    apply NoDup_map_snoc; [exact Hsp | by apply mem_false].
  - unfold update_startups_invite_code. intros [= <-].
    constructor; cbn; try assumption.
    rewrite map_map_if; [exact Hsp | reflexivity].
  - intros [= <-]. constructor; cbn.
    + by apply NoDup_map_filter.
    + by apply NoDup_map_filter.
    + by apply NoDup_map_filter.
    + intros w u. unfold members_of. cbn.
      pose proof (length_filter_filter (same_member w u)
                    (fun r => negb (bool_decide (sm_startup_id r = sid)))
                    (startup_members s)).
      specialize (Hmk w u). unfold members_of in Hmk. lia.
    + intros i w. unfold swipes_of. cbn.
      pose proof (length_filter_filter (same_swipe i w)
                    (fun r => negb (bool_decide (sw_startup_id r = sid)))
                    (investor_swipes s)).
      specialize (Hwk i w). unfold swipes_of in Hwk. lia.
    + by apply Forall_filter_bool.
    + by apply Forall_filter_bool.
  - intros Hins. pose proof (insert_startup_members_unique r s s' Hmk Hins) as Hk.
    revert Hins. unfold insert_startup_members.
    destruct (mem (sm_id r) _) eqn:Hid; [discriminate |].
    destruct (mem (sm_startup_id r) _); cbn; [| discriminate].
    destruct (mem (sm_user_id r) _); cbn; [| discriminate].
    destruct (role_check (sm_role r)) eqn:Hrole; cbn; [| discriminate].
    destruct (existsb _ _); [discriminate |].
    intros [= <-]. constructor; cbn; try assumption.
    + apply NoDup_map_snoc; [exact Hmp | by apply mem_false].
    + by apply Forall_snoc.
  - unfold update_startup_members.
    destruct (role_check role) eqn:Hrole; cbn; [| discriminate].
    intros [= <-]. constructor; cbn; try assumption.
    + rewrite map_map_if; [exact Hmp | reflexivity].
    + intros w0 u0. unfold members_of. cbn.
      rewrite filter_after_map by reflexivity. rewrite length_map. apply Hmk.
    + clear -Hrc Hrole.
      induction Hrc as [| r l Hr Hl IH]; cbn; constructor; [| exact IH].
      destruct (same_member w u r); [exact Hrole | exact Hr].
  - intros [= <-]. constructor; cbn; try assumption.
    + by apply NoDup_map_filter.
    + intros w0 u0. unfold members_of. cbn.
      pose proof (length_filter_filter (same_member w0 u0)
                    (fun r => negb (same_member w u r)) (startup_members s)).
      specialize (Hmk w0 u0). unfold members_of in Hmk. lia.
    + by apply Forall_filter_bool.
  - intros Hins. apply insert_investor_swipes_Ok in Hins as Hok.
    destruct Hok as (Hact & Hnone & Hrows).
    revert Hins. unfold insert_investor_swipes.
    destruct (mem (sw_id r) _) eqn:Hid; [discriminate |].
    destruct (mem (sw_investor_id r) _); cbn; [| discriminate].
    destruct (mem (sw_startup_id r) _); cbn; [| discriminate].
    destruct (action_check (sw_action r)) eqn:Haction; cbn; [| discriminate].
    destruct (existsb _ _); [discriminate |].
    intros [= <-]. constructor; cbn; try assumption.
    + apply NoDup_map_snoc; [exact Hwp | by apply mem_false].
    + intros i w. unfold swipes_of in *. cbn.
      rewrite List.filter_app, length_app. cbn [List.filter].
      destruct (same_swipe i w r) eqn:Hr; cbn [length].
      * apply same_swipe_true in Hr as [<- <-]. rewrite Hnone. cbn. lia.
      * specialize (Hwk i w). unfold swipes_of in Hwk. lia.
    + by apply Forall_snoc.
  - unfold update_investor_swipes.
    destruct (action_check a) eqn:Hact; cbn; [| discriminate].
    intros [= <-]. constructor; cbn; try assumption.
    + rewrite map_map_if; [exact Hwp | reflexivity].
    + intros i0 w0. unfold swipes_of. cbn.
      rewrite filter_after_map by reflexivity. rewrite length_map. apply Hwk.
    + clear -Hac Hact.
      induction Hac as [| r l Hr Hl IH]; cbn; constructor; [| exact IH].
      destruct (same_swipe i w r); [exact Hact | exact Hr].
  - intros [= <-]. constructor; cbn; try assumption.
    + by apply NoDup_map_filter.
    + intros i0 w0. unfold swipes_of. cbn.
      pose proof (length_filter_filter (same_swipe i0 w0)
                    (fun r => negb (same_swipe i w r)) (investor_swipes s)).
      specialize (Hwk i0 w0). unfold swipes_of in Hwk. lia.
    + by apply Forall_filter_bool.
Qed.

Lemma execute_referential (st : statement) (s s' : Store) :
  referential s -> execute st s = Ok s' -> referential s'.
Proof.
  intros [Hf Hms Hmu Hws Hwi Hin Hex Hiv].
  destruct st as [r | sid code | sid | r | w u role | w u | r | i w a t | i w];
    cbn [execute].
  - unfold insert_startups.
    destruct (mem (s_id r) _); [discriminate |].
    destruct (mem (s_founder_id r) _) eqn:Hfounder; cbn; [| discriminate].
    intros [= <-]. constructor; cbn; try assumption;
      try (by apply Forall_more_startups).
    apply Forall_snoc; [exact Hf | by apply mem_true].
  - unfold update_startups_invite_code. intros [= <-].
    constructor; cbn; try assumption;
      try (rewrite map_map_if; [assumption | reflexivity]).
    apply Forall_map_if; auto.
  - intros [= <-]. constructor; cbn;
      try (by apply Forall_filter_bool);
      try (by apply (Forall_cascade sm_startup_id));
      try (by apply (Forall_cascade sw_startup_id));
      try (by apply (Forall_cascade l_startup_id));
      try (by apply (Forall_cascade iv_startup_id)).
  - unfold insert_startup_members.
    destruct (mem (sm_id r) _); [discriminate |].
    destruct (mem (sm_startup_id r) _) eqn:Hw; cbn; [| discriminate].
    destruct (mem (sm_user_id r) _) eqn:Hu; cbn; [| discriminate].
    destruct (role_check (sm_role r)); cbn; [| discriminate].
    destruct (existsb _ _); [discriminate |].
    intros [= <-]. constructor; cbn; try assumption;
      apply Forall_snoc; try assumption; by apply mem_true.
  - unfold update_startup_members.
    destruct (role_check role); cbn; [| discriminate].
    intros [= <-]. constructor; cbn; try assumption;
      apply Forall_map_if; auto.
  - intros [= <-]. constructor; cbn; try assumption;
      by apply Forall_filter_bool.
  - unfold insert_investor_swipes.
    destruct (mem (sw_id r) _); [discriminate |].
    destruct (mem (sw_investor_id r) _) eqn:Hi; cbn; [| discriminate].
    destruct (mem (sw_startup_id r) _) eqn:Hw; cbn; [| discriminate].
    destruct (action_check (sw_action r)); cbn; [| discriminate].
    destruct (existsb _ _); [discriminate |].
    intros [= <-]. constructor; cbn; try assumption;
      apply Forall_snoc; try assumption; by apply mem_true.
  - unfold update_investor_swipes.
    destruct (action_check a); cbn; [| discriminate].
    intros [= <-]. constructor; cbn; try assumption;
      apply Forall_map_if; auto.
  - intros [= <-]. constructor; cbn; try assumption;
      by apply Forall_filter_bool.
Qed.

(** X20: the declared keys and checks hold after any sequence of
    statements on workspaces, memberships and swipes, whichever of them
    are refused: ids are not repeated, a user has at most one membership
    in a workspace and an investor at most one swipe on it, and every role
    and action is one of the listed words. *)
Theorem script_constrained (sts : list statement) (s : Store) :
  constrained s -> constrained (script sts s).
Proof.
  revert s. induction sts as [| st sts IH]; intros s Hs; [exact Hs |].
  cbn. apply IH. unfold after.
  destruct (execute st s) as [s' | e] eqn:Hex; [| exact Hs].
  by apply (execute_constrained st s).
Qed.

(** X21: the references hold after any sequence of those statements:
    deleting a workspace takes its memberships, swipes, income, expenses
    and investments with it, so every remaining row still belongs to a
    workspace of the store, and to a known user. *)
Theorem script_referential (sts : list statement) (s : Store) :
  referential s -> referential (script sts s).
Proof.
  revert s. induction sts as [| st sts IH]; intros s Hs; [exact Hs |].
  cbn. apply IH. unfold after.
  destruct (execute st s) as [s' | e] eqn:Hex; [| exact Hs].
  by apply (execute_referential st s).
Qed.

End Tables.

Lemma script_constrained_witness :
  let second_row :=
    {| Db.sw_id := "swipe-2"; Db.sw_investor_id := "investor-1";
       Db.sw_startup_id := "startup-1"; Db.sw_action := "passed";
       Db.sw_created_at := 2%Z |} in
  let sts :=
    [Schema.InsertInvestorSwipes Examples.interested_row;
     Schema.InsertInvestorSwipes second_row;
     Schema.UpdateStartupMembers "startup-1" "founder-1" "owner";
     Schema.InsertStartupMembers
       (Examples.membership "m-2" "startup-1" "investor-1" "investor")] in
  Schema.constrained Examples.one_startup /\
  Schema.constrained (Schema.script sts Examples.one_startup) /\
  Db.investor_swipes (Schema.script sts Examples.one_startup)
    = [Examples.interested_row] /\
  map Db.sm_role (Db.startup_members (Schema.script sts Examples.one_startup))
    = ["founder"; "investor"].
Proof.
  cbv zeta.
  assert (H : Schema.constrained Examples.one_startup).
  { constructor; cbn.
    - apply (bool_decide_unpack _). vm_compute. reflexivity.
    - apply (bool_decide_unpack _). vm_compute. reflexivity.
    - apply (bool_decide_unpack _). vm_compute. reflexivity.
    - intros w u. unfold Db.members_of. cbn.
      destruct (Db.same_member w u _); cbn; lia.
    - intros i w. cbn. lia.
    - repeat constructor.
    - constructor. }
  split; [exact H |].
  split; [| split; vm_compute; reflexivity].
  exact (script_constrained _ Examples.one_startup H).
Defined.

Lemma script_referential_witness :
  let s := Schema.script [Schema.DeleteStartups "startup-1"] Examples.books in
  Schema.referential Examples.books /\
  Schema.referential s /\
  map Db.s_id (Db.startups s) = ["startup-2"] /\
  map Db.sm_id (Db.startup_members s) = ["m-5"] /\
  map Db.l_id (Db.income s) = ["i-3"] /\
  map Db.l_id (Db.expenses s) = ["e-2"] /\
  Db.investments s = [].
Proof.
  cbv zeta.
  assert (H : Schema.referential Examples.books).
  { constructor; cbn; repeat constructor;
      apply (bool_decide_unpack _); vm_compute; reflexivity. }
  split; [exact H |].
  split; [| repeat split; vm_compute; reflexivity].
  exact (script_referential _ Examples.books H).
Defined.

Section Cascade.

Import Db Schema.

Lemma filter_other_id {A : Type} (k : A -> uuid) (sid w : uuid) (l : list A) :
  w <> sid ->
  List.filter (fun r => bool_decide (k r = w))
              (List.filter (fun r => negb (bool_decide (k r = sid))) l)
  = List.filter (fun r => bool_decide (k r = w)) l.
Proof.
  intros Hne. apply filter_after_negb. intros r Hr.
  apply bool_decide_eq_true in Hr. apply bool_decide_eq_false. congruence.
Qed.

(** X22: deleting a workspace removes its row and every row that refers
    to it, in all six tables, and nothing else: the part of the store that
    belongs to any other workspace is as before. *)
Theorem delete_startups_cascade (sid : uuid) (s : Store) :
  rows_of sid (delete_startups sid s) = no_rows (auth_users s) /\
  forall w, w <> sid -> rows_of w (delete_startups sid s) = rows_of w s.
Proof.
  split.
  - unfold rows_of, delete_startups, no_rows. cbn.
    f_equal; apply (filter_filter_negb (fun r => bool_decide (_ r = sid))).
  - intros w Hne. unfold rows_of, delete_startups. cbn.
    f_equal; by apply (filter_other_id _ sid w).
Qed.

(** X23: a swipe that was inserted and is then deleted by its pair, and a
    membership that was inserted and is then deleted by its pair, leave the
    store exactly as it was before the insertion. *)
Theorem insert_then_delete (s : Store) :
  (forall r s', insert_investor_swipes r s = Ok s' ->
     delete_investor_swipes (sw_investor_id r) (sw_startup_id r) s' = s) /\
  (forall r s', insert_startup_members r s = Ok s' ->
     delete_startup_members (sm_startup_id r) (sm_user_id r) s' = s).
Proof.
  split; intros r s' Hins.
  - apply insert_investor_swipes_Ok in Hins as Hok.
    destruct Hok as (_ & Hnone & _).
    revert Hins. unfold insert_investor_swipes.
    repeat (destruct (_ : bool); cbn; try discriminate).
    intros [= <-]. unfold delete_investor_swipes. cbn.
    rewrite List.filter_app. cbn [List.filter].
    assert (Hr : same_swipe (sw_investor_id r) (sw_startup_id r) r = true)
      by (by apply same_swipe_true).
    rewrite Hr. cbn. rewrite app_nil_r.
    unfold swipes_of in Hnone. apply filter_negb_fixed in Hnone. rewrite Hnone.
    unfold set_investor_swipes. cbn. by destruct s.
  - apply insert_startup_members_Ok in Hins as Hok.
    destruct Hok as (_ & _ & Hnone).
    revert Hins. unfold insert_startup_members.
    repeat (destruct (_ : bool); cbn; try discriminate).
    intros [= <-]. unfold delete_startup_members. cbn.
    rewrite List.filter_app. cbn [List.filter].
    assert (Hr : same_member (sm_startup_id r) (sm_user_id r) r = true)
      by (by apply same_member_true).
    rewrite Hr. cbn. rewrite app_nil_r.
    unfold members_of in Hnone. apply filter_negb_fixed in Hnone. rewrite Hnone.
    unfold set_startup_members. cbn. by destruct s.
Qed.

End Cascade.

Lemma insert_then_delete_witness :
  let s := Examples.one_startup in
  let s' := Db.set_investor_swipes [Examples.interested_row] s in
  Db.insert_investor_swipes Examples.interested_row s = Db.Ok s' /\
  Db.delete_investor_swipes "investor-1" "startup-1" s' = s.
Proof.
  cbv zeta. split; [reflexivity |].
  exact (proj1 (insert_then_delete Examples.one_startup)
               Examples.interested_row _ eq_refl).
Defined.
